(** * nfl-tippspiel: a shallow embedding of [app.py]

    The application keeps two JSON files ([users.json], [picks.json]),
    talks to the ESPN scoreboard API and serves a handful of Flask routes.
    This development embeds the functions of [app.py] that carry logic:
    [load_json], [save_json], [get_espn_schedule], [determine_winners],
    [login], [logout], [week_view], [check_user] and the scoring loop of
    [scoreboard].

    Python values are embedded as follows.
    - A JSON document (what [json.load] and [requests.Response.json]
      return) is a value of [json]; objects are association lists in
      insertion order, as Python dictionaries are.
    - A Python exception is a value of [exn]; code that may raise returns
      a [result].
    - Text is [string]; a character is one of the first 256 code points.
      The content of a file is the [string] of its bytes.
    - A [datetime] that carries the UTC time zone is the integer number of
      microseconds since the epoch, so that [<] on aware datetimes is [<]
      on [Z].
    - Library functions whose bodies are not part of the repository
      ([json.loads], [json.dumps], [datetime.strptime], [repr], werkzeug's
      password hashing) are the fields of the class [PyLib].
    - Failures of the operating system (a file that cannot be opened or
      written) and resource limits (memory, recursion depth, the length
      of an integer literal) are outside the model. *)

From Stdlib Require Import ZArith Ascii String Floats Uint63 Sorted.
From stdpp Require Import base gmap strings list pretty.

Set Warnings "-register-all".

Open Scope Z_scope.

(** ** Python values *)

(** Python's two numeric types that JSON numbers decode to. *)
Inductive number : Type :=
| Int (z : Z)
| Float (f : float).

Inductive json : Type :=
| JNull
| JBool (b : bool)
| JNum (n : number)
| JStr (s : string)
| JArr (items : list json)
| JObj (fields : list (string * json)).

Inductive exn : Type :=
| KeyError
| IndexError
| TypeError
| AttributeError
| ValueError
| JSONDecodeError
| UnicodeDecodeError.

Inductive result (A : Type) : Type :=
| Ok (a : A)
| Raise (e : exn).

Arguments Ok {A} a.
Arguments Raise {A} e.

Definition bind {A B : Type} (r : result A) (k : A -> result B) : result B :=
  match r with
  | Ok a => k a
  | Raise e => Raise e
  end.

Notation "'do' x <- r ; k" := (bind r (fun x => k))
  (at level 10, x name, r at level 100, k at level 200,
   format "'[v' 'do'  x  <-  r ; '/' k ']'").

Definition is_ok {A : Type} (r : result A) : Prop :=
  match r with Ok _ => True | Raise _ => False end.

(** [try: body except E: handler], where [catches] recognises [E]. *)
Definition try_except {A : Type} (body : result A) (catches : exn -> bool)
    (handler : result A) : result A :=
  match body with
  | Ok a => Ok a
  | Raise e => if catches e then handler else Raise e
  end.

Definition is_JSONDecodeError (e : exn) : bool :=
  match e with JSONDecodeError => true | _ => false end.

(** [JSONDecodeError] and [UnicodeDecodeError] are subclasses of
    [ValueError]. *)
Definition is_ValueError (e : exn) : bool :=
  match e with
  | ValueError | JSONDecodeError | UnicodeDecodeError => true
  | _ => false
  end.

(** A [for] loop whose body may raise: the state is threaded through the
    items in order and the first exception leaves the loop. *)
Fixpoint for_each {S A : Type} (body : S -> A -> result S) (l : list A) (s : S)
    : result S :=
  match l with
  | [] => Ok s
  | x :: l' => do s' <- body s x ; for_each body l' s'
  end.

(** ** Dictionaries with string keys *)

Fixpoint dict_get {A : Type} (d : list (string * A)) (k : string) : option A :=
  match d with
  | [] => None
  | (k', v) :: d' => if String.eqb k' k then Some v else dict_get d' k
  end.

(** [d[k] = v]: an existing key keeps its position, a new key goes last. *)
Fixpoint dict_set {A : Type} (d : list (string * A)) (k : string) (v : A)
    : list (string * A) :=
  match d with
  | [] => [(k, v)]
  | (k', v') :: d' =>
      if String.eqb k' k then (k', v) :: d' else (k', v') :: dict_set d' k v
  end.

(** ** Python operators on JSON values *)

(** [bool(x)]: what [not x] and [if x] test. *)
Definition truthy (x : json) : bool :=
  match x with
  | JNull => false
  | JBool b => b
  | JNum (Int z) => negb (z =? 0)
  | JNum (Float f) => negb (PrimFloat.eqb f PrimFloat.zero)
  | JStr s => negb (String.eqb s "")
  | JArr l => match l with [] => false | _ => true end
  | JObj d => match d with [] => false | _ => true end
  end.

(** [needle in haystack] on strings. *)
Fixpoint is_substring (needle haystack : string) : bool :=
  String.prefix needle haystack
  || match haystack with
     | EmptyString => false
     | String _ rest => is_substring needle rest
     end.

Definition is_str (k : string) (x : json) : bool :=
  match x with JStr s => String.eqb s k | _ => false end.

(** [k in c] for a string [k]: key of a dict, element of a list, substring
    of a string; other values are not iterable. *)
Definition py_in (k : string) (c : json) : result bool :=
  match c with
  | JObj d => Ok (match dict_get d k with Some _ => true | None => false end)
  | JArr l => Ok (existsb (is_str k) l)
  | JStr s => Ok (is_substring k s)
  | _ => Raise TypeError
  end.

(** [c[k]] for a string [k]. *)
Definition getitem (c : json) (k : string) : result json :=
  match c with
  | JObj d => match dict_get d k with Some v => Ok v | None => Raise KeyError end
  | _ => Raise TypeError
  end.

(** [c[0]]. The keys of a decoded JSON object are strings, so [0] is never
    one of them. *)
Definition getitem0 (c : json) : result json :=
  match c with
  | JArr (x :: _) => Ok x
  | JArr [] => Raise IndexError
  | JStr (String a _) => Ok (JStr (String a ""))
  | JStr EmptyString => Raise IndexError
  | JObj _ => Raise KeyError
  | _ => Raise TypeError
  end.

(** [c[k] = v] for a string [k]. *)
Definition setitem (c : json) (k : string) (v : json) : result json :=
  match c with
  | JObj d => Ok (JObj (dict_set d k v))
  | _ => Raise TypeError
  end.

(** [c.get(k, dflt)]: only dictionaries have the method. *)
Definition get_default (c : json) (k : string) (dflt : json) : result json :=
  match c with
  | JObj d => Ok (default dflt (dict_get d k))
  | _ => Raise AttributeError
  end.

Fixpoint chars (s : string) : list json :=
  match s with
  | EmptyString => []
  | String a rest => JStr (String a "") :: chars rest
  end.

(** The items a [for x in c] loop visits. *)
Definition py_iter (c : json) : result (list json) :=
  match c with
  | JArr l => Ok l
  | JObj d => Ok (map (fun kv => JStr (fst kv)) d)
  | JStr s => Ok (chars s)
  | _ => Raise TypeError
  end.

(** ** Library functions used by the application *)

Class PyLib : Type := {
  (** [repr] of a float, a list or a dict: what [str] returns on them. *)
  py_repr : json -> string;
  (** The text that [read()] yields for the bytes of a file opened with
      [open(filename, 'r')], in the encoding of the locale; [None] stands
      for [UnicodeDecodeError]. *)
  decode_text : string -> option string;
  (** [datetime.strptime(s, "%Y-%m-%dT%H:%MZ").replace(tzinfo=utc)];
      [None] stands for the [ValueError] of a text that does not match. *)
  strptime_utc : string -> option Z;
  (** [json.loads]; [None] stands for [json.JSONDecodeError]. *)
  json_loads : string -> option json;
  (** [json.dumps(data, indent=4)]: ASCII text, whose bytes are its
      characters. *)
  json_dumps : json -> string;
  (** werkzeug's [generate_password_hash], as a function of the salt it
      draws and the password. *)
  generate_password_hash : string -> string -> string;
  (** werkzeug's [check_password_hash(pwhash, password)]. *)
  check_password_hash : json -> string -> result bool;
}.

Section Application.

Context {lib : PyLib}.

(** [str(x)]. *)
Definition py_str (x : json) : string :=
  match x with
  | JStr s => s
  | JNum (Int z) => pretty z
  | JBool true => "True"
  | JBool false => "False"
  | JNull => "None"
  | _ => py_repr x
  end.

(** ** Winner resolver *)

(** [event['competitions'][0]] *)
Definition competition_of (event : json) : result json :=
  do cs <- getitem event "competitions" ; getitem0 cs.

(** [competition['status']['type']['completed']], as the [if] reads it. *)
Definition completed (competition : json) : result bool :=
  do st <- getitem competition "status" ;
  do ty <- getitem st "type" ;
  do c <- getitem ty "completed" ;
  Ok (truthy c).

(** [competitor.get('winner', False)], as the [if] reads it. *)
Definition flagged_winner (competitor : json) : result bool :=
  do fl <- get_default competitor "winner" (JBool false) ; Ok (truthy fl).

(** [competitor['team']['id']] *)
Definition team_id (competitor : json) : result json :=
  do team <- getitem competitor "team" ; getitem team "id".

(** [str(event['id'])] *)
Definition game_key (event : json) : result string :=
  do i <- getitem event "id" ; Ok (py_str i).

(** The body of the inner loop. The right-hand side of the assignment is
    evaluated before the subscript of its target. *)
Definition record_winner (event : json) (winners : gmap string json)
    (competitor : json) : result (gmap string json) :=
  do fl <- flagged_winner competitor ;
  if fl then
    do t <- team_id competitor ;
    do k <- game_key event ;
    Ok (<[k := t]> winners)
  else Ok winners.

(** The body of the outer loop. *)
Definition record_event (winners : gmap string json) (event : json)
    : result (gmap string json) :=
  do competition <- competition_of event ;
  do c <- completed competition ;
  if c then
    do cs <- getitem competition "competitors" ;
    do competitors <- py_iter cs ;
    for_each (record_winner event) competitors winners
  else Ok winners.

Definition determine_winners (games : json) : result (gmap string json) :=
  if negb (truthy games) then Ok ∅
  else
    do has_events <- py_in "events" games ;
    if negb has_events then Ok ∅
    else
      do evs <- get_default games "events" (JArr []) ;
      do events <- py_iter evs ;
      for_each record_event events ∅.

(** ** Record store *)

Definition PICKS_FILE : string := "picks.json".
Definition USERS_FILE : string := "users.json".

(** What a request can read and change: the bytes of every file that
    exists, the calls of [save_json] made so far (file name and bytes
    written, oldest first), the [user] key of the Flask session and the
    flashed messages. *)
Record world : Type := {
  files : gmap string string;
  saves : list (string * string);
  session_user : option string;
  flashes : list string;
}.

(** [json.load(f)] on a file opened in text mode: [f.read()] decodes the
    bytes, [json.loads] parses the text. *)
Definition json_load (content : string) : result json :=
  match decode_text content with
  | None => Raise UnicodeDecodeError
  | Some text =>
      match json_loads text with
      | Some doc => Ok doc
      | None => Raise JSONDecodeError
      end
  end.

Definition load_json (fs : gmap string string) (filename : string)
    : result json :=
  match fs !! filename with
  | None => Ok (JObj [])
  | Some content =>
      try_except (json_load content) is_JSONDecodeError (Ok (JObj []))
  end.

Definition save_json (filename : string) (doc : json) (w : world) : world :=
  {| files := <[filename := json_dumps doc]> (files w);
     saves := saves w ++ [(filename, json_dumps doc)];
     session_user := session_user w;
     flashes := flashes w |}.

Definition flash (msg : string) (w : world) : world :=
  {| files := files w;
     saves := saves w;
     session_user := session_user w;
     flashes := flashes w ++ [msg] |}.

(** [session['user'] = username] *)
Definition set_session (username : string) (w : world) : world :=
  {| files := files w;
     saves := saves w;
     session_user := Some username;
     flashes := flashes w |}.

(** ** Results source adapter *)

(** What one request finds outside the process: the document the ESPN
    scoreboard answers for a week ([None] when the request or the decoding
    of its body raises), the clock, and the salt the hashing library
    draws. *)
Record outside : Type := {
  espn_response : Z -> option json;
  now_utc : Z;
  fresh_salt : string;
}.

Definition get_espn_schedule (o : outside) (week : Z) : json :=
  match espn_response o week with
  | Some doc => doc
  | None => JObj [("events", JArr [])]
  end.

(** ** Authentication *)

(** [str.isspace] on the first 256 code points. *)
Definition py_isspace (a : ascii) : bool :=
  let n := N_of_ascii a in
  ((9 <=? n) && (n <=? 13) || (28 <=? n) && (n <=? 32)
   || (n =? 133) || (n =? 160))%N.

Fixpoint lstrip (s : string) : string :=
  match s with
  | EmptyString => EmptyString
  | String a rest => if py_isspace a then lstrip rest else s
  end.

(** [s.strip()] *)
Definition strip (s : string) : string :=
  String.rev (lstrip (String.rev (lstrip s))).

(** [not password], for what [request.form.get('password')] returns. *)
Definition missing (password : option string) : bool :=
  match password with
  | None => true
  | Some p => String.eqb p ""
  end.

Inductive response : Type :=
| Redirect (location : string)
| RenderWeek (week : Z) (schedule user_picks : json) (current_time : Z).

Definition login (o : outside) (form : list (string * string)) (w : world)
    : result response * world :=
  let username := strip (default "" (dict_get form "username")) in
  let password := dict_get form "password" in
  if String.eqb username "" || missing password then
    (Ok (Redirect "/"), flash "Username and password are required." w)
  else
    let password := default "" password in
    match load_json (files w) USERS_FILE with
    | Raise ex => (Raise ex, w)
    | Ok users =>
        match py_in username users with
        | Raise ex => (Raise ex, w)
        | Ok false =>
            let pwhash := generate_password_hash (fresh_salt o) password in
            match setitem users username (JStr pwhash) with
            | Raise ex => (Raise ex, w)
            | Ok users' =>
                let w := save_json USERS_FILE users' w in
                let w := set_session username w in
                let w :=
                  flash ("Welcome to the league, " +:+ username
                         +:+ "! Your account is created.") w in
                (Ok (Redirect "/"), w)
            end
        | Ok true =>
            match
              (do pwhash <- getitem users username ;
               check_password_hash pwhash password)
            with
            | Raise ex => (Raise ex, w)
            | Ok true => (Ok (Redirect "/"), set_session username w)
            | Ok false =>
                (Ok (Redirect "/"),
                 flash "Incorrect password. Please try again." w)
            end
        end
    end.

(** [session.pop('user', None)] and the redirect. *)
Definition logout (w : world) : result response * world :=
  (Ok (Redirect "/"),
   {| files := files w;
      saves := saves w;
      session_user := None;
      flashes := flashes w |}).

(** ** Pick submission flow *)

Inductive http_method : Type := GET | POST.

(** Lines 139-143: the entries of the week and of the user in it are
    created empty when absent. *)
Definition ensure_entries (all_data : json) (week_str user : string)
    : result json :=
  do has_week <- py_in week_str all_data ;
  do all_data <-
    (if negb has_week then setitem all_data week_str (JObj [])
     else Ok all_data) ;
  do wk <- getitem all_data week_str ;
  do has_user <- py_in user wk ;
  if negb has_user then
    do wk' <- setitem wk user (JObj []) ;
    setitem all_data week_str wk'
  else Ok all_data.

(** The body of the loop that fills [game_start_times]: the [ValueError]
    of [strptime] skips the event, every other exception leaves the
    handler. *)
Definition kickoff_entry (game_start_times : gmap string Z) (event : json)
    : result (gmap string Z) :=
  try_except
    (do date <- getitem event "date" ;
     do start_time <-
       match date with
       | JStr s =>
           match strptime_utc s with
           | Some t => Ok t
           | None => Raise ValueError
           end
       | _ => Raise TypeError
       end ;
     do k <- game_key event ;
     Ok (<[k := start_time]> game_start_times))
    is_ValueError
    (Ok game_start_times).

Definition game_start_times (schedule : json) : result (gmap string Z) :=
  do evs <- get_default schedule "events" (JArr []) ;
  do events <- py_iter evs ;
  for_each kickoff_entry events ∅.

(** [all_data[week_str][user]] *)
Definition user_picks_of (all_data : json) (week_str user : string)
    : result json :=
  do wk <- getitem all_data week_str ; getitem wk user.

(** [all_data[week_str][user][game_id] = team_id]: the inner dictionary is
    changed in place, which [all_data] sees. *)
Definition store_pick (all_data : json) (week_str user game_id team_id : string)
    : result json :=
  do wk <- getitem all_data week_str ;
  do picks <- getitem wk user ;
  do picks' <- setitem picks game_id (JStr team_id) ;
  do wk' <- setitem wk user picks' ;
  setitem all_data week_str wk'.

(** [not kickoff or now < kickoff], where [kickoff] is [None] or a
    [datetime] (which is never false). *)
Definition pick_open (now : Z) (kickoff : option Z) : bool :=
  match kickoff with
  | None => true
  | Some k => now <? k
  end.

Record tally : Type := {
  data : json;
  saved_count : nat;
  blocked_count : nat;
}.

(** The body of the loop over [request.form.items()]. *)
Definition submit_entry (now : Z) (start_times : gmap string Z)
    (week_str user : string) (st : tally) (entry : string * string)
    : result tally :=
  let kickoff := start_times !! entry.1 in
  if pick_open now kickoff then
    do d <- store_pick (data st) week_str user entry.1 entry.2 ;
    Ok {| data := d;
          saved_count := S (saved_count st);
          blocked_count := blocked_count st |}
  else
    Ok {| data := data st;
          saved_count := saved_count st;
          blocked_count := S (blocked_count st) |}.

Definition submit_picks (now : Z) (start_times : gmap string Z)
    (week_str user : string) (all_data : json) (form : list (string * string))
    : result tally :=
  for_each (submit_entry now start_times week_str user) form
    {| data := all_data; saved_count := 0; blocked_count := 0 |}.

Definition submit_message (week : Z) (st : tally) : string :=
  if (0 <? blocked_count st)%nat then
    "Saved " +:+ pretty (saved_count st) +:+ " picks. "
    +:+ pretty (blocked_count st) +:+ " games were already locked."
  else "Picks successfully saved for Week " +:+ pretty week +:+ "!".

Definition week_view (o : outside) (method : http_method) (week : Z)
    (form : list (string * string)) (w : world) : result response * world :=
  match session_user w with
  | None => (Ok (Redirect "/"), w)
  | Some user =>
      let week_str := pretty week in
      match
        (do all_data <- load_json (files w) PICKS_FILE ;
         ensure_entries all_data week_str user)
      with
      | Raise ex => (Raise ex, w)
      | Ok all_data =>
          let schedule := get_espn_schedule o week in
          let now := now_utc o in
          match method with
          | POST =>
              match
                (do start_times <- game_start_times schedule ;
                 submit_picks now start_times week_str user all_data form)
              with
              | Raise ex => (Raise ex, w)
              | Ok st =>
                  let w := save_json PICKS_FILE (data st) w in
                  let w := flash (submit_message week st) w in
                  (Ok (Redirect ("/week/" +:+ week_str)), w)
              end
          | GET =>
              match
                (do wk <- getitem all_data week_str ;
                 get_default wk user (JObj []))
              with
              | Raise ex => (Raise ex, w)
              | Ok user_picks =>
                  (Ok (RenderWeek week schedule user_picks now), w)
              end
          end
      end
  end.

End Application.

(** ** Leaderboard: the totals of the selected player *)

(** [float(n)] for a count; exact below [2^53]. *)
Definition of_count (n : Z) : float := PrimFloat.of_uint63 (Uint63.of_Z n).

(** The integer nearest to [num / den], ties to the even one ([den > 0]). *)
Definition round_half_even (num den : Z) : Z :=
  let q := num / den in
  let r := num mod den in
  if 2 * r <? den then q
  else if den <? 2 * r then q + 1
  else if Z.even q then q else q + 1.

(** [round(x, 1)] on a float: the double nearest to the one-decimal number
    nearest to [x], ties between decimals to the even one. The number of
    tenths is computed on the exact value of [x]; the model is exact for
    [|x| < 2^49], which covers every percentage. *)
Definition py_round1 (x : float) : float :=
  match Prim2SF x with
  | S754_finite s m e =>
      if 0 <=? e then x
      else
        let tenths := round_half_even (Z.pos m * 10) (2 ^ (- e)) in
        let r := PrimFloat.div (of_count tenths) (of_count 10) in
        if s then PrimFloat.opp r else r
  | _ => x
  end.

(** Line 247:
    [round((total_wins / total_picks * 100), 1) if total_picks > 0 else 0] *)
Definition win_rate (total_wins total_picks : Z) : number :=
  if 0 <? total_picks then
    Float (py_round1
             (PrimFloat.mul
                (PrimFloat.div (of_count total_wins) (of_count total_picks))
                (of_count 100)))
  else Int 0.

(** [game_id in winners and winners[game_id] == picked_team_id], for a
    picked team that is a string. *)
Definition is_win (winners : gmap string json) (game_id picked_team_id : string)
    : bool :=
  match winners !! game_id with
  | Some t => is_str picked_team_id t
  | None => false
  end.

Record totals : Type := {
  total_picks : Z;
  total_wins : Z;
}.

(** Lines 226-233, for the two counters: one pick of [player]. *)
Definition count_pick (selected_player : string) (winners : gmap string json)
    (player : string) (t : totals) (pick : string * string) : totals :=
  if String.eqb player selected_player then
    {| total_picks := total_picks t + 1;
       total_wins :=
         if is_win winners pick.1 pick.2 then total_wins t + 1
         else total_wins t |}
  else t.

(** Lines 208-244 of [scoreboard], for [total_picks] and [total_wins]: the
    loops over the weeks of the pick document, the players of a week and
    the picks of a player. The document has the shape the application
    writes (week, then player, then game, then picked team), in the order
    [items()] yields; [winners_of week_str] is the winner map the handler
    resolves for that week. *)
Definition scoreboard_totals (selected_player : string)
    (winners_of : string -> gmap string json)
    (all_data : list (string * list (string * list (string * string))))
    : totals :=
  fold_left
    (fun t week_entry =>
       fold_left
         (fun t player_entry =>
            fold_left
              (count_pick selected_player (winners_of week_entry.1)
                 player_entry.1)
              player_entry.2 t)
         week_entry.2 t)
    all_data {| total_picks := 0; total_wins := 0 |}.

Definition scoreboard_win_rate (selected_player : string)
    (winners_of : string -> gmap string json)
    (all_data : list (string * list (string * list (string * string))))
    : number :=
  let t := scoreboard_totals selected_player winners_of all_data in
  win_rate (total_wins t) (total_picks t).

(** The win rate as the specification words it:
    [round(100 * wins / picks, 1)], and [0] without picks. *)
Definition claimed_win_rate (wins picks : Z) : number :=
  if picks =? 0 then Int 0
  else Float (py_round1 (PrimFloat.div (of_count (100 * wins)) (of_count picks))).

(** The picks of a player over all weeks, as (week, game, team), and the
    ones among them that name the resolved winner of their game. *)
Definition week_picks_of_player (player : string)
    (week_entry : string * list (string * list (string * string)))
    : list (string * (string * string)) :=
  flat_map
    (λ player_entry : string * list (string * string),
       if String.eqb player_entry.1 player
       then List.map (λ pick, (week_entry.1, pick)) player_entry.2
       else [])
    week_entry.2.

Definition picks_of_player (player : string)
    (all_data : list (string * list (string * list (string * string))))
    : list (string * (string * string)) :=
  flat_map (week_picks_of_player player) all_data.

Definition pick_won (winners_of : string -> gmap string json)
    (p : string * (string * string)) : bool :=
  is_win (winners_of p.1) p.2.1 p.2.2.

Definition picks_made (player : string)
    (all_data : list (string * list (string * list (string * string)))) : Z :=
  Z.of_nat (length (picks_of_player player all_data)).

Definition picks_won (player : string)
    (winners_of : string -> gmap string json)
    (all_data : list (string * list (string * list (string * string)))) : Z :=
  Z.of_nat
    (length (List.filter (pick_won winners_of) (picks_of_player player all_data))).

(** The number of tenths [n] as a float: the double nearest to [n / 10]. *)
Definition tenths (n : Z) : float := PrimFloat.div (of_count n) (of_count 10).

(** ** Predicates of the statements *)

(** [k -> t] can be traced to an event of the schedule with key [k] whose
    competition is completed and has a competitor flagged as winner whose
    team id is [t]. *)
Definition winner_evidence {lib : PyLib} (games : json) (k : string) (t : json)
    : Prop :=
  ∃ evs events event competition cs competitors competitor,
    get_default games "events" (JArr []) = Ok evs
    ∧ py_iter evs = Ok events
    ∧ event ∈ events
    ∧ game_key event = Ok k
    ∧ competition_of event = Ok competition
    ∧ completed competition = Ok true
    ∧ getitem competition "competitors" = Ok cs
    ∧ py_iter cs = Ok competitors
    ∧ competitor ∈ competitors
    ∧ flagged_winner competitor = Ok true
    ∧ team_id competitor = Ok t.

Definition is_dict (x : json) : Prop :=
  match x with JObj _ => True | _ => False end.

(** The shape of the pick document: weeks, then users, then picks. *)
Definition pick_document (doc : json) : Prop :=
  match doc with
  | JObj weeks =>
      Forall
        (λ week_entry,
           match week_entry.2 with
           | JObj users => Forall (λ user_entry, is_dict user_entry.2) users
           | _ => False
           end)
        weeks
  | _ => False
  end.

(** The condition under which the flow keeps a pick: the game has no
    known kickoff, or the clock is before it. *)
Definition open_for_picks (now : Z) (start_times : gmap string Z)
    (game_id : string) : Prop :=
  start_times !! game_id = None
  ∨ ∃ kickoff, start_times !! game_id = Some kickoff ∧ now < kickoff.

(** The picks of one user after a submission: the entries that are open
    are written in the order of the form. *)
Definition merge_picks (now : Z) (start_times : gmap string Z)
    (picks : list (string * json)) (form : list (string * string))
    : list (string * json) :=
  fold_left
    (λ p entry,
       if pick_open now (start_times !! entry.1)
       then dict_set p entry.1 (JStr entry.2)
       else p)
    form picks.

(** ** A model of the library interface

    The theorems hold for every instance of [PyLib]. The examples run the
    handlers on concrete requests with the instance below: timestamps and
    file texts are tabulated for the arguments the examples pass, bytes
    decode unless the byte 255 is among them (it occurs in no UTF-8
    text), and a password hash is the salt, a dollar sign and the
    password. *)

Fixpoint has_byte_255 (s : string) : bool :=
  match s with
  | EmptyString => false
  | String a rest => Ascii.eqb a "255" || has_byte_255 rest
  end.

Fixpoint after_dollar (s : string) : string :=
  match s with
  | EmptyString => EmptyString
  | String a rest => if Ascii.eqb a "$" then rest else after_dollar rest
  end.

Definition sample_users : json := JObj [("bob", JStr "pepper$hunter2")].

Definition model_lib : PyLib := {|
  py_repr := λ _, "<repr>";
  decode_text := λ bytes, if has_byte_255 bytes then None else Some bytes;
  strptime_utc := λ s,
    if String.eqb s "2024-09-08T17:00Z" then Some 1725814800000000
    else if String.eqb s "2024-09-09T00:20Z" then Some 1725841200000000
    else None;
  json_loads := λ s,
    if String.eqb s "{}" then Some (JObj [])
    else if String.eqb s "<users>" then Some sample_users
    else None;
  json_dumps := λ doc,
    match doc with
    | JObj [] => "{}"
    | JObj [("bob", JStr "pepper$hunter2")] => "<users>"
    | _ => "<document>"
    end;
  generate_password_hash := λ salt password, salt +:+ "$" +:+ password;
  check_password_hash := λ pwhash password,
    match pwhash with
    | JStr h => Ok (String.eqb (after_dollar h) password)
    | _ => Raise AttributeError
    end;
|}.

(** Sample data of the examples. *)

Definition sample_competitor (team : string) (winner : bool) : json :=
  JObj [("team", JObj [("id", JStr team)]); ("winner", JBool winner)].

Definition sample_event (id date : string) (is_completed : bool)
    (competitors : list json) : json :=
  JObj [("id", JStr id); ("date", JStr date);
        ("competitions",
         JArr [JObj [("status",
                      JObj [("type", JObj [("completed", JBool is_completed)])]);
                     ("competitors", JArr competitors)]])].

Definition game_401 : json :=
  sample_event "401" "2024-09-08T17:00Z" true
    [sample_competitor "12" true; sample_competitor "7" false].

Definition game_403 : json :=
  sample_event "403" "TBD" true
    [sample_competitor "21" true; sample_competitor "22" true;
     sample_competitor "23" false].

Definition game_402 : json :=
  sample_event "402" "2024-09-09T00:20Z" false
    [sample_competitor "3" false; sample_competitor "9" false].

Definition sample_schedule : json :=
  JObj [("events", JArr [game_401; game_403; game_402])].

Definition sample_outside : outside := {|
  espn_response := λ _, Some sample_schedule;
  now_utc := 1725814800000000;
  fresh_salt := "pepper";
|}.

Definition empty_world : world := {|
  files := ∅; saves := []; session_user := None; flashes := [];
|}.

Definition alice_world : world := {|
  files := ∅; saves := []; session_user := Some "alice"; flashes := [];
|}.

Definition bob_registered : world := {|
  files := {[ USERS_FILE := "<users>" ]};
  saves := []; session_user := None; flashes := [];
|}.

(** A form of three picks, and a pick document in which alice already
    has a pick for game 401. *)
Definition sample_form : list (string * string) :=
  [("401", "12"); ("402", "3"); ("403", "22")].

Definition sample_picks : json :=
  JObj [("1", JObj [("alice", JObj [("401", JStr "7")])])].

(** Eighty picks of one player in one week, the first twenty-three of
    them on the winner. *)
Definition eighty_picks : list (string * list (string * list (string * string))) :=
  [("1", [("alice",
           (λ i : nat, (pretty i, if (i <? 23)%nat then "W" else "L"))
             <$> seq 0 80)])].

Definition all_won_by_W (week_str : string) : gmap string json :=
  list_to_map ((λ i : nat, (pretty i, JStr "W")) <$> seq 0 80).

(** * The rest of the application *)

Section Endpoints.

Context {lib : PyLib}.

(** ** The check-user endpoint *)

(** What [jsonify(body), status] answers. *)
Inductive api_response : Type :=
| Jsonify (status : Z) (body : json).

(** [data.get('username', '').strip()], where [data] is what
    [request.get_json()] returned: only a dictionary has [get], and only a
    string has [strip]. *)
Definition requested_name (data : json) : result string :=
  do u <- get_default data "username" (JStr "") ;
  match u with
  | JStr s => Ok (strip s)
  | _ => Raise AttributeError
  end.

Definition check_user (data : json) (w : world) : result api_response :=
  do username <- requested_name data ;
  if String.eqb username "" then
    Ok (Jsonify 400 (JObj [("error", JStr "Username required")]))
  else
    do users <- load_json (files w) USERS_FILE ;
    do found <- py_in username users ;
    Ok (Jsonify 200 (JObj [("exists", JBool found)])).

End Endpoints.

(** ** The kickoffs of a schedule *)

(** The event can be read as the kickoff [t] of game [k]: its date is a
    string that [strptime] reads as [t], and its id prints as [k]. *)
Definition readable_kickoff {lib : PyLib} (event : json) (k : string) (t : Z)
    : Prop :=
  ∃ date,
    getitem event "date" = Ok (JStr date)
    ∧ strptime_utc date = Some t
    ∧ game_key event = Ok k.

(** The schedule gives game [k] the kickoff [t]: [t] is read from the
    last event of the schedule that can be read as a kickoff of [k]. *)
Definition scheduled_kickoff {lib : PyLib} (schedule : json) (k : string)
    (t : Z) : Prop :=
  ∃ evs pre event post,
    get_default schedule "events" (JArr []) = Ok evs
    ∧ py_iter evs = Ok (pre ++ event :: post)
    ∧ readable_kickoff event k t
    ∧ Forall (λ e, ∀ t', ¬ readable_kickoff e k t') post.

(** The schedule has no kickoff for game [k]: none of its events can be
    read as one. *)
Definition unscheduled {lib : PyLib} (schedule : json) (k : string) : Prop :=
  ∃ evs events,
    get_default schedule "events" (JArr []) = Ok evs
    ∧ py_iter evs = Ok events
    ∧ Forall (λ e, ∀ t', ¬ readable_kickoff e k t') events.

(** The game is open in the schedule: it has no kickoff there, or the
    clock is strictly before its kickoff. *)
Definition open_in_schedule {lib : PyLib} (now : Z) (schedule : json)
    (k : string) : Prop :=
  unscheduled schedule k ∨ ∃ t, scheduled_kickoff schedule k t ∧ now < t.

(** [all_data[week_str][user].get(game_id)] on the document as it was
    loaded: the pick the user had for the game, if any. *)
Definition stored_pick (doc : json) (week_str user game_id : string)
    : option json :=
  match user_picks_of doc week_str user with
  | Ok (JObj picks) => dict_get picks game_id
  | _ => None
  end.

(** ** Predicates of the further statements *)

(** [k -> t] can be traced to an event of the schedule with key [k] whose
    date is a string that [strptime] reads as [t]. *)
Definition kickoff_evidence {lib : PyLib} (schedule : json) (k : string) (t : Z)
    : Prop :=
  ∃ evs events event date,
    get_default schedule "events" (JArr []) = Ok evs
    ∧ py_iter evs = Ok events
    ∧ event ∈ events
    ∧ getitem event "date" = Ok (JStr date)
    ∧ strptime_utc date = Some t
    ∧ game_key event = Ok k.

(** The entries of a form that the loop of [week_view] saves, and the
    ones it blocks. *)
Definition open_entries (now : Z) (start_times : gmap string Z)
    (form : list (string * string)) : list (string * string) :=
  List.filter (λ entry, pick_open now (start_times !! entry.1)) form.

Definition locked_entries (now : Z) (start_times : gmap string Z)
    (form : list (string * string)) : list (string * string) :=
  List.filter (λ entry, negb (pick_open now (start_times !! entry.1))) form.

(** A schedule in which the second event has no competitions. *)
Definition broken_schedule : json :=
  JObj [("events", JArr [game_401; JObj [("id", JStr "999")]; game_403])].

(** A store in which alice and bob have picks for week 1. *)
Definition two_players : json :=
  JObj [("1", JObj [("alice", JObj [("401", JStr "7")]);
                    ("bob", JObj [("402", JStr "9")])]);
        ("2", JObj [("alice", JObj [("411", JStr "5")])])].


(** ** Leaderboard: the whole of the scoring loop *)

(** Line 190: [current_week - 1 if current_week > 1 else 1] *)
Definition last_week (current_week : Z) : Z :=
  if 1 <? current_week then current_week - 1 else 1.

(** [k in d] *)
Definition has_key {A : Type} (d : list (string * A)) (k : string) : bool :=
  match dict_get d k with Some _ => true | None => false end.

(** [d[k]] changed in place, as [d[k][field] += n] and [d[k][j] = v] do
    for a key that is in [d]. *)
Fixpoint dict_alter {A : Type} (f : A -> A) (d : list (string * A)) (k : string)
    : list (string * A) :=
  match d with
  | [] => []
  | (k', v) :: d' =>
      if String.eqb k' k then (k', f v) :: d' else (k', v) :: dict_alter f d' k
  end.

(** A row of [season_totals]. *)
Record season : Type := {
  correct : Z;
  weeks_played : Z;
}.

(** A row of [team_stats]. *)
Record team_stat : Type := {
  name : json;
  logo : json;
  times_picked : Z;
  wins : Z;
}.

(** What the loop of lines 208-244 builds. *)
Record board : Type := {
  season_totals : list (string * season);
  weekly_results : list (string * list (string * Z));
  team_stats : list (string * team_stat);
  counters : totals;
}.

(** Lines 215-219, one competitor. The entry is built before it is
    stored. The map keeps the entries whose key is a string, the only ones
    that [team_lookup.get] can find for a picked team, which is a string; a
    list or a dictionary is no key at all. *)
Definition team_entry (team_lookup : gmap string (json * json))
    (competitor : json) : result (gmap string (json * json)) :=
  do tid <- team_id competitor ;
  do team <- getitem competitor "team" ;
  do display_name <- getitem team "displayName" ;
  do team_logo <-
    get_default team "logo"
      (JStr "https://a.espncdn.com/i/teamlogos/nfl/500/nfl.png") ;
  match tid with
  | JStr s => Ok (<[s := (display_name, team_logo)]> team_lookup)
  | JArr _ | JObj _ => Raise TypeError
  | _ => Ok team_lookup
  end.

(** Lines 213-214, one event. *)
Definition team_entries (team_lookup : gmap string (json * json))
    (event : json) : result (gmap string (json * json)) :=
  do competition <- competition_of event ;
  do cs <- getitem competition "competitors" ;
  do competitors <- py_iter cs ;
  for_each team_entry competitors team_lookup.

(** Lines 212-219. *)
Definition team_lookup (schedule : json) : result (gmap string (json * json)) :=
  do evs <- get_default schedule "events" (JArr []) ;
  do events <- py_iter evs ;
  for_each team_entries events ∅.

(** Lines 234-238: one pick of the selected player, on [team_stats]. *)
Definition pick_team (winners : gmap string json)
    (team_lookup : gmap string (json * json))
    (stats : list (string * team_stat)) (pick : string * string)
    : list (string * team_stat) :=
  let stats :=
    if negb (has_key stats pick.2) then
      let info := default (JStr "Unknown", JStr "") (team_lookup !! pick.2) in
      dict_set stats pick.2
        {| name := info.1; logo := info.2; times_picked := 0; wins := 0 |}
    else stats in
  let stats :=
    dict_alter
      (λ s, {| name := name s; logo := logo s;
               times_picked := times_picked s + 1; wins := wins s |})
      stats pick.2 in
  if is_win winners pick.1 pick.2 then
    dict_alter
      (λ s, {| name := name s; logo := logo s;
               times_picked := times_picked s; wins := wins s + 1 |})
      stats pick.2
  else stats.

(** Lines 226-238: one pick of [player]; the state is [week_score] and the
    board. *)
Definition score_pick (selected_player : string) (winners : gmap string json)
    (team_lookup : gmap string (json * json)) (player : string)
    (acc : Z * board) (pick : string * string) : Z * board :=
  let week_score :=
    if is_win winners pick.1 pick.2 then acc.1 + 1 else acc.1 in
  if String.eqb player selected_player then
    (week_score,
     {| season_totals := season_totals acc.2;
        weekly_results := weekly_results acc.2;
        team_stats := pick_team winners team_lookup (team_stats acc.2) pick;
        counters :=
          count_pick selected_player winners player (counters acc.2) pick |})
  else (week_score, acc.2).

(** Lines 221-244: one player of a week. *)
Definition score_player (current_week : Z) (selected_player : string)
    (winners : gmap string json) (team_lookup : gmap string (json * json))
    (week_str : string) (b : board)
    (player_entry : string * list (string * string)) : board :=
  let player := player_entry.1 in
  let b :=
    if negb (has_key (season_totals b) player) then
      {| season_totals :=
           dict_set (season_totals b) player
             {| correct := 0; weeks_played := 0 |};
         weekly_results := weekly_results b;
         team_stats := team_stats b;
         counters := counters b |}
    else b in
  let scored :=
    fold_left (score_pick selected_player winners team_lookup player)
      player_entry.2 (0, b) in
  let week_score := scored.1 in
  let b := scored.2 in
  let results :=
    if String.eqb week_str (pretty current_week)
       || String.eqb week_str (pretty (last_week current_week))
    then
      dict_alter (λ scores, dict_set scores player week_score)
        (weekly_results b) week_str
    else weekly_results b in
  let rows :=
    dict_alter
      (λ s, {| correct := correct s + week_score;
               weeks_played := weeks_played s |})
      (season_totals b) player in
  let rows :=
    dict_alter
      (λ s, {| correct := correct s; weeks_played := weeks_played s + 1 |})
      rows player in
  {| season_totals := rows;
     weekly_results := results;
     team_stats := team_stats b;
     counters := counters b |}.

(** Lines 198-206: the state before the loop. A dictionary display with
    the same key twice keeps one entry. *)
Definition empty_board (current_week : Z) : board :=
  {| season_totals := [];
     weekly_results :=
       dict_set (dict_set [] (pretty current_week) [])
         (pretty (last_week current_week)) [];
     team_stats := [];
     counters := {| total_picks := 0; total_wins := 0 |} |}.

(** Lines 208-244 of [scoreboard], on a pick document of the shape the
    application writes; [winners_of week_str] and [lookup_of week_str] are
    what lines 209-219 resolve for the week. *)
Definition scoreboard_loop (current_week : Z) (selected_player : string)
    (winners_of : string -> gmap string json)
    (lookup_of : string -> gmap string (json * json))
    (all_data : list (string * list (string * list (string * string))))
    : board :=
  fold_left
    (λ b week_entry,
       fold_left
         (score_player current_week selected_player
            (winners_of week_entry.1) (lookup_of week_entry.1) week_entry.1)
         week_entry.2 b)
    all_data (empty_board current_week).

(** Line 246: [sorted(..., key=correct, reverse=True)] keeps rows of equal
    score in the order they had; [dict] keeps the order of the pairs. *)
Fixpoint insert_row (row : string * season) (rows : list (string * season))
    : list (string * season) :=
  match rows with
  | [] => [row]
  | r :: rows' =>
      if correct row.2 <? correct r.2 then r :: insert_row row rows'
      else row :: rows
  end.

Definition sorted_totals (rows : list (string * season))
    : list (string * season) :=
  fold_right insert_row [] rows.

(** Line 248: [max] over the keys, by [times_picked]; of several maximal
    keys the first one is returned, and [None] when there is no key. *)
Definition fav_team (stats : list (string * team_stat)) : option string :=
  match stats with
  | [] => None
  | first :: rest =>
      Some (fold_left
              (λ best entry : string * team_stat,
                 if times_picked best.2 <? times_picked entry.2 then entry
                 else best)
              rest first).1
  end.

(** Line 249: [team_stats[fav_team]['name'] if fav_team else "N/A"]; an
    empty string is false as [None] is. *)
Definition fav_team_name (stats : list (string * team_stat)) : result json :=
  match fav_team stats with
  | Some t =>
      if String.eqb t "" then Ok (JStr "N/A")
      else
        match dict_get stats t with
        | Some s => Ok (name s)
        | None => Raise KeyError
        end
  | None => Ok (JStr "N/A")
  end.

(** Lines 192-195: the players of any week, each once, in the order of
    their names. *)
Fixpoint insert_player (p : string) (players : list string) : list string :=
  match players with
  | [] => [p]
  | q :: players' =>
      match String.compare p q with
      | Lt => p :: players
      | Eq => players
      | Gt => q :: insert_player p players'
      end
  end.

Definition all_players
    (all_data : list (string * list (string * list (string * string))))
    : list string :=
  fold_left
    (λ players week_entry,
       fold_left (λ players player_entry, insert_player player_entry.1 players)
         week_entry.2 players)
    all_data [].

(** ** What the loop is meant to count *)

(** The number of week entries of a player. *)
Definition weeks_of (player : string)
    (all_data : list (string * list (string * list (string * string)))) : Z :=
  Z.of_nat
    (length
       (List.filter (λ player_entry : string * list (string * string),
                       String.eqb player_entry.1 player)
          (flat_map snd all_data))).

(** A row of [season_totals] after [played] more week entries of its
    player, with [won] correct picks in them. *)
Definition more_weeks (row : option season) (won played : Z) : option season :=
  match row with
  | Some s =>
      Some {| correct := correct s + won;
              weeks_played := weeks_played s + played |}
  | None =>
      if played =? 0 then None
      else Some {| correct := won; weeks_played := played |}
  end.

(** The picks of a player that name a team. *)
Definition picks_on (team : string) (player : string)
    (all_data : list (string * list (string * list (string * string))))
    : list (string * (string * string)) :=
  List.filter (λ p : string * (string * string), String.eqb p.2.2 team)
    (picks_of_player player all_data).

(** A row of [team_stats] after the picks [made] on its team, each with
    the week it belongs to: a new row takes name and logo from the lookup
    of the week of the first pick. *)
Definition more_picks (winners_of : string -> gmap string json)
    (lookup_of : string -> gmap string (json * json)) (team : string)
    (row : option team_stat) (made : list (string * (string * string)))
    : option team_stat :=
  match made with
  | [] => row
  | first :: _ =>
      let info :=
        default (JStr "Unknown", JStr "") (lookup_of first.1 !! team) in
      let base :=
        default {| name := info.1; logo := info.2;
                   times_picked := 0; wins := 0 |} row in
      Some {| name := name base;
              logo := logo base;
              times_picked := times_picked base + Z.of_nat (length made);
              wins :=
                wins base
                + Z.of_nat (length (List.filter (pick_won winners_of) made)) |}
  end.

(** The scores of a week, player by player. *)
Definition week_scores (winners : gmap string json)
    (players : list (string * list (string * string)))
    (scores : list (string * Z)) : list (string * Z) :=
  fold_left
    (λ scores (player_entry : string * list (string * string)),
       dict_set scores player_entry.1
         (Z.of_nat
            (length (List.filter (λ p, is_win winners p.1 p.2)
                       player_entry.2))))
    players scores.

(** A schedule whose teams have names. *)
Definition named_competitor (team display : string) (winner : bool) : json :=
  JObj [("team", JObj [("id", JStr team); ("displayName", JStr display)]);
        ("winner", JBool winner)].

Definition named_schedule : json :=
  JObj [("events",
         JArr [sample_event "401" "2024-09-08T17:00Z" true
                 [named_competitor "12" "Chiefs" true;
                  named_competitor "7" "Broncos" false];
               sample_event "402" "2024-09-09T00:20Z" false
                 [named_competitor "3" "Bears" false;
                  named_competitor "9" "Packers" false]])].

(** A season of two weeks and two players. *)
Definition sample_season
    : list (string * list (string * list (string * string))) :=
  [("1", [("alice", [("401", "12"); ("402", "9")]);
          ("bob", [("401", "7")])]);
   ("2", [("bob", [("411", "12")]);
          ("alice", [("411", "12"); ("412", "9")])])].

Definition sample_winners (week_str : string) : gmap string json :=
  if String.eqb week_str "1" then {[ "401" := JStr "12" ]}
  else if String.eqb week_str "2" then {[ "411" := JStr "12"; "412" := JStr "3" ]}
  else ∅.

Definition sample_lookup (week_str : string) : gmap string (json * json) :=
  if String.eqb week_str "1"
  then {[ "12" := (JStr "Chiefs", JStr "chiefs.png") ]}
  else ∅.

(** The model library, with a pick store that reads back as
    [two_players]. *)
Definition reading_lib : PyLib := {|
  py_repr := @py_repr model_lib;
  decode_text := @decode_text model_lib;
  strptime_utc := @strptime_utc model_lib;
  json_loads := λ s,
    if String.eqb s "<picks>" then Some two_players
    else @json_loads model_lib s;
  json_dumps := @json_dumps model_lib;
  generate_password_hash := @generate_password_hash model_lib;
  check_password_hash := @check_password_hash model_lib;
|}.

Definition alice_with_picks : world := {|
  files := {[ PICKS_FILE := "<picks>" ]};
  saves := []; session_user := Some "alice"; flashes := [];
|}.

(** * Properties *)

(** ** Exceptions and loops *)

Lemma bind_Ok {A B : Type} (r : result A) (k : A -> result B) (b : B) :
  bind r k = Ok b -> ∃ a, r = Ok a ∧ k a = Ok b.
Proof. destruct r as [a|e]; simpl; [eauto | discriminate]. Qed.

(** Splits a hypothesis [(do x <- r ; k) = Ok b] into its two steps. *)
Ltac bind_inv H :=
  let a := fresh "a" in
  let Ha := fresh "E" in
  apply bind_Ok in H; destruct H as (a & Ha & H).

Lemma for_each_app {S A : Type} (body : S -> A -> result S) (l1 l2 : list A)
    (s : S) :
  for_each body (l1 ++ l2) s
  = bind (for_each body l1 s) (for_each body l2).
Proof.
  revert s. induction l1 as [|x l1 IH]; intros s; simpl; [done|].
  destruct (body s x); simpl; [apply IH | done].
Qed.

Lemma for_each_invariant {S A : Type} (P : S -> Prop)
    (body : S -> A -> result S) (l : list A) (s r : S) :
  P s ->
  (∀ s0 x s1, x ∈ l -> P s0 -> body s0 x = Ok s1 -> P s1) ->
  for_each body l s = Ok r -> P r.
Proof.
  revert s. induction l as [|x l IH]; intros s Hs Hstep Hrun; simpl in Hrun.
  - by inversion Hrun; subst.
  - bind_inv Hrun. eapply IH; [| |exact Hrun].
    + eapply Hstep; [left | exact Hs | exact E].
    + intros s0 y s1 Hy. apply Hstep. by right.
Qed.

Lemma for_each_skip {S A : Type} (body : S -> A -> result S) (l : list A)
    (s : S) :
  Forall (λ x, body s x = Ok s) l -> for_each body l s = Ok s.
Proof.
  induction 1 as [|x l Hx _ IH]; simpl; [done|]. by rewrite Hx.
Qed.

Lemma try_except_Ok {A : Type} (body : result A) (catches : exn -> bool)
    (a b : A) :
  try_except body catches (Ok a) = Ok b ->
  body = Ok b ∨ (b = a ∧ ∃ e, body = Raise e ∧ catches e = true).
Proof.
  destruct body as [x|e]; simpl.
  - intros [= ->]. by left.
  - destruct (catches e) eqn:E; [|discriminate].
    intros [= ->]. right. eauto.
Qed.

(** ** Dictionaries *)

Lemma dict_get_set_eq {A : Type} (d : list (string * A)) (k : string) (v : A) :
  dict_get (dict_set d k v) k = Some v.
Proof.
  induction d as [|[k' v'] d IH]; simpl.
  - by rewrite String.eqb_refl.
  - destruct (String.eqb k' k) eqn:E; simpl; rewrite E; [done | exact IH].
Qed.

Lemma dict_get_set_ne {A : Type} (d : list (string * A)) (k k' : string) (v : A) :
  k ≠ k' -> dict_get (dict_set d k v) k' = dict_get d k'.
Proof.
  intros Hne. induction d as [|[k0 v0] d IH]; simpl.
  - destruct (String.eqb k k') eqn:E; [|done].
    apply String.eqb_eq in E. contradiction.
  - destruct (String.eqb k0 k) eqn:E; simpl.
    + apply String.eqb_eq in E. subst k0.
      destruct (String.eqb k k') eqn:E'; [|done].
      apply String.eqb_eq in E'. contradiction.
    + by rewrite IH.
Qed.

(** ** Winner resolver *)

Section Winners.

Context {lib : PyLib}.

Lemma record_winner_lookup (event : json) (w w' : gmap string json)
    (c : json) (k : string) (t : json) :
  record_winner event w c = Ok w' ->
  w' !! k = Some t ->
  w !! k = Some t
  ∨ (flagged_winner c = Ok true ∧ team_id c = Ok t ∧ game_key event = Ok k).
Proof.
  unfold record_winner. intros Hrun Hk.
  bind_inv Hrun. destruct a.
  - bind_inv Hrun. bind_inv Hrun. inversion Hrun; subst w'.
    destruct (decide (a0 = k)) as [->|Hne].
    + rewrite lookup_insert_eq in Hk. inversion Hk; subst. by right.
    + rewrite lookup_insert_ne in Hk by done. by left.
  - inversion Hrun; subst. by left.
Qed.

Lemma record_winner_other (event : json) (w w' : gmap string json)
    (c : json) (k : string) :
  record_winner event w c = Ok w' ->
  game_key event ≠ Ok k ->
  w' !! k = w !! k.
Proof.
  unfold record_winner. intros Hrun Hk.
  bind_inv Hrun. destruct a.
  - bind_inv Hrun. bind_inv Hrun. inversion Hrun; subst w'.
    apply lookup_insert_ne. intros ->. by apply Hk.
  - by inversion Hrun.
Qed.

Lemma record_event_lookup (w w' : gmap string json) (event : json)
    (k : string) (t : json) :
  record_event w event = Ok w' ->
  w' !! k = Some t ->
  w !! k = Some t
  ∨ ∃ competition cs competitors competitor,
      game_key event = Ok k
      ∧ competition_of event = Ok competition
      ∧ completed competition = Ok true
      ∧ getitem competition "competitors" = Ok cs
      ∧ py_iter cs = Ok competitors
      ∧ competitor ∈ competitors
      ∧ flagged_winner competitor = Ok true
      ∧ team_id competitor = Ok t.
Proof.
  unfold record_event. intros Hrun.
  bind_inv Hrun. rename a into competition.
  bind_inv Hrun. destruct a; [|inversion Hrun; subst; by left].
  bind_inv Hrun. rename a into cs.
  bind_inv Hrun. rename a into competitors.
  revert Hrun t.
  apply (for_each_invariant
           (λ w1, ∀ t, w1 !! k = Some t -> w !! k = Some t ∨ _)).
  - intros t Ht. by left.
  - intros w0 c w1 Hc IH Hstep t Ht.
    destruct (record_winner_lookup _ _ _ _ _ _ Hstep Ht) as [Hold|(Hf & Hteam & Hkey)].
    + by apply IH.
    + right. exists competition, cs, competitors, c. done.
Qed.

Lemma record_event_other (w w' : gmap string json) (event : json)
    (k : string) :
  record_event w event = Ok w' ->
  game_key event ≠ Ok k ->
  w' !! k = w !! k.
Proof.
  unfold record_event. intros Hrun Hk.
  bind_inv Hrun. bind_inv Hrun. destruct a0; [|by inversion Hrun].
  bind_inv Hrun. bind_inv Hrun. revert Hrun.
  apply (for_each_invariant (λ w1, w1 !! k = w !! k)); [done|].
  intros w0 c w1 _ IH Hstep.
  by rewrite (record_winner_other _ _ _ _ _ Hstep Hk).
Qed.

Lemma determine_winners_events (games : json) (w : gmap string json) :
  determine_winners games = Ok w ->
  w = ∅
  ∨ ∃ evs events,
      get_default games "events" (JArr []) = Ok evs
      ∧ py_iter evs = Ok events
      ∧ for_each record_event events ∅ = Ok w.
Proof.
  unfold determine_winners. intros Hrun.
  destruct (truthy games); simpl in Hrun; [|inversion Hrun; by left].
  bind_inv Hrun. destruct a; simpl in Hrun; [|inversion Hrun; by left].
  bind_inv Hrun. bind_inv Hrun. right. eauto.
Qed.

Lemma determine_winners_run (games evs : json) (events : list json) :
  get_default games "events" (JArr []) = Ok evs ->
  py_iter evs = Ok events ->
  determine_winners games = for_each record_event events ∅.
Proof.
  unfold determine_winners. intros Hevs Hiter.
  destruct games as [| | | | |d]; try discriminate.
  destruct d as [|kv d].
  { inversion Hevs; subst evs. inversion Hiter. done. }
  assert (truthy (JObj (kv :: d)) = true) as -> by done.
  revert Hevs. generalize (kv :: d). intros d' Hevs.
  unfold py_in, get_default in *. simpl.
  destruct (dict_get d' "events") as [v|]; simpl in *;
    inversion Hevs; subst evs.
  - by rewrite Hiter.
  - inversion Hiter. done.
Qed.

Lemma determine_winners_no_events (games evs : json) :
  get_default games "events" (JArr []) = Ok evs ->
  py_iter evs = Ok [] ->
  determine_winners games = Ok ∅.
Proof.
  intros Hevs Hiter. by rewrite (determine_winners_run _ _ _ Hevs Hiter).
Qed.

(** C2. Every entry [k -> t] of the map [determine_winners] returns comes
    from an event of the schedule whose key is [k], whose competition is
    marked completed and which has a competitor flagged as winner with team
    id [t]: a game that is not completed, or that has no flagged
    competitor, is not in the map. On a schedule without events the map is
    empty. *)
Theorem determine_winners_only_completed_flagged (games : json) :
  (∀ w k t,
     determine_winners games = Ok w ->
     w !! k = Some t ->
     winner_evidence games k t)
  ∧ (∀ evs,
       get_default games "events" (JArr []) = Ok evs ->
       py_iter evs = Ok [] ->
       determine_winners games = Ok ∅).
Proof.
  split; [|apply determine_winners_no_events].
  intros w k t Hrun Hk.
  destruct (determine_winners_events _ _ Hrun) as [->|(evs & events & Hevs & Hiter & Hloop)].
  { by rewrite lookup_empty in Hk. }
  revert Hloop t Hk.
  apply (for_each_invariant
           (λ w1, ∀ t, w1 !! k = Some t -> winner_evidence games k t)).
  - intros t Ht. by rewrite lookup_empty in Ht.
  - intros w0 ev w1 Hev IH Hstep t Ht.
    destruct (record_event_lookup _ _ _ _ _ Hstep Ht)
      as [Hold|(competition & cs & competitors & c & ? & ? & ? & ? & ? & ? & ? & ?)].
    + by apply IH.
    + exists evs, events, ev, competition, cs, competitors, c. done.
Qed.

Lemma record_winner_unflagged (event : json) (w : gmap string json) (c : json) :
  flagged_winner c = Ok false -> record_winner event w c = Ok w.
Proof. unfold record_winner. by intros ->. Qed.

(** C10. In a completed game the team recorded under the game's key is
    the one of the last competitor flagged as winner in list order:
    whatever flagged competitors come [before] it are overwritten. (No
    later event of the schedule has the same key.) *)
Theorem determine_winners_last_flagged (games evs : json)
    (pre post : list json) (event competition cs : json)
    (before after : list json) (last : json) (k : string) (t : json)
    (w : gmap string json) :
  get_default games "events" (JArr []) = Ok evs ->
  py_iter evs = Ok (pre ++ event :: post) ->
  game_key event = Ok k ->
  competition_of event = Ok competition ->
  completed competition = Ok true ->
  getitem competition "competitors" = Ok cs ->
  py_iter cs = Ok (before ++ last :: after) ->
  flagged_winner last = Ok true ->
  team_id last = Ok t ->
  Forall (λ c, flagged_winner c = Ok false) after ->
  Forall (λ e, game_key e ≠ Ok k) post ->
  determine_winners games = Ok w ->
  w !! k = Some t.
Proof.
  intros Hevs Hiter Hkey Hcomp Hdone Hcs Hcompetitors Hflag Hteam Hafter Hpost.
  rewrite (determine_winners_run _ _ _ Hevs Hiter), for_each_app.
  intros Hrun. bind_inv Hrun. rename a into w1. simpl in Hrun.
  bind_inv Hrun. rename a into w2. rename E0 into Hevent.
  assert (w2 !! k = Some t) as Hw2.
  { unfold record_event in Hevent.
    rewrite Hcomp in Hevent. simpl in Hevent.
    rewrite Hdone in Hevent. simpl in Hevent.
    rewrite Hcs in Hevent. simpl in Hevent.
    rewrite Hcompetitors in Hevent. simpl in Hevent.
    rewrite for_each_app in Hevent.
    bind_inv Hevent. rename a into wa. simpl in Hevent.
    bind_inv Hevent. rename a into wb. rename E1 into Hlast.
    unfold record_winner in Hlast.
    rewrite Hflag in Hlast. simpl in Hlast.
    rewrite Hteam in Hlast. simpl in Hlast.
    rewrite Hkey in Hlast. simpl in Hlast.
    inversion Hlast; subst wb.
    rewrite for_each_skip in Hevent.
    - inversion Hevent; subst w2. apply lookup_insert_eq.
    - eapply Forall_impl; [exact Hafter|].
      intros c Hc. by apply record_winner_unflagged. }
  revert Hrun.
  apply (for_each_invariant (λ w', w' !! k = Some t)); [done|].
  intros w0 e w' He IH Hstep.
  rewrite (record_event_other _ _ _ _ Hstep); [done|].
  rewrite Forall_forall in Hpost. by apply Hpost.
Qed.

(** C7 (amended). [determine_winners] returns the empty map, without
    raising, when the schedule is empty in Python's sense ([None], [{}],
    [[]], the empty string, zero, [False]), when it does not contain
    ['events'], and when its ['events'] entry has no items. *)
Theorem determine_winners_tolerates_empty (games : json) :
  truthy games = false
  ∨ py_in "events" games = Ok false
  ∨ (∃ evs, get_default games "events" (JArr []) = Ok evs
            ∧ py_iter evs = Ok []) ->
  determine_winners games = Ok ∅.
Proof.
  intros [Hfalsy|[Hin|(evs & Hevs & Hiter)]].
  - unfold determine_winners. by rewrite Hfalsy.
  - unfold determine_winners. rewrite Hin.
    by destruct (truthy games).
  - by apply (determine_winners_no_events _ evs).
Qed.

(** An event that raises ends the whole resolution with its exception. *)
Lemma determine_winners_event_raises (games evs : json)
    (pre post : list json) (event : json) (w : gmap string json) (e : exn) :
  get_default games "events" (JArr []) = Ok evs ->
  py_iter evs = Ok (pre ++ event :: post) ->
  for_each record_event pre ∅ = Ok w ->
  record_event w event = Raise e ->
  determine_winners games = Raise e.
Proof.
  intros Hevs Hiter Hpre Hevent.
  rewrite (determine_winners_run _ _ _ Hevs Hiter), for_each_app, Hpre.
  simpl. by rewrite Hevent.
Qed.

End Winners.

Lemma determine_winners_sample :
  determine_winners (lib := model_lib) sample_schedule
  = Ok {[ "401" := JStr "12"; "403" := JStr "22" ]}.
Proof. vm_compute. reflexivity. Qed.

Lemma determine_winners_only_completed_flagged_witness :
  winner_evidence (lib := model_lib) sample_schedule "401" (JStr "12")
  ∧ determine_winners (lib := model_lib) (JObj [("events", JArr [])]) = Ok ∅.
Proof.
  split.
  - apply (proj1 (determine_winners_only_completed_flagged sample_schedule)
             {[ "401" := JStr "12"; "403" := JStr "22" ]}).
    + vm_compute. reflexivity.
    + vm_compute. reflexivity.
  - apply (proj2 (determine_winners_only_completed_flagged
                    (JObj [("events", JArr [])])) (JArr [])); reflexivity.
Defined.

Lemma determine_winners_last_flagged_witness :
  ({[ "401" := JStr "12"; "403" := JStr "22" ]} : gmap string json) !! "403"
  = Some (JStr "22").
Proof.
  apply (determine_winners_last_flagged (lib := model_lib)
           sample_schedule (JArr [game_401; game_403; game_402])
           [game_401] [game_402] game_403
           (JObj [("status",
                   JObj [("type", JObj [("completed", JBool true)])]);
                  ("competitors",
                   JArr [sample_competitor "21" true;
                         sample_competitor "22" true;
                         sample_competitor "23" false])])
           (JArr [sample_competitor "21" true; sample_competitor "22" true;
                  sample_competitor "23" false])
           [sample_competitor "21" true] [sample_competitor "23" false]
           (sample_competitor "22" true));
    try reflexivity.
  - repeat constructor.
  - repeat constructor. discriminate.
Defined.

(** C7, as stated, fails: an event without ['competitions'] raises
    [KeyError]. *)
Lemma determine_winners_raises_on_bare_event :
  determine_winners (lib := model_lib) (JObj [("events", JArr [JObj []])])
  = Raise KeyError.
Proof. reflexivity. Qed.

Lemma determine_winners_tolerates_empty_witness :
  determine_winners (lib := model_lib) JNull = Ok ∅
  ∧ determine_winners (lib := model_lib) (JObj [("week", JNum (Int 1))]) = Ok ∅
  ∧ determine_winners (lib := model_lib) (JObj [("events", JArr [])]) = Ok ∅.
Proof.
  split; [|split].
  - apply determine_winners_tolerates_empty. left. reflexivity.
  - apply determine_winners_tolerates_empty. right. left. reflexivity.
  - apply determine_winners_tolerates_empty. right. right.
    exists (JArr []). split; reflexivity.
Defined.

(** ** Record store *)

Section Store.

Context {lib : PyLib}.

(** On a store file that is absent, or whose bytes decode as text,
    [load_json] does not raise: it returns the parsed document when the
    text parses, and the empty mapping otherwise. *)
Lemma load_json_decodable (fs : gmap string string) (filename : string) :
  (fs !! filename = None -> load_json fs filename = Ok (JObj []))
  ∧ (∀ content text,
       fs !! filename = Some content ->
       decode_text content = Some text ->
       is_ok (load_json fs filename)
       ∧ (json_loads text = None -> load_json fs filename = Ok (JObj []))
       ∧ (∀ doc, json_loads text = Some doc -> load_json fs filename = Ok doc)).
Proof.
  unfold load_json, json_load. split.
  - by intros ->.
  - intros content text -> ->. simpl.
    destruct (json_loads text) as [doc|]; simpl; repeat split; try done.
    by intros doc' [= ->].
Qed.

(** The handler of [load_json] catches [JSONDecodeError] only: bytes that
    do not decode raise out of it. *)
Lemma load_json_undecodable (fs : gmap string string) (filename content : string) :
  fs !! filename = Some content ->
  decode_text content = None ->
  load_json fs filename = Raise UnicodeDecodeError.
Proof. unfold load_json, json_load. by intros -> ->. Qed.

End Store.

Lemma load_json_samples :
  load_json (lib := model_lib) {[ USERS_FILE := "<users>" ]} USERS_FILE
  = Ok sample_users
  ∧ load_json (lib := model_lib) {[ USERS_FILE := "{ not json" ]} USERS_FILE
    = Ok (JObj [])
  ∧ load_json (lib := model_lib) ∅ USERS_FILE = Ok (JObj []).
Proof. repeat split. Qed.

(** C4. [load_json] is meant never to raise, and it does raise: a store
    file that holds the single byte 255 is present and does not parse, and
    reading it ends in [UnicodeDecodeError], which the handler of
    [JSONDecodeError] does not catch. *)
Theorem load_json_raises_on_undecodable :
  load_json (lib := model_lib)
    {[ PICKS_FILE := String "255" EmptyString ]} PICKS_FILE
  = Raise UnicodeDecodeError.
Proof.
  apply (load_json_undecodable (lib := model_lib) _ _ (String "255" EmptyString));
    reflexivity.
Qed.

(** ** Authentication *)

Section Authentication.

Context {lib : PyLib}.

Lemma missing_false (password : string) :
  password ≠ "" -> missing (Some password) = false.
Proof.
  intros Hne. simpl. destruct (String.eqb password "") eqn:E; [|done].
  apply String.eqb_eq in E. contradiction.
Qed.

Lemma eqb_empty_false (s : string) : s ≠ "" -> String.eqb s "" = false.
Proof.
  intros Hne. destruct (String.eqb s "") eqn:E; [|done].
  apply String.eqb_eq in E. contradiction.
Qed.

(** A login that passes validation, against an account store that is a
    JSON object: the run for a new name and the run for a known one. *)
Lemma login_new_user (o : outside) (form : list (string * string))
    (w : world) (username password : string) (users : list (string * json)) :
  strip (default "" (dict_get form "username")) = username ->
  username ≠ "" ->
  dict_get form "password" = Some password ->
  password ≠ "" ->
  load_json (files w) USERS_FILE = Ok (JObj users) ->
  dict_get users username = None ->
  login o form w
  = (Ok (Redirect "/"),
     flash ("Welcome to the league, " +:+ username
            +:+ "! Your account is created.")
       (set_session username
          (save_json USERS_FILE
             (JObj (dict_set users username
                      (JStr (generate_password_hash (fresh_salt o) password))))
             w))).
Proof.
  intros Hname Hnonempty Hpw Hpw_nonempty Hload Hnew.
  unfold login. rewrite Hname, Hpw, Hload.
  rewrite (eqb_empty_false _ Hnonempty), (missing_false _ Hpw_nonempty).
  unfold py_in, setitem. simpl. by rewrite Hnew.
Qed.

Lemma login_known_user (o : outside) (form : list (string * string))
    (w : world) (username password : string) (users : list (string * json))
    (pwhash : json) :
  strip (default "" (dict_get form "username")) = username ->
  username ≠ "" ->
  dict_get form "password" = Some password ->
  password ≠ "" ->
  load_json (files w) USERS_FILE = Ok (JObj users) ->
  dict_get users username = Some pwhash ->
  login o form w
  = match check_password_hash pwhash password with
    | Raise ex => (Raise ex, w)
    | Ok true => (Ok (Redirect "/"), set_session username w)
    | Ok false =>
        (Ok (Redirect "/"), flash "Incorrect password. Please try again." w)
    end.
Proof.
  intros Hname Hnonempty Hpw Hpw_nonempty Hload Hknown.
  unfold login. rewrite Hname, Hpw, Hload.
  rewrite (eqb_empty_false _ Hnonempty), (missing_false _ Hpw_nonempty).
  unfold py_in, getitem. simpl. by rewrite Hknown.
Qed.

(** C3. A login with a user name and a password that pass validation,
    against an account store that is a JSON object:
    - for a name that is not in the store, the store is saved with the
      hash of the password under the name, and the session is set to the
      name;
    - for a name that is in the store, the session is set to the name when
      the password verifies against the stored hash; when it does not, the
      attempt fails: session and store stay as they were. *)
Theorem login_registers_or_verifies (o : outside) (form : list (string * string))
    (w : world) (username password : string) (users : list (string * json)) :
  strip (default "" (dict_get form "username")) = username ->
  username ≠ "" ->
  dict_get form "password" = Some password ->
  password ≠ "" ->
  load_json (files w) USERS_FILE = Ok (JObj users) ->
  (dict_get users username = None ->
   ∃ w' pwhash,
     login o form w = (Ok (Redirect "/"), w')
     ∧ pwhash = generate_password_hash (fresh_salt o) password
     ∧ session_user w' = Some username
     ∧ files w'
       = <[USERS_FILE := json_dumps (JObj (dict_set users username (JStr pwhash)))]>
           (files w)
     ∧ saves w'
       = saves w
         ++ [(USERS_FILE,
              json_dumps (JObj (dict_set users username (JStr pwhash))))]
     ∧ dict_get (dict_set users username (JStr pwhash)) username
       = Some (JStr pwhash))
  ∧ (∀ pwhash,
       dict_get users username = Some pwhash ->
       (check_password_hash pwhash password = Ok true ->
        login o form w = (Ok (Redirect "/"), set_session username w))
       ∧ (check_password_hash pwhash password = Ok false ->
          ∃ w',
            login o form w = (Ok (Redirect "/"), w')
            ∧ session_user w' = session_user w
            ∧ files w' = files w
            ∧ saves w' = saves w
            ∧ flashes w'
              = flashes w ++ ["Incorrect password. Please try again."])).
Proof.
  intros Hname Hnonempty Hpw Hpw_nonempty Hload. split.
  - intros Hnew.
    rewrite (login_new_user o form w username password users) by done.
    eexists _, _. repeat split. apply dict_get_set_eq.
  - intros pwhash Hknown.
    rewrite (login_known_user o form w username password users pwhash) by done.
    split; intros ->; [done|]. eexists. repeat split.
Qed.

(** C6 (amended). [login] stops at validation, with nothing stored and the
    session untouched, when the user name is empty after trimming
    whitespace, or the password is missing or the empty string. *)
Theorem login_requires_both (o : outside) (form : list (string * string))
    (w : world) :
  strip (default "" (dict_get form "username")) = ""
  ∨ dict_get form "password" = None
  ∨ dict_get form "password" = Some "" ->
  login o form w
  = (Ok (Redirect "/"), flash "Username and password are required." w)
  ∧ session_user (login o form w).2 = session_user w
  ∧ files (login o form w).2 = files w
  ∧ saves (login o form w).2 = saves w.
Proof.
  intros Hcase.
  assert (login o form w
          = (Ok (Redirect "/"), flash "Username and password are required." w))
    as Hrun.
  { unfold login. destruct Hcase as [->|[->| ->]]; [done| |].
    - by rewrite orb_true_r.
    - by rewrite orb_true_r. }
  by rewrite Hrun.
Qed.

(** The scenario of a new account, for a library whose serialisation
    reads back and whose verifier rejects the second password: the first
    login creates the account and sets the session; after a logout, a login
    with the wrong password fails and sets no session. *)
Lemma login_new_then_wrong_password (o o' : outside) (w : world)
    (username password wrong : string) (users : list (string * json)) :
  strip username = username ->
  username ≠ "" ->
  password ≠ "" ->
  wrong ≠ "" ->
  load_json (files w) USERS_FILE = Ok (JObj users) ->
  dict_get users username = None ->
  (∀ doc,
     doc = JObj (dict_set users username
                   (JStr (generate_password_hash (fresh_salt o) password))) ->
     ∃ text,
       decode_text (json_dumps doc) = Some text ∧ json_loads text = Some doc) ->
  check_password_hash
    (JStr (generate_password_hash (fresh_salt o) password)) wrong
  = Ok false ->
  ∃ w1 w2,
    login o [("username", username); ("password", password)] w
    = (Ok (Redirect "/"), w1)
    ∧ session_user w1 = Some username
    ∧ login o' [("username", username); ("password", wrong)] (logout w1).2
      = (Ok (Redirect "/"), w2)
    ∧ session_user w2 = None
    ∧ files w2 = files w1.
Proof.
  intros Hstrip Hname Hpw Hwrong Hload Hnew Hround Hreject.
  set (users' := dict_set users username
                   (JStr (generate_password_hash (fresh_salt o) password))).
  eexists _, _. split.
  { by apply (login_new_user o _ w username password users). }
  split; [done|].
  assert (load_json (files w) USERS_FILE = Ok (JObj users) ->
          ∀ w1, files w1 = <[USERS_FILE := json_dumps (JObj users')]> (files w) ->
                load_json (files w1) USERS_FILE = Ok (JObj users')) as Hreload.
  { intros _ w1 ->. unfold load_json, json_load. rewrite lookup_insert_eq.
    destruct (Hround (JObj users') eq_refl) as (text & -> & ->). done. }
  rewrite (login_known_user o' _ _ username wrong users'
             (JStr (generate_password_hash (fresh_salt o) password)));
    try done.
  - rewrite Hreject. done.
  - by apply Hreload.
  - apply dict_get_set_eq.
Qed.

End Authentication.

Lemma login_registers_or_verifies_witness :
  login (lib := model_lib) sample_outside
    [("username", " bob "); ("password", "hunter2")] bob_registered
  = (Ok (Redirect "/"), set_session "bob" bob_registered).
Proof.
  apply (proj2 (login_registers_or_verifies (lib := model_lib) sample_outside
                  [("username", " bob "); ("password", "hunter2")]
                  bob_registered "bob" "hunter2"
                  [("bob", JStr "pepper$hunter2")]
                  eq_refl ltac:(discriminate) eq_refl ltac:(discriminate)
                  eq_refl)
           (JStr "pepper$hunter2")); reflexivity.
Defined.

(** The scenario on the model library: ["bob"] registers with his first
    login; after a logout the password ["letmein"] is refused. *)
Lemma login_bob_scenario :
  ∃ w1 w2,
    login (lib := model_lib) sample_outside
      [("username", "bob"); ("password", "hunter2")] empty_world
    = (Ok (Redirect "/"), w1)
    ∧ session_user w1 = Some "bob"
    ∧ login (lib := model_lib) sample_outside
        [("username", "bob"); ("password", "letmein")] (logout w1).2
      = (Ok (Redirect "/"), w2)
    ∧ session_user w2 = None
    ∧ files w2 = files w1.
Proof.
  apply (login_new_then_wrong_password (lib := model_lib)
           sample_outside sample_outside empty_world "bob" "hunter2" "letmein" []);
    try done.
  intros doc ->. exists "<users>". split; reflexivity.
Qed.

(** C6, as stated, fails: a password of one space is empty after
    trimming, and yet the account is created and the session set. *)
Lemma login_accepts_blank_password :
  strip " " = ""
  ∧ ∃ w',
      login (lib := model_lib) sample_outside
        [("username", "bob"); ("password", " ")] empty_world
      = (Ok (Redirect "/"), w')
      ∧ session_user w' = Some "bob"
      ∧ saves w'
        = [(USERS_FILE,
            @json_dumps model_lib (JObj [("bob", JStr "pepper$ ")]))].
Proof. split; [reflexivity|]. eexists. repeat split. Qed.

Lemma login_requires_both_witness :
  login (lib := model_lib) sample_outside
    [("username", "   "); ("password", "hunter2")] empty_world
  = (Ok (Redirect "/"),
     flash "Username and password are required." empty_world)
  ∧ login (lib := model_lib) sample_outside
      [("username", "bob"); ("password", "")] empty_world
    = (Ok (Redirect "/"),
       flash "Username and password are required." empty_world).
Proof.
  split.
  - apply (login_requires_both (lib := model_lib)). left. reflexivity.
  - apply (login_requires_both (lib := model_lib)). right. right. reflexivity.
Defined.

(** ** Pick submission flow *)

Section Picks.

Context {lib : PyLib}.

Lemma pick_open_spec (now : Z) (start_times : gmap string Z) (game_id : string) :
  pick_open now (start_times !! game_id) = true
  <-> open_for_picks now start_times game_id.
Proof.
  unfold pick_open, open_for_picks.
  destruct (start_times !! game_id) as [k|]; split.
  - intros Hlt. right. exists k. split; [done|]. by apply Z.ltb_lt.
  - intros [?|(k' & Hk & Hlt)]; [done|]. inversion Hk; subst. by apply Z.ltb_lt.
  - by left.
  - done.
Qed.

Lemma pick_closed_spec (now : Z) (start_times : gmap string Z) (game_id : string) :
  pick_open now (start_times !! game_id) = false
  <-> ¬ open_for_picks now start_times game_id.
Proof.
  rewrite <- pick_open_spec. by destruct (pick_open _ _).
Qed.

Lemma getitem_JObj (c : json) (k : string) (v : json) :
  getitem c k = Ok v -> ∃ d, c = JObj d ∧ dict_get d k = Some v.
Proof.
  destruct c; try discriminate. simpl.
  destruct (dict_get fields k) eqn:E; [|discriminate].
  intros [= ->]. eauto.
Qed.

Lemma store_pick_ok (all_data : json) (week_str user game_id team_id : string)
    (picks : list (string * json)) :
  user_picks_of all_data week_str user = Ok (JObj picks) ->
  ∃ d,
    store_pick all_data week_str user game_id team_id = Ok d
    ∧ user_picks_of d week_str user
      = Ok (JObj (dict_set picks game_id (JStr team_id))).
Proof.
  unfold user_picks_of, store_pick. intros Hget.
  bind_inv Hget. rename a into wk.
  destruct (getitem_JObj _ _ _ E) as (weeks & -> & Hweek).
  destruct (getitem_JObj _ _ _ Hget) as (users & -> & Huser).
  simpl. rewrite Hweek. simpl. rewrite Huser. simpl.
  eexists. split; [done|].
  simpl. rewrite dict_get_set_eq. simpl. by rewrite dict_get_set_eq.
Qed.

(** One entry of the form, on a document in which the user's picks are a
    dictionary. *)
Lemma submit_entry_ok (now : Z) (start_times : gmap string Z)
    (week_str user : string) (st : tally) (entry : string * string)
    (picks : list (string * json)) :
  user_picks_of (data st) week_str user = Ok (JObj picks) ->
  ∃ st',
    submit_entry now start_times week_str user st entry = Ok st'
    ∧ user_picks_of (data st') week_str user
      = Ok (JObj (merge_picks now start_times picks [entry]))
    ∧ (pick_open now (start_times !! entry.1) = true ->
       saved_count st' = S (saved_count st)
       ∧ blocked_count st' = blocked_count st)
    ∧ (pick_open now (start_times !! entry.1) = false ->
       saved_count st' = saved_count st
       ∧ blocked_count st' = S (blocked_count st)
       ∧ data st' = data st).
Proof.
  intros Hpicks. unfold submit_entry, merge_picks. simpl.
  destruct (pick_open now (start_times !! entry.1)).
  - destruct (store_pick_ok _ _ _ entry.1 entry.2 _ Hpicks) as (d & -> & Hd).
    simpl. eexists. split; [done|]. simpl. by repeat split.
  - eexists. split; [done|]. simpl. by repeat split.
Qed.

Lemma submit_loop_ok (now : Z) (start_times : gmap string Z)
    (week_str user : string) (form : list (string * string)) (st : tally)
    (picks : list (string * json)) :
  user_picks_of (data st) week_str user = Ok (JObj picks) ->
  ∃ st',
    for_each (submit_entry now start_times week_str user) form st = Ok st'
    ∧ user_picks_of (data st') week_str user
      = Ok (JObj (merge_picks now start_times picks form))
    ∧ (saved_count st' + blocked_count st'
       = saved_count st + blocked_count st + length form)%nat.
Proof.
  revert st picks. induction form as [|entry form IH]; intros st picks Hpicks.
  - exists st. simpl. repeat split; [done|lia].
  - destruct (submit_entry_ok now start_times _ _ _ entry _ Hpicks)
      as (st1 & Hstep & Hpicks1 & Hopen & Hclosed).
    destruct (IH _ _ Hpicks1) as (st' & Hrun & Hpicks' & Hcount).
    exists st'. simpl. rewrite Hstep. simpl. repeat split; [done..|].
    destruct (pick_open now (start_times !! entry.1)).
    + destruct (Hopen eq_refl) as [Hs Hb]. lia.
    + destruct (Hclosed eq_refl) as (Hs & Hb & _). lia.
Qed.

Lemma merge_picks_cons (now : Z) (start_times : gmap string Z)
    (entry : string * string) (form : list (string * string))
    (picks : list (string * json)) :
  merge_picks now start_times picks (entry :: form)
  = merge_picks now start_times
      (if pick_open now (start_times !! entry.1)
       then dict_set picks entry.1 (JStr entry.2)
       else picks)
      form.
Proof. reflexivity. Qed.

Lemma merge_picks_absent (now : Z) (start_times : gmap string Z)
    (form : list (string * string)) (picks : list (string * json))
    (game_id : string) :
  game_id ∉ form.*1 ->
  dict_get (merge_picks now start_times picks form) game_id
  = dict_get picks game_id.
Proof.
  revert picks. induction form as [|[g t] form IH]; intros picks Hnot; [done|].
  simpl in Hnot. apply not_elem_of_cons in Hnot as [Hne Hnot].
  rewrite merge_picks_cons, IH by done. simpl.
  destruct (pick_open now (start_times !! g)); [|done].
  by apply dict_get_set_ne.
Qed.

Lemma merge_picks_closed (now : Z) (start_times : gmap string Z)
    (form : list (string * string)) (picks : list (string * json))
    (game_id : string) :
  pick_open now (start_times !! game_id) = false ->
  dict_get (merge_picks now start_times picks form) game_id
  = dict_get picks game_id.
Proof.
  intros Hclosed. revert picks.
  induction form as [|[g t] form IH]; intros picks; [done|].
  rewrite merge_picks_cons, IH. simpl.
  destruct (decide (g = game_id)) as [->|Hne].
  - by rewrite Hclosed.
  - destruct (pick_open now (start_times !! g)); [|done].
    by apply dict_get_set_ne.
Qed.

Lemma merge_picks_open (now : Z) (start_times : gmap string Z)
    (form : list (string * string)) (picks : list (string * json))
    (game_id team_id : string) :
  NoDup form.*1 ->
  (game_id, team_id) ∈ form ->
  pick_open now (start_times !! game_id) = true ->
  dict_get (merge_picks now start_times picks form) game_id
  = Some (JStr team_id).
Proof.
  intros Hnodup Hin Hopen. revert picks Hnodup Hin.
  induction form as [|[g t] form IH]; intros picks Hnodup Hin.
  { by apply elem_of_nil in Hin. }
  simpl in Hnodup. apply NoDup_cons in Hnodup as [Hfresh Hnodup].
  rewrite merge_picks_cons. simpl.
  apply elem_of_cons in Hin as [Heq|Hin].
  - inversion Heq; subst g t. rewrite Hopen.
    rewrite merge_picks_absent by done. apply dict_get_set_eq.
  - by apply IH.
Qed.

(** The loop of lines 157-165 against a kickoff map: an entry is counted
    as saved and written over whatever pick the user had for the game if
    and only if the map has no kickoff for the game or the clock is
    strictly before it; otherwise it is counted as blocked and the
    document is left as it was. *)
Lemma submit_loop_iff_open (now : Z) (start_times : gmap string Z)
    (week_str user : string) (all_data : json) (form : list (string * string))
    (picks : list (string * json)) :
  user_picks_of all_data week_str user = Ok (JObj picks) ->
  NoDup form.*1 ->
  (∀ st p game_id team_id,
     user_picks_of (data st) week_str user = Ok (JObj p) ->
     ∃ st',
       submit_entry now start_times week_str user st (game_id, team_id) = Ok st'
       ∧ (open_for_picks now start_times game_id
          <-> saved_count st' = S (saved_count st)
              ∧ blocked_count st' = blocked_count st
              ∧ user_picks_of (data st') week_str user
                = Ok (JObj (dict_set p game_id (JStr team_id))))
       ∧ (¬ open_for_picks now start_times game_id
          <-> blocked_count st' = S (blocked_count st)
              ∧ saved_count st' = saved_count st
              ∧ data st' = data st))
  ∧ ∃ st picks',
      submit_picks now start_times week_str user all_data form = Ok st
      ∧ user_picks_of (data st) week_str user = Ok (JObj picks')
      ∧ ∀ game_id team_id,
          (game_id, team_id) ∈ form ->
          (open_for_picks now start_times game_id ->
           dict_get picks' game_id = Some (JStr team_id))
          ∧ (¬ open_for_picks now start_times game_id ->
             dict_get picks' game_id = dict_get picks game_id)
          ∧ (start_times !! game_id = None ->
             dict_get picks' game_id = Some (JStr team_id))
          ∧ (start_times !! game_id = Some now ->
             dict_get picks' game_id = dict_get picks game_id).
Proof.
  intros Hpicks Hnodup. split.
  - intros st p game_id team_id Hp.
    destruct (submit_entry_ok now start_times _ _ _ (game_id, team_id) _ Hp)
      as (st' & Hstep & Hpicks' & Hopen & Hclosed).
    exists st'. split; [done|]. simpl in *.
    rewrite <- pick_closed_spec, <- pick_open_spec.
    unfold merge_picks in Hpicks'. simpl in Hpicks'.
    destruct (pick_open now (start_times !! game_id)).
    + destruct (Hopen eq_refl) as [Hs Hb]. split; split; try done.
      intros (Hb' & _). lia.
    + destruct (Hclosed eq_refl) as (Hs & Hb & Hd). split; split; try done.
      intros (Hs' & _). lia.
  - destruct (submit_loop_ok now start_times week_str user form
                {| data := all_data; saved_count := 0; blocked_count := 0 |}
                picks Hpicks)
      as (st & Hrun & Hfinal & _).
    exists st, (merge_picks now start_times picks form).
    split; [done|]. split; [done|].
    intros game_id team_id Hin.
    assert (∀ k, start_times !! game_id = Some k -> k ≤ now ->
                 pick_open now (start_times !! game_id) = false) as Hlocked.
    { intros k -> Hle. simpl. by apply Z.ltb_ge. }
    repeat split.
    + intros Hopen%pick_open_spec. by apply merge_picks_open.
    + intros Hclosed%pick_closed_spec. by apply merge_picks_closed.
    + intros Hnone. apply merge_picks_open; [done..|]. by rewrite Hnone.
    + intros Hnow. apply merge_picks_closed. by apply (Hlocked now).
Qed.

(** C5. Every entry of a submission is counted once, as saved or as
    blocked: the two counts add up to the number of entries. *)
Theorem submit_counts_every_entry (now : Z) (start_times : gmap string Z)
    (week_str user : string) (all_data : json) (form : list (string * string))
    (picks : list (string * json)) :
  user_picks_of all_data week_str user = Ok (JObj picks) ->
  ∃ st,
    submit_picks now start_times week_str user all_data form = Ok st
    ∧ (saved_count st + blocked_count st = length form)%nat.
Proof.
  intros Hpicks.
  destruct (submit_loop_ok now start_times week_str user form
              {| data := all_data; saved_count := 0; blocked_count := 0 |}
              picks Hpicks)
    as (st & Hrun & _ & Hcount).
  exists st. split; [done|]. simpl in Hcount. lia.
Qed.

Lemma dict_get_elem {A : Type} (d : list (string * A)) (k : string) (v : A) :
  dict_get d k = Some v -> (k, v) ∈ d.
Proof.
  induction d as [|[k' v'] d IH]; simpl; [done|].
  destruct (String.eqb k' k) eqn:E.
  - apply String.eqb_eq in E. intros [= ->]. subst. left.
  - intros Hd. right. by apply IH.
Qed.

(** Lines 139-143 succeed on a pick document, and leave the picks of the
    user as a dictionary. *)
Lemma ensure_entries_ok (doc : json) (week_str user : string) :
  pick_document doc ->
  ∃ doc' picks,
    ensure_entries doc week_str user = Ok doc'
    ∧ user_picks_of doc' week_str user = Ok (JObj picks).
Proof.
  destruct doc as [| | | | |weeks]; try done. simpl. intros Hweeks.
  unfold ensure_entries, user_picks_of. simpl.
  destruct (dict_get weeks week_str) as [wk|] eqn:Hweek; simpl.
  - rewrite Hweek. simpl.
    apply dict_get_elem in Hweek as Hin.
    rewrite Forall_forall in Hweeks. specialize (Hweeks _ Hin). simpl in Hweeks.
    destruct wk as [| | | | |users]; try done. simpl.
    destruct (dict_get users user) as [up|] eqn:Huser; simpl.
    + apply dict_get_elem in Huser as Hin'.
      rewrite Forall_forall in Hweeks. specialize (Hweeks _ Hin'). simpl in Hweeks.
      destruct up as [| | | | |picks]; try done.
      exists (JObj weeks), picks. split; [done|].
      simpl. rewrite Hweek. simpl. by rewrite Huser.
    + eexists _, []. split; [reflexivity|].
      simpl. rewrite dict_get_set_eq. simpl. by rewrite dict_get_set_eq.
  - rewrite dict_get_set_eq. simpl.
    eexists _, []. split; [reflexivity|].
    simpl. rewrite dict_get_set_eq. simpl. by rewrite String.eqb_refl.
Qed.

(** C9. A [GET] of the week view writes nothing, and neither does a
    [POST] that is sent without a session or that raises. A [POST] of a
    logged-in user, on a store that holds a pick document and a schedule
    whose kickoffs can be read, calls [save_json] exactly once, whatever
    the form holds (nothing, or only locked games): the document written
    is the merged one, in which the entries of the week and of the user
    exist. *)
Theorem week_view_post_saves_once (o : outside) (week : Z)
    (form : list (string * string)) (w : world) :
  (week_view o GET week form w).2 = w
  ∧ (session_user w = None ->
     week_view o POST week form w = (Ok (Redirect "/"), w))
  ∧ (∀ ex, (week_view o POST week form w).1 = Raise ex ->
           (week_view o POST week form w).2 = w)
  ∧ (∀ user doc start_times,
       session_user w = Some user ->
       load_json (files w) PICKS_FILE = Ok doc ->
       pick_document doc ->
       game_start_times (get_espn_schedule o week) = Ok start_times ->
       ∃ all_data st picks,
         ensure_entries doc (pretty week) user = Ok all_data
         ∧ submit_picks (now_utc o) start_times (pretty week) user all_data form
           = Ok st
         ∧ week_view o POST week form w
           = (Ok (Redirect ("/week/" +:+ pretty week)),
              flash (submit_message week st)
                (save_json PICKS_FILE (data st) w))
         ∧ saves (week_view o POST week form w).2
           = saves w ++ [(PICKS_FILE, json_dumps (data st))]
         ∧ files (week_view o POST week form w).2
           = <[PICKS_FILE := json_dumps (data st)]> (files w)
         ∧ user_picks_of (data st) (pretty week) user = Ok (JObj picks)
         ∧ (saved_count st + blocked_count st = length form)%nat).
Proof.
  repeat split.
  - unfold week_view. destruct (session_user w); [|done].
    destruct (bind (load_json _ _) _); [|done].
    by destruct (bind (getitem _ _) _).
  - unfold week_view. by intros ->.
  - intros ex. unfold week_view. destruct (session_user w); [|done].
    destruct (bind (load_json _ _) _); [|done].
    destruct (bind (game_start_times _) _); [|done].
    simpl. discriminate.
  - intros user doc start_times Huser Hload Hdoc Htimes.
    destruct (ensure_entries_ok doc (pretty week) user Hdoc)
      as (doc' & picks & Hensure & Hpicks).
    destruct (submit_loop_ok (now_utc o) start_times (pretty week) user form
                {| data := doc'; saved_count := 0; blocked_count := 0 |}
                picks Hpicks)
      as (st & Hrun & Hfinal & Hcount).
    exists doc', st, (merge_picks (now_utc o) start_times picks form).
    split; [done|]. split; [done|].
    assert (week_view o POST week form w
            = (Ok (Redirect ("/week/" +:+ pretty week)),
               flash (submit_message week st)
                 (save_json PICKS_FILE (data st) w))) as Hview.
    { unfold week_view, submit_picks.
      rewrite Huser, Hload. simpl. rewrite Hensure, Htimes. simpl.
      by rewrite Hrun. }
    rewrite Hview. simpl. repeat split; [done|]. simpl in Hcount. lia.
Qed.

Lemma ensure_entries_picks (doc : json) (week_str user : string) :
  pick_document doc ->
  ∃ all_data,
    ensure_entries doc week_str user = Ok all_data
    ∧ user_picks_of all_data week_str user
      = Ok match user_picks_of doc week_str user with
           | Ok picks => picks
           | Raise _ => JObj []
           end.
Proof.
  destruct doc as [| | | | |weeks]; try done. intros Hdoc.
  unfold ensure_entries, user_picks_of. simpl.
  destruct (dict_get weeks week_str) as [wk|] eqn:Hweek; simpl.
  - rewrite Hweek. simpl.
    assert (∃ users, wk = JObj users) as [users ->].
    { apply dict_get_elem in Hweek.
      simpl in Hdoc. rewrite Forall_forall in Hdoc.
      specialize (Hdoc _ Hweek). simpl in Hdoc.
      destruct wk; try done. by eexists. }
    simpl. destruct (dict_get users user) as [picks|] eqn:Huser; simpl.
    + eexists. split; [done|]. simpl. rewrite Hweek. simpl. by rewrite Huser.
    + eexists. split; [done|]. simpl.
      rewrite dict_get_set_eq. simpl. by rewrite dict_get_set_eq.
  - rewrite dict_get_set_eq. simpl.
    eexists. split; [done|]. simpl.
    rewrite dict_get_set_eq. simpl. by rewrite String.eqb_refl.
Qed.

(** *** The kickoff map and the schedule *)

Lemma readable_kickoff_inj (event : json) (k k' : string) (t t' : Z) :
  readable_kickoff event k t -> readable_kickoff event k' t' ->
  k = k' ∧ t = t'.
Proof.
  intros (date & Hdate & Hparse & Hkey) (date' & Hdate' & Hparse' & Hkey').
  rewrite Hdate in Hdate'. injection Hdate' as <-.
  rewrite Hparse in Hparse'. rewrite Hkey in Hkey'.
  injection Hparse' as <-. injection Hkey' as <-. done.
Qed.

Lemma kickoff_entry_readable (m : gmap string Z) (event : json) (k : string)
    (t : Z) :
  readable_kickoff event k t -> kickoff_entry m event = Ok (<[k := t]> m).
Proof.
  intros (date & Hdate & Hparse & Hkey). unfold kickoff_entry.
  rewrite Hdate. simpl. rewrite Hparse. simpl. by rewrite Hkey.
Qed.

(** An event that the loop gets past is either read as a kickoff and
    stored, or passed over because it cannot be read as one. *)
Lemma kickoff_entry_inv (m m' : gmap string Z) (event : json) :
  kickoff_entry m event = Ok m' ->
  (m' = m ∧ ∀ k t, ¬ readable_kickoff event k t)
  ∨ ∃ k t, readable_kickoff event k t ∧ m' = <[k := t]> m.
Proof.
  intros Hrun.
  destruct (try_except_Ok _ _ _ _ Hrun) as [Hbody|(-> & e & Hbody & _)].
  - right. bind_inv Hbody. rename a into date.
    bind_inv Hbody. rename a into t.
    bind_inv Hbody. rename a into k. inversion Hbody; subst m'.
    exists k, t. split; [|done].
    destruct date as [| | |s| |]; try discriminate.
    exists s. split; [done|]. split; [|done].
    by destruct (strptime_utc s); inversion E0.
  - left. split; [done|]. intros k t Hreadable.
    pose proof (kickoff_entry_readable m event k t Hreadable) as Hok.
    unfold kickoff_entry in Hok. rewrite Hbody in Hok. simpl in Hok.
    destruct Hreadable as (date & Hdate & Hparse & Hkey).
    rewrite Hdate in Hbody. simpl in Hbody. rewrite Hparse in Hbody.
    simpl in Hbody. rewrite Hkey in Hbody. discriminate.
Qed.

Lemma kickoff_entry_other (m m' : gmap string Z) (event : json) (k : string) :
  kickoff_entry m event = Ok m' ->
  (∀ t, ¬ readable_kickoff event k t) ->
  m' !! k = m !! k.
Proof.
  intros Hrun Hnone.
  destruct (kickoff_entry_inv _ _ _ Hrun) as [[-> _]|(k' & t' & Hreadable & ->)];
    [done|].
  apply lookup_insert_ne. intros ->. by apply (Hnone t').
Qed.

Lemma kickoff_loop_other (events : list json) (m0 m : gmap string Z)
    (k : string) :
  for_each kickoff_entry events m0 = Ok m ->
  Forall (λ e, ∀ t, ¬ readable_kickoff e k t) events ->
  m !! k = m0 !! k.
Proof.
  intros Hrun Hnone. revert Hrun.
  apply (for_each_invariant (λ m1, m1 !! k = m0 !! k)); [done|].
  intros m1 e m2 He IH Hstep.
  rewrite (kickoff_entry_other _ _ _ _ Hstep); [done|].
  rewrite Forall_forall in Hnone. by apply Hnone.
Qed.

(** The last readable event of a game decides its kickoff. *)
Lemma kickoff_loop_last (pre post : list json) (event : json)
    (m0 m : gmap string Z) (k : string) (t : Z) :
  for_each kickoff_entry (pre ++ event :: post) m0 = Ok m ->
  readable_kickoff event k t ->
  Forall (λ e, ∀ t', ¬ readable_kickoff e k t') post ->
  m !! k = Some t.
Proof.
  rewrite for_each_app. intros Hrun Hreadable Hpost.
  bind_inv Hrun. rename a into m1. simpl in Hrun.
  rewrite (kickoff_entry_readable m1 event k t Hreadable) in Hrun.
  simpl in Hrun.
  rewrite (kickoff_loop_other post _ m k Hrun Hpost).
  apply lookup_insert_eq.
Qed.

(** When the loop runs through, every game either has no readable event
    or has a last one. *)
Lemma kickoff_loop_cases (events : list json) (m0 m : gmap string Z)
    (k : string) :
  for_each kickoff_entry events m0 = Ok m ->
  Forall (λ e, ∀ t, ¬ readable_kickoff e k t) events
  ∨ ∃ pre event post t,
      events = pre ++ event :: post
      ∧ readable_kickoff event k t
      ∧ Forall (λ e, ∀ t', ¬ readable_kickoff e k t') post.
Proof.
  revert m0. induction events as [|e events IH]; intros m0 Hrun.
  { left. constructor. }
  simpl in Hrun. bind_inv Hrun. rename a into m1.
  destruct (IH m1 Hrun) as [Hnone|(pre & event & post & t & -> & Hr & Hpost)].
  - destruct (kickoff_entry_inv _ _ _ E)
      as [[_ Hunread]|(k' & t' & Hreadable & _)].
    + left. constructor; [|done]. intros t. apply Hunread.
    + destruct (decide (k' = k)) as [->|Hne].
      * right. exists [], e, events, t'. done.
      * left. constructor; [|done]. intros t Hr.
        by destruct (readable_kickoff_inj _ _ _ _ _ Hreadable Hr).
  - right. exists (e :: pre), event, post, t. done.
Qed.

Lemma game_start_times_scheduled (schedule : json) (m : gmap string Z)
    (k : string) (t : Z) :
  game_start_times schedule = Ok m ->
  scheduled_kickoff schedule k t ->
  m !! k = Some t.
Proof.
  unfold game_start_times.
  intros Hrun (evs & pre & event & post & Hevs & Hiter & Hreadable & Hpost).
  rewrite Hevs in Hrun. simpl in Hrun. rewrite Hiter in Hrun. simpl in Hrun.
  by apply (kickoff_loop_last pre post event ∅ m k t).
Qed.

Lemma game_start_times_unscheduled (schedule : json) (m : gmap string Z)
    (k : string) :
  game_start_times schedule = Ok m ->
  unscheduled schedule k ->
  m !! k = None.
Proof.
  unfold game_start_times. intros Hrun (evs & events & Hevs & Hiter & Hnone).
  rewrite Hevs in Hrun. simpl in Hrun. rewrite Hiter in Hrun. simpl in Hrun.
  by rewrite (kickoff_loop_other events ∅ m k Hrun Hnone).
Qed.

Lemma game_start_times_cases (schedule : json) (m : gmap string Z)
    (k : string) :
  game_start_times schedule = Ok m ->
  unscheduled schedule k ∨ ∃ t, scheduled_kickoff schedule k t.
Proof.
  unfold game_start_times. intros Hrun.
  bind_inv Hrun. rename a into evs. bind_inv Hrun. rename a into events.
  destruct (kickoff_loop_cases events ∅ m k Hrun)
    as [Hnone|(pre & event & post & t & -> & Hr & Hpost)].
  - left. by exists evs, events.
  - right. exists t, evs, pre, event, post. done.
Qed.

(** The kickoff map of [week_view] is the schedule's: a game has the
    kickoff of its last readable event, and none when it has no such
    event. *)
Lemma game_start_times_is_schedule (schedule : json) (m : gmap string Z)
    (k : string) :
  game_start_times schedule = Ok m ->
  (∀ t, m !! k = Some t <-> scheduled_kickoff schedule k t)
  ∧ (m !! k = None <-> unscheduled schedule k).
Proof.
  intros Hrun. split; [intros t|]; split.
  - intros Hk.
    destruct (game_start_times_cases _ _ k Hrun) as [Hnone|[t' Hsched]].
    + rewrite (game_start_times_unscheduled _ _ _ Hrun Hnone) in Hk.
      discriminate.
    + rewrite (game_start_times_scheduled _ _ _ _ Hrun Hsched) in Hk.
      by injection Hk as <-.
  - by apply game_start_times_scheduled.
  - intros Hk.
    destruct (game_start_times_cases _ _ k Hrun) as [Hnone|[t' Hsched]];
      [done|].
    rewrite (game_start_times_scheduled _ _ _ _ Hrun Hsched) in Hk.
    discriminate.
  - by apply game_start_times_unscheduled.
Qed.

Lemma open_for_picks_schedule (now : Z) (schedule : json)
    (m : gmap string Z) (k : string) :
  game_start_times schedule = Ok m ->
  open_for_picks now m k <-> open_in_schedule now schedule k.
Proof.
  intros Hrun.
  destruct (game_start_times_is_schedule schedule m k Hrun) as [Hsome Hnone].
  unfold open_for_picks, open_in_schedule. rewrite Hnone.
  split; (intros [?|(t & Ht & Hlt)]; [by left|right; exists t]);
    (split; [by apply Hsome|done]).
Qed.

Lemma stored_pick_ensured (doc all_data : json) (week_str user game_id : string)
    (picks : list (string * json)) :
  pick_document doc ->
  ensure_entries doc week_str user = Ok all_data ->
  user_picks_of all_data week_str user = Ok (JObj picks) ->
  dict_get picks game_id = stored_pick doc week_str user game_id.
Proof.
  intros Hdoc Hensure Hpicks.
  destruct (ensure_entries_picks doc week_str user Hdoc)
    as (all_data' & Hensure' & Hpicks').
  rewrite Hensure in Hensure'. injection Hensure' as <-.
  rewrite Hpicks in Hpicks'. unfold stored_pick.
  destruct (user_picks_of doc week_str user) as [p|];
    injection Hpicks' as Heq; by subst.
Qed.

(** C1. A submission is judged against the schedule that the request
    fetches. The kickoff map that [week_view] builds from it gives a game
    the kickoff of its last event with a readable date, and none when the
    schedule has no such event. A submitted entry is accepted, that is
    counted as saved and written over whatever pick the user had for the
    game, if and only if the game has no kickoff in the fetched schedule or
    the clock is strictly before its kickoff; otherwise it is counted as
    blocked and the document is left as it was. The document the request
    saves holds the team of every open entry and the earlier pick of every
    locked one; a kickoff equal to the clock locks the game, and a game
    that is absent from the schedule is accepted. (The keys of a submitted
    form are distinct.) *)
Theorem submit_accepts_iff_open (o : outside) (week : Z)
    (form : list (string * string)) (w : world) (user : string) (doc : json)
    (start_times : gmap string Z) :
  session_user w = Some user ->
  load_json (files w) PICKS_FILE = Ok doc ->
  pick_document doc ->
  game_start_times (get_espn_schedule o week) = Ok start_times ->
  NoDup form.*1 ->
  (∀ game_id kickoff,
     start_times !! game_id = Some kickoff
     <-> scheduled_kickoff (get_espn_schedule o week) game_id kickoff)
  ∧ (∀ game_id,
       start_times !! game_id = None
       <-> unscheduled (get_espn_schedule o week) game_id)
  ∧ (∀ st p game_id team_id,
       user_picks_of (data st) (pretty week) user = Ok (JObj p) ->
       ∃ st',
         submit_entry (now_utc o) start_times (pretty week) user st
           (game_id, team_id)
         = Ok st'
         ∧ (open_in_schedule (now_utc o) (get_espn_schedule o week) game_id
            <-> saved_count st' = S (saved_count st)
                ∧ blocked_count st' = blocked_count st
                ∧ user_picks_of (data st') (pretty week) user
                  = Ok (JObj (dict_set p game_id (JStr team_id))))
         ∧ (¬ open_in_schedule (now_utc o) (get_espn_schedule o week) game_id
            <-> blocked_count st' = S (blocked_count st)
                ∧ saved_count st' = saved_count st
                ∧ data st' = data st))
  ∧ ∃ st picks',
      week_view o POST week form w
      = (Ok (Redirect ("/week/" +:+ pretty week)),
         flash (submit_message week st) (save_json PICKS_FILE (data st) w))
      ∧ user_picks_of (data st) (pretty week) user = Ok (JObj picks')
      ∧ ∀ game_id team_id,
          (game_id, team_id) ∈ form ->
          (open_in_schedule (now_utc o) (get_espn_schedule o week) game_id ->
           dict_get picks' game_id = Some (JStr team_id))
          ∧ (¬ open_in_schedule (now_utc o) (get_espn_schedule o week) game_id ->
             dict_get picks' game_id
             = stored_pick doc (pretty week) user game_id)
          ∧ (unscheduled (get_espn_schedule o week) game_id ->
             dict_get picks' game_id = Some (JStr team_id))
          ∧ (scheduled_kickoff (get_espn_schedule o week) game_id (now_utc o) ->
             dict_get picks' game_id
             = stored_pick doc (pretty week) user game_id).
Proof.
  intros Huser Hload Hdoc Htimes Hnodup.
  destruct (ensure_entries_ok doc (pretty week) user Hdoc)
    as (all_data & picks & Hensure & Hpicks).
  destruct (submit_loop_iff_open (now_utc o) start_times (pretty week) user
              all_data form picks Hpicks Hnodup)
    as (Hentry & st & picks' & Hrun & Hfinal & Hall).
  split; [|split; [|split]].
  - intros game_id kickoff.
    apply (game_start_times_is_schedule _ _ game_id Htimes).
  - intros game_id.
    apply (game_start_times_is_schedule _ _ game_id Htimes).
  - intros st0 p game_id team_id Hp.
    destruct (Hentry st0 p game_id team_id Hp) as (st' & Hstep & Hopen & Hclosed).
    exists st'. split; [done|].
    by rewrite <- (open_for_picks_schedule _ _ _ game_id Htimes).
  - exists st, picks'. split; [|split; [done|]].
    { unfold week_view. rewrite Huser, Hload. simpl.
      rewrite Hensure, Htimes. simpl. by rewrite Hrun. }
    intros game_id team_id Hin.
    destruct (Hall game_id team_id Hin) as (Hopen & Hclosed & Hnone & Hnow).
    rewrite <- (stored_pick_ensured doc all_data (pretty week) user game_id
                  picks Hdoc Hensure Hpicks).
    rewrite <- (open_for_picks_schedule _ _ _ game_id Htimes).
    split; [done|]. split; [done|]. split.
    + intros Hunscheduled. apply Hnone.
      by apply (game_start_times_is_schedule _ _ game_id Htimes).
    + intros Hscheduled. apply Hnow.
      by apply (game_start_times_is_schedule _ _ game_id Htimes).
Qed.

End Picks.

Lemma sample_start_times :
  game_start_times (lib := model_lib) sample_schedule
  = Ok {[ "401" := 1725814800000000; "402" := 1725841200000000 ]}.
Proof. vm_compute. reflexivity. Qed.


(** Reads off that an event is no kickoff of a game. *)
Ltac not_readable :=
  let t := fresh "t" in
  let date := fresh "date" in
  let Hdate := fresh "Hdate" in
  let Hparse := fresh "Hparse" in
  let Hkey := fresh "Hkey" in
  intros t (date & Hdate & Hparse & Hkey);
  vm_compute in Hkey; try discriminate Hkey;
  vm_compute in Hdate; injection Hdate as <-;
  vm_compute in Hparse; discriminate Hparse.

(** In the sample schedule game 401 kicks off at the time of the request,
    game 402 later, and the date of game 403 cannot be read. *)
Lemma sample_schedule_kickoffs :
  scheduled_kickoff (lib := reading_lib) sample_schedule "401" 1725814800000000
  ∧ scheduled_kickoff (lib := reading_lib) sample_schedule "402"
      1725841200000000
  ∧ unscheduled (lib := reading_lib) sample_schedule "403".
Proof.
  split; [|split].
  - exists (JArr [game_401; game_403; game_402]), [], game_401,
      [game_403; game_402].
    split; [reflexivity|]. split; [reflexivity|]. split.
    + exists "2024-09-08T17:00Z". by repeat split.
    + repeat constructor; not_readable.
  - exists (JArr [game_401; game_403; game_402]), [game_401; game_403],
      game_402, [].
    split; [reflexivity|]. split; [reflexivity|]. split.
    + exists "2024-09-09T00:20Z". by repeat split.
    + constructor.
  - exists (JArr [game_401; game_403; game_402]),
      [game_401; game_403; game_402].
    split; [reflexivity|]. split; [reflexivity|].
    repeat constructor; not_readable.
Qed.

Lemma submit_accepts_iff_open_witness :
  ∃ st picks',
    week_view (lib := reading_lib) sample_outside POST 1 sample_form
      alice_with_picks
    = (Ok (Redirect "/week/1"),
       flash (submit_message 1 st)
         (save_json (lib := reading_lib) PICKS_FILE (data st) alice_with_picks))
    ∧ user_picks_of (data st) "1" "alice" = Ok (JObj picks')
    ∧ dict_get picks' "401" = Some (JStr "7")
    ∧ dict_get picks' "402" = Some (JStr "3")
    ∧ dict_get picks' "403" = Some (JStr "22").
Proof.
  destruct sample_schedule_kickoffs as (H401 & H402 & H403).
  destruct (submit_accepts_iff_open (lib := reading_lib) sample_outside 1
              sample_form alice_with_picks "alice" two_players
              {[ "401" := 1725814800000000; "402" := 1725841200000000 ]}
              eq_refl eq_refl ltac:(repeat constructor)
              ltac:(vm_compute; reflexivity)
              ltac:(apply (bool_decide_unpack _); vm_compute; exact I))
    as (_ & _ & _ & st & picks' & Hrun & Hpicks & Hall).
  exists st, picks'. split; [exact Hrun|]. split; [exact Hpicks|].
  split; [|split].
  - apply (proj2 (proj2 (proj2 (Hall "401" "12" ltac:(repeat constructor))))).
    exact H401.
  - apply (proj1 (Hall "402" "3" ltac:(repeat constructor))).
    right. exists 1725841200000000. split; [exact H402 | simpl; lia].
  - apply (proj1 (proj2 (proj2 (Hall "403" "22" ltac:(repeat constructor))))).
    exact H403.
Defined.

Lemma submit_counts_every_entry_witness :
  ∃ st,
    submit_picks 1725814800000000
      {[ "401" := 1725814800000000; "402" := 1725841200000000 ]}
      "1" "alice" sample_picks sample_form = Ok st
    ∧ (saved_count st + blocked_count st = 3)%nat.
Proof.
  apply (submit_counts_every_entry 1725814800000000
           {[ "401" := 1725814800000000; "402" := 1725841200000000 ]}
           "1" "alice" sample_picks sample_form [("401", JStr "7")]).
  reflexivity.
Defined.

Lemma submit_sample_counts :
  ∃ d,
    submit_picks 1725814800000000
      {[ "401" := 1725814800000000; "402" := 1725841200000000 ]}
      "1" "alice" sample_picks sample_form
    = Ok {| data := d; saved_count := 2; blocked_count := 1 |}.
Proof. eexists. vm_compute. reflexivity. Qed.

Lemma week_view_post_saves_once_witness :
  ∃ st,
    saves (week_view (lib := model_lib) sample_outside POST 1 sample_form
             alice_world).2
    = [(PICKS_FILE, @json_dumps model_lib (data st))]
    ∧ (saved_count st + blocked_count st = 3)%nat.
Proof.
  destruct (proj2 (proj2 (proj2 (week_view_post_saves_once (lib := model_lib)
                                   sample_outside 1 sample_form alice_world)))
              "alice" (JObj [])
              {[ "401" := 1725814800000000; "402" := 1725841200000000 ]}
              eq_refl eq_refl ltac:(constructor)
              ltac:(vm_compute; reflexivity))
    as (all_data & st & picks & _ & _ & _ & Hsaves & _ & _ & Hcount).
  exists st. split; [exact Hsaves | exact Hcount].
Defined.

(** The view of a week the user has no picks for: nothing is written. *)
Lemma week_view_get_sample :
  week_view (lib := model_lib) sample_outside GET 1 [] alice_world
  = (Ok (RenderWeek 1 sample_schedule (JObj []) 1725814800000000),
     alice_world).
Proof. reflexivity. Qed.

(** A submission in which every game is locked is saved all the same. *)
Lemma week_view_post_all_blocked :
  ∃ w',
    week_view (lib := model_lib) sample_outside POST 1 [("401", "12")]
      alice_world
    = (Ok (Redirect "/week/1"), w')
    ∧ saves w'
      = [(PICKS_FILE,
          @json_dumps model_lib (JObj [("1", JObj [("alice", JObj [])])]))]
    ∧ flashes w' = ["Saved 0 picks. 1 games were already locked."].
Proof. eexists. vm_compute. repeat split. Qed.

(** ** Leaderboard *)

Lemma count_pick_fold (selected_player : string) (winners : gmap string json)
    (player : string) (picks : list (string * string)) (t : totals) :
  total_picks (fold_left (count_pick selected_player winners player) picks t)
  = total_picks t
    + (if String.eqb player selected_player then Z.of_nat (length picks) else 0)
  ∧ total_wins (fold_left (count_pick selected_player winners player) picks t)
    = total_wins t
      + (if String.eqb player selected_player
         then Z.of_nat
                (length (List.filter (λ p, is_win winners p.1 p.2) picks))
         else 0).
Proof.
  revert t. induction picks as [|pick picks IH]; intros t.
  - simpl. destruct (String.eqb player selected_player); lia.
  - simpl fold_left. destruct (IH (count_pick selected_player winners player t pick))
      as [-> ->].
    unfold count_pick. simpl List.filter.
    destruct (String.eqb player selected_player); [|lia].
    destruct (is_win winners pick.1 pick.2); simpl; lia.
Qed.

Lemma filter_week_picks (winners_of : string -> gmap string json)
    (week_str : string) (picks : list (string * string)) :
  length (List.filter (pick_won winners_of)
            (List.map (λ pick, (week_str, pick)) picks))
  = length (List.filter (λ p, is_win (winners_of week_str) p.1 p.2) picks).
Proof.
  induction picks as [|pick picks IH]; [done|].
  cbn [List.map List.filter].
  change (pick_won winners_of (week_str, pick))
    with (is_win (winners_of week_str) pick.1 pick.2).
  destruct (is_win (winners_of week_str) pick.1 pick.2);
    cbn [length]; by rewrite IH.
Qed.

Lemma count_week_fold (selected_player : string)
    (winners_of : string -> gmap string json) (week_str : string)
    (players : list (string * list (string * string))) (t : totals) :
  let t' :=
    fold_left
      (λ t player_entry,
         fold_left
           (count_pick selected_player (winners_of week_str) player_entry.1)
           player_entry.2 t)
      players t in
  let made := week_picks_of_player selected_player (week_str, players) in
  total_picks t' = total_picks t + Z.of_nat (length made)
  ∧ total_wins t'
    = total_wins t + Z.of_nat (length (List.filter (pick_won winners_of) made)).
Proof.
  revert t. induction players as [|[player picks] players IH]; intros t.
  - simpl. lia.
  - simpl in *.
    destruct (IH (fold_left
                    (count_pick selected_player (winners_of week_str) player)
                    picks t)) as [-> ->].
    destruct (count_pick_fold selected_player (winners_of week_str) player picks t)
      as [-> ->].
    unfold week_picks_of_player in *. simpl.
    rewrite length_app, List.filter_app, length_app.
    destruct (String.eqb player selected_player).
    + rewrite length_map, filter_week_picks. lia.
    + simpl. lia.
Qed.

Lemma scoreboard_totals_fold (selected_player : string)
    (winners_of : string -> gmap string json)
    (all_data : list (string * list (string * list (string * string))))
    (t : totals) :
  let t' :=
    fold_left
      (λ t week_entry,
         fold_left
           (λ t player_entry,
              fold_left
                (count_pick selected_player (winners_of week_entry.1)
                   player_entry.1)
                player_entry.2 t)
           week_entry.2 t)
      all_data t in
  total_picks t'
  = total_picks t + Z.of_nat (length (picks_of_player selected_player all_data))
  ∧ total_wins t'
    = total_wins t
      + Z.of_nat
          (length (List.filter (pick_won winners_of)
                     (picks_of_player selected_player all_data))).
Proof.
  revert t. induction all_data as [|[week_str players] all_data IH]; intros t.
  - simpl. lia.
  - simpl in *.
    destruct (IH (fold_left
                    (λ t player_entry,
                       fold_left
                         (count_pick selected_player (winners_of week_str)
                            player_entry.1)
                         player_entry.2 t)
                    players t)) as [-> ->].
    destruct (count_week_fold selected_player winners_of week_str players t)
      as [-> ->].
    unfold picks_of_player. simpl.
    rewrite length_app, List.filter_app, length_app. lia.
Qed.

Lemma scoreboard_totals_counts (selected_player : string)
    (winners_of : string -> gmap string json)
    (all_data : list (string * list (string * list (string * string)))) :
  total_picks (scoreboard_totals selected_player winners_of all_data)
  = picks_made selected_player all_data
  ∧ total_wins (scoreboard_totals selected_player winners_of all_data)
    = picks_won selected_player winners_of all_data.
Proof.
  unfold scoreboard_totals, picks_made, picks_won.
  destruct (scoreboard_totals_fold selected_player winners_of all_data
              {| total_picks := 0; total_wins := 0 |}) as [-> ->].
  simpl. lia.
Qed.

(** C8 (amended). With [picks] the number of picks the selected player has
    over all weeks and [wins] the number of them on the resolved winner,
    the win rate of the report is the integer [0] when [picks] is zero and
    otherwise [round(wins / picks * 100, 1)] as binary64 arithmetic
    evaluates it: the quotient is rounded before it is multiplied. *)
Theorem scoreboard_win_rate_value (selected_player : string)
    (winners_of : string -> gmap string json)
    (all_data : list (string * list (string * list (string * string)))) :
  let picks := picks_made selected_player all_data in
  let wins := picks_won selected_player winners_of all_data in
  (picks = 0 ->
   scoreboard_win_rate selected_player winners_of all_data = Int 0)
  ∧ (0 < picks ->
     scoreboard_win_rate selected_player winners_of all_data
     = Float (py_round1
                (PrimFloat.mul
                   (PrimFloat.div (of_count wins) (of_count picks))
                   (of_count 100)))).
Proof.
  intros picks wins. unfold scoreboard_win_rate, win_rate.
  destruct (scoreboard_totals_counts selected_player winners_of all_data)
    as [-> ->].
  fold picks wins. split.
  - intros ->. done.
  - intros Hpos. by apply Z.ltb_lt in Hpos as ->.
Qed.

Lemma eighty_picks_counts :
  picks_made "alice" eighty_picks = 80
  ∧ picks_won "alice" all_won_by_W eighty_picks = 23.
Proof. vm_compute. done. Qed.

Lemma scoreboard_win_rate_value_witness :
  scoreboard_win_rate "alice" all_won_by_W eighty_picks
  = Float (py_round1
             (PrimFloat.mul (PrimFloat.div (of_count 23) (of_count 80))
                (of_count 100)))
  ∧ scoreboard_win_rate "bob" all_won_by_W eighty_picks = Int 0.
Proof.
  split.
  - apply (proj2 (scoreboard_win_rate_value "alice" all_won_by_W eighty_picks)).
    vm_compute. reflexivity.
  - apply (proj1 (scoreboard_win_rate_value "bob" all_won_by_W eighty_picks)).
    vm_compute. reflexivity.
Defined.

(** C8, as stated, fails. With 23 wins in 80 picks the percentage is
    28.75: [round(100 * wins / picks, 1)] is 28.8 and the report shows
    28.7. With 49 wins in 80 picks the percentage is 61.25:
    [round(100 * wins / picks, 1)] is 61.2 and the report shows 61.3. *)
Lemma win_rate_differs_from_claimed :
  scoreboard_win_rate "alice" all_won_by_W eighty_picks
  ≠ claimed_win_rate
      (picks_won "alice" all_won_by_W eighty_picks)
      (picks_made "alice" eighty_picks)
  ∧ scoreboard_win_rate "alice" all_won_by_W eighty_picks = Float (tenths 287)
  ∧ claimed_win_rate
      (picks_won "alice" all_won_by_W eighty_picks)
      (picks_made "alice" eighty_picks)
    = Float (tenths 288)
  ∧ win_rate 49 80 = Float (tenths 613)
  ∧ claimed_win_rate 49 80 = Float (tenths 612).
Proof.
  assert (scoreboard_win_rate "alice" all_won_by_W eighty_picks
          = Float (tenths 287)) as Hcode
    by (vm_compute; reflexivity).
  assert (claimed_win_rate
            (picks_won "alice" all_won_by_W eighty_picks)
            (picks_made "alice" eighty_picks)
          = Float (tenths 288)) as Hclaimed
    by (vm_compute; reflexivity).
  split; [|split; [exact Hcode|split; [exact Hclaimed|]]].
  - rewrite Hcode, Hclaimed. intros Heq.
    apply (f_equal (λ n, match n with
                         | Float f => Prim2SF f
                         | Int _ => S754_nan
                         end)) in Heq.
    vm_compute in Heq. discriminate Heq.
  - vm_compute. split; reflexivity.
Qed.

(** * Further properties *)

(** * Further properties *)

(** ** Record store *)

Section StoreRoundTrip.

Context {lib : PyLib}.

(** X1. What [save_json] writes is what [load_json] reads back, for a
    document that the library's serialisation reads back; every other
    file loads as before, and the session is not touched. *)
Theorem save_json_then_load_json (filename other : string) (doc : json)
    (w : world) (text : string) :
  decode_text (json_dumps doc) = Some text ->
  json_loads text = Some doc ->
  load_json (files (save_json filename doc w)) filename = Ok doc
  ∧ (other ≠ filename ->
     load_json (files (save_json filename doc w)) other
     = load_json (files w) other)
  ∧ session_user (save_json filename doc w) = session_user w.
Proof.
  intros Hdecode Hloads. unfold load_json, json_load. simpl. repeat split.
  - by rewrite lookup_insert_eq, Hdecode, Hloads.
  - intros Hne. by rewrite lookup_insert_ne.
Qed.

End StoreRoundTrip.

Lemma save_json_then_load_json_witness :
  load_json (lib := model_lib)
    (files (save_json (lib := model_lib) USERS_FILE sample_users empty_world))
    USERS_FILE
  = Ok sample_users.
Proof.
  apply (save_json_then_load_json (lib := model_lib) USERS_FILE PICKS_FILE
           sample_users empty_world "<users>"); reflexivity.
Defined.

(** ** Winner resolver, continued *)

Section WinnersComplete.

Context {lib : PyLib}.

Lemma record_winner_keeps (event : json) (w w' : gmap string json) (c : json)
    (k : string) :
  record_winner event w c = Ok w' -> is_Some (w !! k) -> is_Some (w' !! k).
Proof.
  unfold record_winner. intros Hrun Hk.
  bind_inv Hrun. destruct a; [|by inversion Hrun; subst].
  bind_inv Hrun. bind_inv Hrun. inversion Hrun; subst w'.
  destruct (decide (a0 = k)) as [->|Hne].
  - rewrite lookup_insert_eq. eauto.
  - by rewrite lookup_insert_ne.
Qed.

Lemma record_winners_keep (event : json) (cs : list json)
    (w w' : gmap string json) (k : string) :
  for_each (record_winner event) cs w = Ok w' ->
  is_Some (w !! k) -> is_Some (w' !! k).
Proof.
  intros Hrun Hk. revert Hrun.
  apply (for_each_invariant (λ w1, is_Some (w1 !! k))); [done|].
  intros w0 c w1 _ IH Hstep. by eapply record_winner_keeps.
Qed.

Lemma record_event_keeps (w w' : gmap string json) (event : json) (k : string) :
  record_event w event = Ok w' -> is_Some (w !! k) -> is_Some (w' !! k).
Proof.
  unfold record_event. intros Hrun Hk.
  bind_inv Hrun. bind_inv Hrun. destruct a0; [|by inversion Hrun; subst].
  bind_inv Hrun. bind_inv Hrun. by eapply record_winners_keep.
Qed.

Lemma record_events_keep (events : list json) (w w' : gmap string json)
    (k : string) :
  for_each record_event events w = Ok w' ->
  is_Some (w !! k) -> is_Some (w' !! k).
Proof.
  intros Hrun Hk. revert Hrun.
  apply (for_each_invariant (λ w1, is_Some (w1 !! k))); [done|].
  intros w0 e w1 _ IH Hstep. by eapply record_event_keeps.
Qed.

Lemma record_winners_flagged (event : json) (cs : list json)
    (w w' : gmap string json) (c : json) (k : string) (t : json) :
  for_each (record_winner event) cs w = Ok w' ->
  c ∈ cs ->
  flagged_winner c = Ok true ->
  team_id c = Ok t ->
  game_key event = Ok k ->
  is_Some (w' !! k).
Proof.
  intros Hrun Hin Hflag Hteam Hkey.
  apply list_elem_of_split in Hin as (before & after & ->).
  rewrite for_each_app in Hrun. bind_inv Hrun. simpl in Hrun.
  bind_inv Hrun. rename E0 into Hc.
  unfold record_winner in Hc. rewrite Hflag in Hc. simpl in Hc.
  rewrite Hteam in Hc. simpl in Hc. rewrite Hkey in Hc. simpl in Hc.
  inversion Hc; subst a0.
  eapply record_winners_keep; [exact Hrun|].
  rewrite lookup_insert_eq. eauto.
Qed.

(** X2. Whenever [determine_winners] returns, every game of the schedule
    that is completed and has a competitor flagged as winner is in the
    map. *)
Theorem determine_winners_has_every_winner (games : json)
    (w : gmap string json) (k : string) (t : json) :
  determine_winners games = Ok w ->
  winner_evidence games k t ->
  is_Some (w !! k).
Proof.
  intros Hrun (evs & events & event & competition & cs & competitors & c
               & Hevs & Hiter & Hin & Hkey & Hcomp & Hdone & Hcs & Hciter
               & Hc & Hflag & Hteam).
  rewrite (determine_winners_run _ _ _ Hevs Hiter) in Hrun.
  apply list_elem_of_split in Hin as (pre & post & ->).
  rewrite for_each_app in Hrun. bind_inv Hrun. simpl in Hrun.
  bind_inv Hrun. rename E0 into Hevent.
  eapply record_events_keep; [exact Hrun|].
  unfold record_event in Hevent.
  rewrite Hcomp in Hevent. simpl in Hevent.
  rewrite Hdone in Hevent. simpl in Hevent.
  rewrite Hcs in Hevent. simpl in Hevent.
  rewrite Hciter in Hevent. simpl in Hevent.
  by eapply record_winners_flagged.
Qed.

(** X3. The resolution is all or nothing: when an event raises, the
    winners found in the events before it are lost with it, and the
    events after it are not looked at. *)
Theorem determine_winners_all_or_nothing (games evs : json)
    (pre post : list json) (event : json) (w : gmap string json) (e : exn) :
  get_default games "events" (JArr []) = Ok evs ->
  py_iter evs = Ok (pre ++ event :: post) ->
  for_each record_event pre ∅ = Ok w ->
  record_event w event = Raise e ->
  determine_winners games = Raise e.
Proof.
  intros Hevs Hiter Hpre Hevent.
  rewrite (determine_winners_run _ _ _ Hevs Hiter), for_each_app, Hpre.
  simpl. by rewrite Hevent.
Qed.

End WinnersComplete.

Lemma determine_winners_has_every_winner_witness :
  is_Some (({[ "401" := JStr "12"; "403" := JStr "22" ]} : gmap string json)
             !! "403").
Proof.
  apply (determine_winners_has_every_winner (lib := model_lib)
           sample_schedule _ "403" (JStr "21")); [reflexivity|].
  exists (JArr [game_401; game_403; game_402]),
    [game_401; game_403; game_402], game_403,
    (JObj [("status", JObj [("type", JObj [("completed", JBool true)])]);
           ("competitors",
            JArr [sample_competitor "21" true; sample_competitor "22" true;
                  sample_competitor "23" false])]),
    (JArr [sample_competitor "21" true; sample_competitor "22" true;
           sample_competitor "23" false]),
    [sample_competitor "21" true; sample_competitor "22" true;
     sample_competitor "23" false],
    (sample_competitor "21" true).
  repeat split; try reflexivity; repeat constructor.
Defined.

Lemma determine_winners_all_or_nothing_witness :
  determine_winners (lib := model_lib) broken_schedule = Raise KeyError.
Proof.
  apply (determine_winners_all_or_nothing (lib := model_lib) broken_schedule
           (JArr [game_401; JObj [("id", JStr "999")]; game_403])
           [game_401] [game_403] (JObj [("id", JStr "999")])
           {[ "401" := JStr "12" ]}); reflexivity.
Defined.

(** ** Kickoff map *)

Section Kickoffs.

Context {lib : PyLib}.


Lemma kickoff_entry_lookup (m m' : gmap string Z) (event : json)
    (k : string) (t : Z) :
  kickoff_entry m event = Ok m' ->
  m' !! k = Some t ->
  m !! k = Some t
  ∨ ∃ date,
      getitem event "date" = Ok (JStr date)
      ∧ strptime_utc date = Some t
      ∧ game_key event = Ok k.
Proof.
  unfold kickoff_entry. intros Hrun Hk.
  apply try_except_Ok in Hrun as [Hrun|[-> _]]; [|by left].
  bind_inv Hrun. rename a into date.
  bind_inv Hrun. bind_inv Hrun. inversion Hrun; subst m'.
  destruct (decide (a0 = k)) as [->|Hne].
  - rewrite lookup_insert_eq in Hk. inversion Hk; subst a.
    right. destruct date; try discriminate.
    exists s. split; [done|]. split; [|done].
    by destruct (strptime_utc s); inversion E0.
  - rewrite lookup_insert_ne in Hk by done. by left.
Qed.

(** X4. Every kickoff in the map [week_view] builds comes from an event
    of the schedule with that key whose date is a string that [strptime]
    reads as that time: an event whose date does not parse adds nothing. *)
Theorem game_start_times_sound (schedule : json) (m : gmap string Z)
    (k : string) (t : Z) :
  game_start_times schedule = Ok m ->
  m !! k = Some t ->
  kickoff_evidence schedule k t.
Proof.
  unfold game_start_times. intros Hrun Hk.
  bind_inv Hrun. rename a into evs.
  bind_inv Hrun. rename a into events.
  revert Hrun t Hk.
  apply (for_each_invariant
           (λ m1, ∀ t, m1 !! k = Some t -> kickoff_evidence schedule k t)).
  - intros t Ht. by rewrite lookup_empty in Ht.
  - intros m0 event m1 Hin IH Hstep t Ht.
    destruct (kickoff_entry_lookup _ _ _ _ _ Hstep Ht)
      as [Hold|(date & Hdate & Hparse & Hkey)].
    + by apply IH.
    + exists evs, events, event, date. done.
Qed.

(** An event whose date is a string that does not parse is passed over,
    whatever else it holds or lacks. *)
Lemma kickoff_entry_unparsable (m : gmap string Z) (event : json)
    (date : string) :
  getitem event "date" = Ok (JStr date) ->
  strptime_utc date = None ->
  kickoff_entry m event = Ok m.
Proof.
  unfold kickoff_entry. intros Hdate Hparse.
  rewrite Hdate. simpl. by rewrite Hparse.
Qed.


End Kickoffs.

Lemma game_start_times_sound_witness :
  kickoff_evidence (lib := model_lib) sample_schedule "402" 1725841200000000.
Proof.
  apply (game_start_times_sound (lib := model_lib) sample_schedule
           {[ "401" := 1725814800000000; "402" := 1725841200000000 ]}).
  - vm_compute. reflexivity.
  - vm_compute. reflexivity.
Defined.

(** ** Pick submission flow, continued *)

Section Submission.

Context {lib : PyLib}.

Lemma submit_loop_counts (now : Z) (start_times : gmap string Z)
    (week_str user : string) (form : list (string * string)) (st : tally)
    (picks : list (string * json)) :
  user_picks_of (data st) week_str user = Ok (JObj picks) ->
  ∃ st',
    for_each (submit_entry now start_times week_str user) form st = Ok st'
    ∧ user_picks_of (data st') week_str user
      = Ok (JObj (merge_picks now start_times picks form))
    ∧ saved_count st'
      = (saved_count st + length (open_entries now start_times form))%nat
    ∧ blocked_count st'
      = (blocked_count st + length (locked_entries now start_times form))%nat.
Proof.
  revert st picks. induction form as [|entry form IH]; intros st picks Hpicks.
  - exists st. simpl. repeat split; [done|lia..].
  - destruct (submit_entry_ok now start_times _ _ _ entry _ Hpicks)
      as (st1 & Hstep & Hpicks1 & Hopen & Hclosed).
    destruct (IH _ _ Hpicks1) as (st' & Hrun & Hpicks' & Hsaved & Hblocked).
    exists st'. simpl. rewrite Hstep. simpl. split; [done|]. split; [done|].
    unfold open_entries, locked_entries in *. simpl.
    destruct (pick_open now (start_times !! entry.1)); simpl.
    + destruct (Hopen eq_refl) as [Hs Hb]. lia.
    + destruct (Hclosed eq_refl) as (Hs & Hb & _). lia.
Qed.

(** X5. The loop of [week_view] saves exactly the entries that are open
    and blocks exactly the ones that are not: [saved_count] is the number
    of entries whose game has no kickoff in the map or a kickoff after the
    clock, [blocked_count] the number of the others. *)
Theorem submit_counts_open_and_locked (now : Z) (start_times : gmap string Z)
    (week_str user : string) (all_data : json) (form : list (string * string))
    (picks : list (string * json)) :
  user_picks_of all_data week_str user = Ok (JObj picks) ->
  ∃ st,
    submit_picks now start_times week_str user all_data form = Ok st
    ∧ saved_count st = length (open_entries now start_times form)
    ∧ blocked_count st = length (locked_entries now start_times form).
Proof.
  intros Hpicks.
  destruct (submit_loop_counts now start_times week_str user form
              {| data := all_data; saved_count := 0; blocked_count := 0 |}
              picks Hpicks)
    as (st & Hrun & _ & Hsaved & Hblocked).
  exists st. by repeat split.
Qed.

End Submission.

Lemma submit_counts_open_and_locked_witness :
  ∃ st,
    submit_picks 1725814800000000
      {[ "401" := 1725814800000000; "402" := 1725841200000000 ]}
      "1" "alice" sample_picks sample_form = Ok st
    ∧ saved_count st = 2%nat
    ∧ blocked_count st = 1%nat.
Proof.
  destruct (submit_counts_open_and_locked 1725814800000000
              {[ "401" := 1725814800000000; "402" := 1725841200000000 ]}
              "1" "alice" sample_picks sample_form [("401", JStr "7")]
              eq_refl)
    as (st & Hrun & Hsaved & Hblocked).
  exists st. split; [exact Hrun|]. split.
  - rewrite Hsaved. vm_compute. reflexivity.
  - rewrite Hblocked. vm_compute. reflexivity.
Defined.

Section SubmissionFrame.

Context {lib : PyLib}.

Lemma setitem_JObj (c : json) (k : string) (v c' : json) :
  setitem c k v = Ok c' -> ∃ d, c = JObj d ∧ c' = JObj (dict_set d k v).
Proof. destruct c; try discriminate. intros [= <-]. eauto. Qed.

Lemma user_picks_of_set (weeks users : list (string * json))
    (week_str user week' user' : string) (v : json) :
  dict_get weeks week_str = Some (JObj users) ->
  (week', user') ≠ (week_str, user) ->
  user_picks_of
    (JObj (dict_set weeks week_str (JObj (dict_set users user v)))) week' user'
  = user_picks_of (JObj weeks) week' user'.
Proof.
  intros Hweek Hne. unfold user_picks_of. simpl.
  destruct (decide (week' = week_str)) as [->|Hw].
  - rewrite dict_get_set_eq, Hweek. simpl.
    rewrite dict_get_set_ne; [done|]. intros ->. by apply Hne.
  - rewrite dict_get_set_ne by done. done.
Qed.

Lemma store_pick_inv (all_data d : json)
    (week_str user game_id team_id : string) :
  store_pick all_data week_str user game_id team_id = Ok d ->
  ∃ weeks users picks,
    all_data = JObj weeks
    ∧ dict_get weeks week_str = Some (JObj users)
    ∧ dict_get users user = Some (JObj picks)
    ∧ d = JObj (dict_set weeks week_str
                  (JObj (dict_set users user
                           (JObj (dict_set picks game_id (JStr team_id)))))).
Proof.
  unfold store_pick, getitem, setitem. intros Hrun.
  destruct all_data as [| | | | |weeks]; try discriminate. simpl in Hrun.
  destruct (dict_get weeks week_str) as [wk|] eqn:Hweek; [|discriminate].
  simpl in Hrun. destruct wk as [| | | | |users]; try discriminate.
  destruct (dict_get users user) as [p|] eqn:Huser; [|discriminate].
  simpl in Hrun. destruct p as [| | | | |picks]; try discriminate.
  simpl in Hrun. inversion Hrun. eauto 10.
Qed.

Lemma store_pick_frame (all_data d : json)
    (week_str user game_id team_id week' user' : string) :
  store_pick all_data week_str user game_id team_id = Ok d ->
  (week', user') ≠ (week_str, user) ->
  user_picks_of d week' user' = user_picks_of all_data week' user'.
Proof.
  intros Hrun Hne.
  destruct (store_pick_inv _ _ _ _ _ _ Hrun)
    as (weeks & users & picks & -> & Hweek & Huser & ->).
  by apply user_picks_of_set.
Qed.

Lemma submit_loop_frame (now : Z) (start_times : gmap string Z)
    (week_str user : string) (form : list (string * string)) (st st' : tally)
    (week' user' : string) :
  for_each (submit_entry now start_times week_str user) form st = Ok st' ->
  (week', user') ≠ (week_str, user) ->
  user_picks_of (data st') week' user' = user_picks_of (data st) week' user'.
Proof.
  intros Hrun Hne. revert Hrun.
  apply (for_each_invariant
           (λ s, user_picks_of (data s) week' user'
                 = user_picks_of (data st) week' user')); [done|].
  intros s0 entry s1 _ IH. unfold submit_entry.
  destruct (pick_open now (start_times !! entry.1)).
  - intros Hstep. bind_inv Hstep. inversion Hstep; subst s1. simpl.
    by rewrite (store_pick_frame _ _ _ _ _ _ _ _ E Hne).
  - intros [= <-]. done.
Qed.

Lemma ensure_entries_frame (doc doc' : json) (week_str user week' user' : string) :
  ensure_entries doc week_str user = Ok doc' ->
  (week', user') ≠ (week_str, user) ->
  user_picks_of doc' week' user' = user_picks_of doc week' user'.
Proof.
  unfold ensure_entries. intros Hrun Hne.
  bind_inv Hrun. rename a into has_week. rename E into Hin.
  bind_inv Hrun. rename a into doc1. rename E into Hdoc1.
  bind_inv Hrun. rename a into wk. rename E into Hwk.
  bind_inv Hrun. rename a into has_user. rename E into Hin_user.
  destruct (getitem_JObj _ _ _ Hwk) as (weeks1 & -> & Hweek1).
  assert (user_picks_of (JObj weeks1) week' user'
          = user_picks_of doc week' user'
          ∨ (week' = week_str ∧ wk = JObj []
             ∧ user_picks_of doc week' user' = Raise KeyError)) as Hfirst.
  { destruct has_week; simpl in Hdoc1.
    - inversion Hdoc1; subst doc. by left.
    - destruct (setitem_JObj _ _ _ _ Hdoc1) as (weeks & -> & [= ->]).
      simpl in Hin. destruct (dict_get weeks week_str) eqn:Hw; [done|].
      rewrite dict_get_set_eq in Hweek1. inversion Hweek1; subst wk.
      destruct (decide (week' = week_str)) as [->|Hne'].
      + right. repeat split. unfold user_picks_of. simpl. by rewrite Hw.
      + left. unfold user_picks_of. simpl. by rewrite dict_get_set_ne. }
  destruct has_user; simpl in Hrun.
  { inversion Hrun; subst doc'. by destruct Hfirst as [?|(_ & -> & _)]. }
  bind_inv Hrun.
  destruct (setitem_JObj _ _ _ _ E) as (users & -> & ->).
  inversion Hrun; subst doc'.
  rewrite (user_picks_of_set _ _ _ _ _ _ _ Hweek1 Hne).
  destruct Hfirst as [?|(-> & [= ->] & ->)]; [done|].
  unfold user_picks_of. simpl. by rewrite Hweek1.
Qed.

(** X6. A submission changes the picks of the submitting user in the
    submitted week only: whenever lines 139-165 of [week_view] run through,
    the picks of every other (week, user) pair are in the resulting
    document what they were in the loaded one. *)
Theorem submit_leaves_other_picks (now : Z) (start_times : gmap string Z)
    (week_str user : string) (doc all_data : json)
    (form : list (string * string)) (st : tally) (week' user' : string) :
  ensure_entries doc week_str user = Ok all_data ->
  submit_picks now start_times week_str user all_data form = Ok st ->
  (week', user') ≠ (week_str, user) ->
  user_picks_of (data st) week' user' = user_picks_of doc week' user'.
Proof.
  intros Hensure Hrun Hne.
  rewrite (submit_loop_frame _ _ _ _ _ _ _ _ _ Hrun Hne). simpl.
  by apply (ensure_entries_frame _ _ _ _ _ _ Hensure).
Qed.

Lemma Forall_dict_set {A : Type} (Q : A -> Prop) (d : list (string * A))
    (k : string) (v : A) :
  Forall (λ entry, Q entry.2) d -> Q v ->
  Forall (λ entry, Q entry.2) (dict_set d k v).
Proof.
  intros Hd Hv. induction Hd as [|[k' v'] d Hx Hd IH]; simpl.
  - by constructor.
  - destruct (String.eqb k' k); constructor; done.
Qed.

Lemma pick_document_week (weeks : list (string * json)) (week_str : string)
    (wk : json) :
  pick_document (JObj weeks) ->
  dict_get weeks week_str = Some wk ->
  ∃ users, wk = JObj users ∧ Forall (λ user_entry, is_dict user_entry.2) users.
Proof.
  simpl. intros Hdoc Hweek. apply dict_get_elem in Hweek.
  rewrite Forall_forall in Hdoc. specialize (Hdoc _ Hweek). simpl in Hdoc.
  destruct wk; try done. eauto.
Qed.

Lemma pick_document_set (weeks users : list (string * json))
    (week_str user : string) (picks : list (string * json)) :
  pick_document (JObj weeks) ->
  Forall (λ user_entry, is_dict user_entry.2) users ->
  pick_document
    (JObj (dict_set weeks week_str (JObj (dict_set users user (JObj picks))))).
Proof.
  simpl. intros Hdoc Husers.
  apply (Forall_dict_set
           (λ wk, match wk with
                  | JObj users =>
                      Forall (λ user_entry, is_dict user_entry.2) users
                  | _ => False
                  end)); [done|].
  by apply (Forall_dict_set is_dict).
Qed.

Lemma store_pick_document (all_data d : json)
    (week_str user game_id team_id : string) :
  pick_document all_data ->
  store_pick all_data week_str user game_id team_id = Ok d ->
  pick_document d.
Proof.
  intros Hdoc Hrun.
  destruct (store_pick_inv _ _ _ _ _ _ Hrun)
    as (weeks & users & picks & -> & Hweek & Huser & ->).
  destruct (pick_document_week _ _ _ Hdoc Hweek) as (users' & [= <-] & Husers).
  by apply pick_document_set.
Qed.

Lemma ensure_entries_document (doc doc' : json) (week_str user : string) :
  pick_document doc ->
  ensure_entries doc week_str user = Ok doc' ->
  pick_document doc'.
Proof.
  destruct doc as [| | | | |weeks]; try done. intros Hdoc.
  unfold ensure_entries. simpl.
  destruct (dict_get weeks week_str) as [wk|] eqn:Hweek; simpl.
  - rewrite Hweek. simpl.
    destruct (pick_document_week _ _ _ Hdoc Hweek) as (users & -> & Husers).
    simpl. destruct (dict_get users user); simpl.
    + by intros [= <-].
    + intros [= <-]. by apply pick_document_set.
  - rewrite dict_get_set_eq. simpl. intros [= <-].
    apply (pick_document_set (dict_set weeks week_str (JObj [])) [] week_str
             user []); [|done].
    simpl. by apply (Forall_dict_set
                       (λ wk, match wk with
                              | JObj users =>
                                  Forall (λ user_entry, is_dict user_entry.2)
                                    users
                              | _ => False
                              end)).
Qed.

Lemma submit_loop_document (now : Z) (start_times : gmap string Z)
    (week_str user : string) (form : list (string * string)) (st st' : tally) :
  pick_document (data st) ->
  for_each (submit_entry now start_times week_str user) form st = Ok st' ->
  pick_document (data st').
Proof.
  intros Hdoc. apply (for_each_invariant (λ s, pick_document (data s))); [done|].
  intros s0 entry s1 _ IH. unfold submit_entry.
  destruct (pick_open now (start_times !! entry.1)).
  - intros Hstep. bind_inv Hstep. inversion Hstep; subst s1. simpl.
    by eapply store_pick_document.
  - by intros [= <-].
Qed.

(** The run of a [POST] of a logged-in user, step by step. *)
Lemma week_view_post_run (o : outside) (week : Z)
    (form : list (string * string)) (w : world) (user : string)
    (doc all_data : json) (start_times : gmap string Z) (st : tally) :
  session_user w = Some user ->
  load_json (files w) PICKS_FILE = Ok doc ->
  ensure_entries doc (pretty week) user = Ok all_data ->
  game_start_times (get_espn_schedule o week) = Ok start_times ->
  submit_picks (now_utc o) start_times (pretty week) user all_data form
  = Ok st ->
  week_view o POST week form w
  = (Ok (Redirect ("/week/" +:+ pretty week)),
     flash (submit_message week st) (save_json PICKS_FILE (data st) w)).
Proof.
  intros Huser Hload Hensure Htimes Hrun. unfold week_view.
  rewrite Huser, Hload. simpl. rewrite Hensure, Htimes. simpl.
  by rewrite Hrun.
Qed.

(** X7. The shape of the pick document is an invariant of the submission:
    on a store that holds a pick document (weeks, then users, then picks),
    the document a [POST] saves is a pick document again. *)
Theorem week_view_post_keeps_pick_document (o : outside) (week : Z)
    (form : list (string * string)) (w : world) (user : string) (doc : json)
    (start_times : gmap string Z) :
  session_user w = Some user ->
  load_json (files w) PICKS_FILE = Ok doc ->
  pick_document doc ->
  game_start_times (get_espn_schedule o week) = Ok start_times ->
  ∃ saved,
    (week_view o POST week form w).2
    = flash (submit_message week saved)
        (save_json PICKS_FILE (data saved) w)
    ∧ pick_document (data saved).
Proof.
  intros Huser Hload Hdoc Htimes.
  destruct (ensure_entries_ok doc (pretty week) user Hdoc)
    as (all_data & picks & Hensure & Hpicks).
  destruct (submit_loop_ok (now_utc o) start_times (pretty week) user form
              {| data := all_data; saved_count := 0; blocked_count := 0 |}
              picks Hpicks)
    as (st & Hrun & _ & _).
  exists st.
  rewrite (week_view_post_run o week form w user doc all_data start_times st)
    by done.
  split; [done|].
  eapply submit_loop_document; [|exact Hrun]. simpl.
  by eapply ensure_entries_document.
Qed.






Lemma dict_set_same {A : Type} (d : list (string * A)) (k : string) (v : A) :
  dict_get d k = Some v -> dict_set d k v = d.
Proof.
  induction d as [|[k' v'] d IH]; simpl; [done|].
  destruct (String.eqb k' k); [by intros [= ->]|].
  intros Hd. by rewrite IH.
Qed.

Lemma store_pick_same (all_data : json)
    (week_str user game_id team_id : string) (picks : list (string * json)) :
  user_picks_of all_data week_str user = Ok (JObj picks) ->
  dict_get picks game_id = Some (JStr team_id) ->
  store_pick all_data week_str user game_id team_id = Ok all_data.
Proof.
  unfold user_picks_of, store_pick. intros Hget Hpick.
  bind_inv Hget.
  destruct (getitem_JObj _ _ _ E) as (weeks & -> & Hweek).
  destruct (getitem_JObj _ _ _ Hget) as (users & -> & Huser).
  simpl. rewrite Hweek. simpl. rewrite Huser. simpl.
  by rewrite (dict_set_same picks), (dict_set_same users), (dict_set_same weeks).
Qed.

Lemma pick_open_later (now now' : Z) (kickoff : option Z) :
  now ≤ now' -> pick_open now' kickoff = true -> pick_open now kickoff = true.
Proof.
  destruct kickoff as [k|]; simpl; [|done].
  intros Hle Hlt%Z.ltb_lt. apply Z.ltb_lt. lia.
Qed.

Lemma resubmit_loop (now : Z) (start_times : gmap string Z)
    (week_str user : string) (form : list (string * string)) (st : tally)
    (picks : list (string * json)) :
  user_picks_of (data st) week_str user = Ok (JObj picks) ->
  (∀ game_id team_id,
     (game_id, team_id) ∈ form ->
     pick_open now (start_times !! game_id) = true ->
     dict_get picks game_id = Some (JStr team_id)) ->
  ∃ st',
    for_each (submit_entry now start_times week_str user) form st = Ok st'
    ∧ data st' = data st.
Proof.
  revert st. induction form as [|[g t] form IH]; intros st Hpicks Hstored.
  - exists st. done.
  - simpl. unfold submit_entry at 1. simpl.
    destruct (pick_open now (start_times !! g)) eqn:Hopen.
    + rewrite (store_pick_same _ _ _ g t picks Hpicks).
      2:{ apply Hstored; [left | done]. }
      simpl.
      destruct (IH {| data := data st;
                      saved_count := S (saved_count st);
                      blocked_count := blocked_count st |})
        as (st' & Hrun & Hdata); [done| |by exists st'].
      intros g' t' Hin. apply Hstored. by right.
    + destruct (IH {| data := data st;
                      saved_count := saved_count st;
                      blocked_count := S (blocked_count st) |})
        as (st' & Hrun & Hdata); [done| |by exists st'].
      intros g' t' Hin. apply Hstored. by right.
Qed.

Lemma ensure_entries_present (doc : json) (week_str user : string) (picks : json) :
  user_picks_of doc week_str user = Ok picks ->
  ensure_entries doc week_str user = Ok doc.
Proof.
  unfold user_picks_of, ensure_entries. intros Hget. bind_inv Hget.
  destruct (getitem_JObj _ _ _ E) as (weeks & -> & Hweek).
  destruct (getitem_JObj _ _ _ Hget) as (users & -> & Huser).
  simpl. rewrite Hweek. simpl. rewrite Hweek. simpl. by rewrite Huser.
Qed.

(** X9. Submitting the same form again changes nothing: on the document
    that a first submission left, lines 139-165 of [week_view] run at the
    same or a later time, against the same kickoffs, return the document
    as it is. (The keys of a submitted form are distinct.) *)
Theorem resubmit_changes_nothing (now now' : Z) (start_times : gmap string Z)
    (week_str user : string) (all_data : json) (form : list (string * string))
    (picks : list (string * json)) (st : tally) :
  user_picks_of all_data week_str user = Ok (JObj picks) ->
  NoDup form.*1 ->
  now ≤ now' ->
  submit_picks now start_times week_str user all_data form = Ok st ->
  ensure_entries (data st) week_str user = Ok (data st)
  ∧ ∃ st',
      submit_picks now' start_times week_str user (data st) form = Ok st'
      ∧ data st' = data st.
Proof.
  intros Hpicks Hnodup Hle Hrun.
  destruct (submit_loop_ok now start_times week_str user form
              {| data := all_data; saved_count := 0; blocked_count := 0 |}
              picks Hpicks)
    as (st1 & Hrun1 & Hfinal & _).
  unfold submit_picks in Hrun. rewrite Hrun in Hrun1.
  inversion Hrun1; subst st1. split.
  - by eapply ensure_entries_present.
  - apply (resubmit_loop now' start_times week_str user form
             {| data := data st; saved_count := 0; blocked_count := 0 |}
             (merge_picks now start_times picks form)); [done|].
    intros g t Hin Hopen. apply merge_picks_open; [done..|].
    by apply (pick_open_later now now').
Qed.

End SubmissionFrame.

Lemma submit_leaves_other_picks_witness :
  ∃ st,
    submit_picks 1725814800000000
      {[ "401" := 1725814800000000; "402" := 1725841200000000 ]}
      "1" "alice" two_players sample_form = Ok st
    ∧ user_picks_of (data st) "1" "bob" = Ok (JObj [("402", JStr "9")])
    ∧ user_picks_of (data st) "2" "alice" = Ok (JObj [("411", JStr "5")]).
Proof.
  eexists. split; [vm_compute; reflexivity|]. split.
  - etransitivity;
      [apply (submit_leaves_other_picks 1725814800000000
                {[ "401" := 1725814800000000; "402" := 1725841200000000 ]}
                "1" "alice" two_players two_players sample_form _ "1" "bob");
       [reflexivity | vm_compute; reflexivity | discriminate]
      | reflexivity].
  - etransitivity;
      [apply (submit_leaves_other_picks 1725814800000000
                {[ "401" := 1725814800000000; "402" := 1725841200000000 ]}
                "1" "alice" two_players two_players sample_form _ "2" "alice");
       [reflexivity | vm_compute; reflexivity | discriminate]
      | reflexivity].
Defined.

Lemma week_view_post_keeps_pick_document_witness :
  ∃ saved,
    (week_view (lib := model_lib) sample_outside POST 1 sample_form
       alice_world).2
    = flash (submit_message 1 saved)
        (save_json (lib := model_lib) PICKS_FILE (data saved) alice_world)
    ∧ pick_document (data saved).
Proof.
  apply (week_view_post_keeps_pick_document (lib := model_lib) sample_outside
           1 sample_form alice_world "alice" (JObj [])
           {[ "401" := 1725814800000000; "402" := 1725841200000000 ]});
    [reflexivity | reflexivity | constructor | vm_compute; reflexivity].
Defined.



Lemma resubmit_changes_nothing_witness :
  ∃ st st',
    submit_picks 1725814800000000
      {[ "401" := 1725814800000000; "402" := 1725841200000000 ]}
      "1" "alice" sample_picks sample_form = Ok st
    ∧ submit_picks 1725820000000000
        {[ "401" := 1725814800000000; "402" := 1725841200000000 ]}
        "1" "alice" (data st) sample_form = Ok st'
    ∧ data st' = data st.
Proof.
  eexists.
  assert (∀ (A : Type) (P Q : A -> Prop) (R : Prop),
            R -> (R -> ∃ y, P y ∧ Q y) -> ∃ y, R ∧ P y ∧ Q y) as Hsplit.
  { intros A P Q R HR HPQ. destruct (HPQ HR) as (y & HP & HQ). eauto. }
  apply Hsplit; [vm_compute; reflexivity|].
  intros Hrun.
  apply (proj2 (resubmit_changes_nothing 1725814800000000 1725820000000000
                  {[ "401" := 1725814800000000; "402" := 1725841200000000 ]}
                  "1" "alice" sample_picks sample_form [("401", JStr "7")] _
                  eq_refl
                  ltac:(apply (bool_decide_unpack _); vm_compute; exact I)
                  ltac:(lia) Hrun)).
Defined.

(** ** Accounts and sessions, further *)

Section Accounts.

Context {lib : PyLib}.

(** X10. Whatever the form and the store, [login] either leaves the files
    alone or saves the account store once, with one name added that was not
    in it: every account that was there is in the saved document, with the
    hash it had. *)
Theorem login_keeps_accounts (o : outside) (form : list (string * string))
    (w : world) :
  (files (login o form w).2 = files w ∧ saves (login o form w).2 = saves w)
  ∨ ∃ users username pwhash,
      load_json (files w) USERS_FILE = Ok (JObj users)
      ∧ dict_get users username = None
      ∧ files (login o form w).2
        = <[USERS_FILE :=
              json_dumps (JObj (dict_set users username (JStr pwhash)))]>
            (files w)
      ∧ saves (login o form w).2
        = saves w
          ++ [(USERS_FILE,
               json_dumps (JObj (dict_set users username (JStr pwhash))))]
      ∧ ∀ name h,
          dict_get users name = Some h ->
          dict_get (dict_set users username (JStr pwhash)) name = Some h.
Proof.
  unfold login.
  destruct (_ || _); [by left|].
  destruct (load_json (files w) USERS_FILE) as [users|ex] eqn:Hload;
    [|by left].
  destruct (py_in _ users) as [[|]|ex] eqn:Hin; [| |by left].
  - left. by destruct (bind _ _) as [[|]|].
  - destruct users as [| | | | |users]; try by left.
    right. simpl in *.
    set (username := strip (default "" (dict_get form "username"))) in *.
    destruct (dict_get users username) eqn:Hnew; [done|].
    eexists users, username, _.
    split; [done|]. split; [done|]. split; [done|]. split; [done|].
    intros name h Hname.
    destruct (decide (name = username)) as [->|Hne]; [congruence|].
    by rewrite dict_get_set_ne.
Qed.

(** X11. Each handler keeps to its own file: [login] never changes the
    pick store, [week_view] never changes the account store or the session,
    and [logout] changes no file and makes no save. *)
Theorem handlers_keep_to_their_file (o : outside) (method : http_method)
    (week : Z) (form : list (string * string)) (w : world) :
  files (login o form w).2 !! PICKS_FILE = files w !! PICKS_FILE
  ∧ files (week_view o method week form w).2 !! USERS_FILE
    = files w !! USERS_FILE
  ∧ session_user (week_view o method week form w).2 = session_user w
  ∧ files (logout w).2 = files w
  ∧ saves (logout w).2 = saves w.
Proof.
  split; [|split; [|split]]; [| | |done].
  - unfold login.
    destruct (_ || _); [done|].
    destruct (load_json _ _) as [users|]; [|done].
    destruct (py_in _ users) as [[|]|]; [| |done].
    + by destruct (bind _ _) as [[|]|].
    + destruct (setitem _ _ _); [|done]. simpl.
      by rewrite lookup_insert_ne.
  - unfold week_view.
    destruct (session_user w); [|done].
    destruct (bind _ _); [|done].
    destruct method.
    + by destruct (bind _ _).
    + destruct (bind _ _); [|done]. simpl. by rewrite lookup_insert_ne.
  - unfold week_view.
    destruct (session_user w) eqn:Huser; [|done].
    destruct (bind _ _); [|done].
    destruct method.
    + by destruct (bind _ _).
    + by destruct (bind _ _).
Qed.

(** X12. An account can be used after it was created: when the document
    that the first login saves reads back from the store, a later login
    with the same name sets the session exactly when the verifier accepts
    the password against the hash that was stored, and it saves nothing. *)
Theorem login_after_registration (o o' : outside) (w : world)
    (username password again : string) (users : list (string * json))
    (accepted : bool) :
  strip username = username ->
  username ≠ "" ->
  password ≠ "" ->
  again ≠ "" ->
  load_json (files w) USERS_FILE = Ok (JObj users) ->
  dict_get users username = None ->
  (∃ text,
     decode_text
       (json_dumps
          (JObj (dict_set users username
                   (JStr (generate_password_hash (fresh_salt o) password)))))
     = Some text
     ∧ json_loads text
       = Some (JObj (dict_set users username
                       (JStr (generate_password_hash (fresh_salt o) password))))) ->
  check_password_hash
    (JStr (generate_password_hash (fresh_salt o) password)) again
  = Ok accepted ->
  ∃ w1 w2,
    login o [("username", username); ("password", password)] w
    = (Ok (Redirect "/"), w1)
    ∧ login o' [("username", username); ("password", again)] (logout w1).2
      = (Ok (Redirect "/"), w2)
    ∧ session_user w2 = (if accepted then Some username else None)
    ∧ files w2 = files w1
    ∧ saves w2 = saves w1.
Proof.
  intros Hstrip Hname Hpw Hagain Hload Hnew (text & Hdecode & Hparse) Hcheck.
  set (pwhash := generate_password_hash (fresh_salt o) password) in *.
  set (users' := dict_set users username (JStr pwhash)) in *.
  set (w1 := flash ("Welcome to the league, " +:+ username
                    +:+ "! Your account is created.")
              (set_session username (save_json USERS_FILE (JObj users') w))).
  exists w1,
    (if accepted then set_session username (logout w1).2
     else flash "Incorrect password. Please try again." (logout w1).2).
  split.
  { by apply (login_new_user o _ w username password users). }
  rewrite (login_known_user o' _ _ username again users' (JStr pwhash));
    try done.
  - rewrite Hcheck. by destruct accepted.
  - simpl. unfold load_json, json_load.
    by rewrite lookup_insert_eq, Hdecode, Hparse.
  - apply dict_get_set_eq.
Qed.

(** X13. The check-user endpoint announces what [login] will do. For a
    request body [{"username": u}] whose name is not empty after trimming,
    and an account store that is a JSON object, it answers 200 with
    [exists] true exactly when the name is in the store; and a login under
    that name with a password saves a new account exactly when the answer
    was false. *)
Theorem check_user_announces_login (o : outside) (data : list (string * json))
    (form : list (string * string)) (w : world) (u password : string)
    (users : list (string * json)) :
  dict_get data "username" = Some (JStr u) ->
  dict_get form "username" = Some u ->
  strip u ≠ "" ->
  dict_get form "password" = Some password ->
  password ≠ "" ->
  load_json (files w) USERS_FILE = Ok (JObj users) ->
  ∃ found,
    check_user (JObj data) w = Ok (Jsonify 200 (JObj [("exists", JBool found)]))
    ∧ (found = true <-> is_Some (dict_get users (strip u)))
    ∧ (found = false <-> saves (login o form w).2 ≠ saves w).
Proof.
  intros Hdata Hform Hname Hpw Hpw_nonempty Hload.
  unfold check_user, requested_name. simpl. rewrite Hdata. simpl.
  rewrite (eqb_empty_false _ Hname), Hload. simpl.
  destruct (dict_get users (strip u)) as [pwhash|] eqn:Hknown.
  - exists true. split; [done|]. split; [by split; eauto|].
    rewrite (login_known_user o form w (strip u) password users pwhash);
      try done; [|by rewrite Hform].
    split; [done|]. intros Hsaved. exfalso. apply Hsaved.
    by destruct (check_password_hash _ _) as [[|]|].
  - exists false. split; [done|]. split.
    { split; [done|]. by intros [? ?]. }
    rewrite (login_new_user o form w (strip u) password users);
      try done; [|by rewrite Hform].
    split; [|done]. intros _. simpl.
    intros Heq. apply (f_equal length) in Heq.
    rewrite length_app in Heq. simpl in Heq. lia.
Qed.

(** X14. The check-user endpoint refuses a request without a name: a body
    that is a JSON object whose [username] is absent, or a string that is
    empty after trimming, is answered 400 without the store being read. *)
Theorem check_user_requires_name (data : list (string * json)) (w : world) :
  (dict_get data "username" = None
   ∨ ∃ u, dict_get data "username" = Some (JStr u) ∧ strip u = "") ->
  check_user (JObj data) w
  = Ok (Jsonify 400 (JObj [("error", JStr "Username required")])).
Proof.
  unfold check_user, requested_name. simpl.
  intros [->|(u & -> & Hblank)]; simpl; [done|]. by rewrite Hblank.
Qed.

End Accounts.

Lemma login_after_registration_witness :
  ∃ w1 w2,
    login (lib := model_lib) sample_outside
      [("username", "bob"); ("password", "hunter2")] empty_world
    = (Ok (Redirect "/"), w1)
    ∧ login (lib := model_lib) sample_outside
        [("username", "bob"); ("password", "hunter2")] (logout w1).2
      = (Ok (Redirect "/"), w2)
    ∧ session_user w2 = Some "bob"
    ∧ files w2 = files w1
    ∧ saves w2 = saves w1.
Proof.
  apply (login_after_registration (lib := model_lib)
           sample_outside sample_outside empty_world "bob" "hunter2" "hunter2"
           [] true);
    [reflexivity | discriminate | discriminate | discriminate
    | reflexivity | reflexivity | | reflexivity].
  exists "<users>". split; reflexivity.
Defined.

Lemma check_user_announces_login_witness :
  ∃ found,
    check_user (lib := model_lib) (JObj [("username", JStr " bob ")])
      bob_registered
    = Ok (Jsonify 200 (JObj [("exists", JBool found)]))
    ∧ (found = true <-> is_Some (dict_get [("bob", JStr "pepper$hunter2")]
                                   (strip " bob ")))
    ∧ (found = false
       <-> saves (login (lib := model_lib) sample_outside
                    [("username", " bob "); ("password", "hunter2")]
                    bob_registered).2
           ≠ saves bob_registered).
Proof.
  apply (check_user_announces_login (lib := model_lib) sample_outside
           [("username", JStr " bob ")]
           [("username", " bob "); ("password", "hunter2")]
           bob_registered " bob " "hunter2" [("bob", JStr "pepper$hunter2")]);
    [reflexivity | reflexivity | discriminate | reflexivity | discriminate
    | reflexivity].
Defined.

Lemma check_user_requires_name_witness :
  check_user (lib := model_lib) (JObj [("username", JStr "  ")]) bob_registered
  = Ok (Jsonify 400 (JObj [("error", JStr "Username required")])).
Proof.
  apply (check_user_requires_name (lib := model_lib)
           [("username", JStr "  ")] bob_registered).
  right. exists "  ". split; reflexivity.
Defined.

(** ** Leaderboard, further: the whole loop *)

Lemma dict_get_alter_eq {A : Type} (f : A -> A) (d : list (string * A))
    (k : string) :
  dict_get (dict_alter f d k) k = f <$> dict_get d k.
Proof.
  induction d as [|[k' v] d IH]; simpl; [done|].
  destruct (String.eqb k' k) eqn:E; simpl; rewrite E; [done | exact IH].
Qed.

Lemma dict_get_alter_ne {A : Type} (f : A -> A) (d : list (string * A))
    (k k' : string) :
  k ≠ k' -> dict_get (dict_alter f d k) k' = dict_get d k'.
Proof.
  intros Hne. induction d as [|[k0 v] d IH]; simpl; [done|].
  destruct (String.eqb k0 k) eqn:E; simpl; [|by rewrite IH].
  apply String.eqb_eq in E. subst k0.
  destruct (String.eqb k k') eqn:E'; [|done].
  apply String.eqb_eq in E'. contradiction.
Qed.

Lemma eqb_decide (a b : string) : String.eqb a b = bool_decide (a = b).
Proof.
  destruct (String.eqb a b) eqn:E.
  - apply String.eqb_eq in E. by rewrite bool_decide_eq_true_2.
  - apply String.eqb_neq in E. by rewrite bool_decide_eq_false_2.
Qed.

(** What the picks of one player do to each part of the state. *)
Lemma score_picks_run (selected_player : string) (winners : gmap string json)
    (lookup : gmap string (json * json)) (player : string)
    (picks : list (string * string)) (week_score : Z) (b : board) :
  let scored :=
    fold_left (score_pick selected_player winners lookup player) picks
      (week_score, b) in
  scored.1
  = week_score
    + Z.of_nat (length (List.filter (λ p, is_win winners p.1 p.2) picks))
  ∧ season_totals scored.2 = season_totals b
  ∧ weekly_results scored.2 = weekly_results b
  ∧ counters scored.2
    = fold_left (count_pick selected_player winners player) picks (counters b)
  ∧ team_stats scored.2
    = if String.eqb player selected_player
      then fold_left (pick_team winners lookup) picks (team_stats b)
      else team_stats b.
Proof.
  revert week_score b.
  induction picks as [|pick picks IH]; intros week_score b.
  - simpl. destruct (String.eqb player selected_player); repeat split; lia.
  - cbn [fold_left List.filter].
    destruct (IH (score_pick selected_player winners lookup player
                    (week_score, b) pick).1
                 (score_pick selected_player winners lookup player
                    (week_score, b) pick).2)
      as (Hscore & Hrows & Hresults & Hcounters & Hstats).
    rewrite <- surjective_pairing in Hscore, Hrows, Hresults, Hcounters, Hstats.
    cbv zeta. rewrite Hscore, Hrows, Hresults, Hcounters, Hstats.
    unfold score_pick. simpl.
    destruct (String.eqb player selected_player) eqn:Hsel;
      destruct (is_win winners pick.1 pick.2) eqn:Hwin; simpl;
      repeat split; try lia.
    + unfold count_pick. by rewrite Hsel.
    + unfold count_pick. by rewrite Hsel.
Qed.

Lemma score_player_rows (current_week : Z) (selected_player : string)
    (winners : gmap string json) (lookup : gmap string (json * json))
    (week_str : string) (b : board) (player : string)
    (picks : list (string * string)) (p : string) :
  dict_get
    (season_totals
       (score_player current_week selected_player winners lookup week_str b
          (player, picks))) p
  = if String.eqb player p
    then more_weeks (dict_get (season_totals b) p)
           (Z.of_nat (length (List.filter (λ q, is_win winners q.1 q.2) picks)))
           1
    else dict_get (season_totals b) p.
Proof.
  unfold score_player. cbn [fst snd].
  match goal with
  | |- context [fold_left ?f picks (0, ?b0)] =>
      destruct (score_picks_run selected_player winners lookup player picks 0 b0)
        as (Hscore & Hrows & _)
  end.
  cbv zeta in Hscore, Hrows. cbn [season_totals]. rewrite Hrows, Hscore.
  destruct (String.eqb player p) eqn:Hp.
  - apply String.eqb_eq in Hp. subst p.
    rewrite !dict_get_alter_eq. unfold has_key.
    destruct (dict_get (season_totals b) player) as [s|] eqn:Hrow; simpl.
    + rewrite Hrow. simpl. do 2 f_equal; lia.
    + rewrite dict_get_set_eq. simpl. do 2 f_equal; lia.
  - apply String.eqb_neq in Hp.
    rewrite !dict_get_alter_ne by done. unfold has_key.
    destruct (dict_get (season_totals b) player); simpl; [done|].
    by rewrite dict_get_set_ne.
Qed.

Lemma more_weeks_add (row : option season) (won won' played played' : Z) :
  0 ≤ played -> 0 ≤ played' ->
  (played = 0 -> won = 0) ->
  more_weeks (more_weeks row won played) won' played'
  = more_weeks row (won + won') (played + played').
Proof.
  intros Hp Hp' Hnone. unfold more_weeks.
  destruct row as [s|]; simpl; [do 2 f_equal; lia|].
  destruct (played =? 0) eqn:E.
  - apply Z.eqb_eq in E. rewrite (Hnone E). subst played. done.
  - apply Z.eqb_neq in E.
    assert ((played + played' =? 0) = false) as -> by (apply Z.eqb_neq; lia).
    simpl. done.
Qed.

Lemma week_rows (current_week : Z) (selected_player : string)
    (winners_of : string -> gmap string json)
    (lookup : gmap string (json * json)) (week_str : string)
    (players : list (string * list (string * string))) (b : board)
    (p : string) :
  dict_get
    (season_totals
       (fold_left
          (score_player current_week selected_player (winners_of week_str)
             lookup week_str)
          players b)) p
  = more_weeks (dict_get (season_totals b) p)
      (Z.of_nat
         (length (List.filter (pick_won winners_of)
                    (week_picks_of_player p (week_str, players)))))
      (Z.of_nat
         (length (List.filter
                    (λ player_entry : string * list (string * string),
                       String.eqb player_entry.1 p) players))).
Proof.
  revert b. induction players as [|[player picks] players IH]; intros b.
  - simpl. by destruct (dict_get (season_totals b) p) as [[]|]; simpl;
      rewrite ?Z.add_0_r.
  - cbn [fold_left]. rewrite IH, score_player_rows.
    unfold week_picks_of_player in *. cbn [flat_map List.filter fst snd].
    destruct (String.eqb player p) eqn:Hp.
    + rewrite List.filter_app, length_app, filter_week_picks.
      cbn [length]. rewrite more_weeks_add by lia. f_equal; lia.
    + simpl. done.
Qed.

Lemma week_picks_none (p week_str : string)
    (players : list (string * list (string * string))) :
  List.filter (λ player_entry : string * list (string * string),
                 String.eqb player_entry.1 p) players = [] ->
  week_picks_of_player p (week_str, players) = [].
Proof.
  unfold week_picks_of_player. cbn [snd fst].
  induction players as [|[player picks] players IH]; [done|].
  cbn [List.filter flat_map fst snd].
  destruct (String.eqb player p); [done|]. intros Hnone. by rewrite IH.
Qed.

Lemma loop_rows (current_week : Z) (selected_player : string)
    (winners_of : string -> gmap string json)
    (lookup_of : string -> gmap string (json * json))
    (all_data : list (string * list (string * list (string * string))))
    (b : board) (p : string) :
  dict_get
    (season_totals
       (fold_left
          (λ b week_entry,
             fold_left
               (score_player current_week selected_player
                  (winners_of week_entry.1) (lookup_of week_entry.1)
                  week_entry.1)
               week_entry.2 b)
          all_data b)) p
  = more_weeks (dict_get (season_totals b) p)
      (picks_won p winners_of all_data) (weeks_of p all_data).
Proof.
  revert b. induction all_data as [|[week_str players] all_data IH]; intros b.
  - unfold picks_won, weeks_of. simpl.
    by destruct (dict_get (season_totals b) p) as [[]|]; simpl;
      rewrite ?Z.add_0_r.
  - cbn [fold_left fst snd]. rewrite IH, week_rows.
    unfold picks_won, weeks_of, picks_of_player in *.
    cbn [flat_map snd]. rewrite !List.filter_app, !length_app.
    rewrite more_weeks_add; [f_equal; lia|lia|lia|].
    intros Hnone.
    rewrite week_picks_none; [done|].
    apply length_zero_iff_nil. lia.
Qed.

(** X15. The leaderboard row of a player: after the loop, a player has a
    row exactly when some week of the pick document has an entry for the
    player; its [weeks_played] is the number of these entries and its
    [correct] is the number of the player's picks, over all weeks, that
    name the resolved winner of their game. *)
Theorem season_totals_rows (current_week : Z) (selected_player : string)
    (winners_of : string -> gmap string json)
    (lookup_of : string -> gmap string (json * json))
    (all_data : list (string * list (string * list (string * string))))
    (p : string) :
  dict_get
    (season_totals
       (scoreboard_loop current_week selected_player winners_of lookup_of
          all_data)) p
  = if weeks_of p all_data =? 0 then None
    else Some {| correct := picks_won p winners_of all_data;
                 weeks_played := weeks_of p all_data |}.
Proof. unfold scoreboard_loop. by rewrite loop_rows. Qed.

Lemma week_counters (current_week : Z) (selected_player : string)
    (winners : gmap string json) (lookup : gmap string (json * json))
    (week_str : string) (players : list (string * list (string * string)))
    (b : board) :
  counters
    (fold_left
       (score_player current_week selected_player winners lookup week_str)
       players b)
  = fold_left
      (λ t player_entry,
         fold_left (count_pick selected_player winners player_entry.1)
           player_entry.2 t)
      players (counters b).
Proof.
  revert b. induction players as [|[player picks] players IH]; intros b;
    [done|].
  cbn [fold_left]. rewrite IH. f_equal.
  unfold score_player. cbn [fst snd counters].
  match goal with
  | |- context [fold_left ?f picks (0, ?b0)] =>
      destruct (score_picks_run selected_player winners lookup player picks 0 b0)
        as (_ & _ & _ & Hcounters & _)
  end.
  cbv zeta in Hcounters. rewrite Hcounters.
  by destruct (negb _).
Qed.

Lemma loop_counters (current_week : Z) (selected_player : string)
    (winners_of : string -> gmap string json)
    (lookup_of : string -> gmap string (json * json))
    (all_data : list (string * list (string * list (string * string)))) :
  counters
    (scoreboard_loop current_week selected_player winners_of lookup_of all_data)
  = scoreboard_totals selected_player winners_of all_data.
Proof.
  unfold scoreboard_loop, scoreboard_totals.
  change {| total_picks := 0; total_wins := 0 |}
    with (counters (empty_board current_week)).
  generalize (empty_board current_week).
  induction all_data as [|[week_str players] all_data IH]; intros b; [done|].
  cbn [fold_left fst snd]. by rewrite IH, week_counters.
Qed.

(** X16. The two counters that the loop keeps for the selected player
    are the number of picks the player made, over all weeks, and the number
    of those picks that name the resolved winner of their game; they are
    the counters of [scoreboard_totals], the part of the loop from which
    the win rate is computed. *)
Theorem scoreboard_loop_counts (current_week : Z) (selected_player : string)
    (winners_of : string -> gmap string json)
    (lookup_of : string -> gmap string (json * json))
    (all_data : list (string * list (string * list (string * string)))) :
  counters
    (scoreboard_loop current_week selected_player winners_of lookup_of all_data)
  = scoreboard_totals selected_player winners_of all_data
  ∧ total_picks
      (counters
         (scoreboard_loop current_week selected_player winners_of lookup_of
            all_data))
    = picks_made selected_player all_data
  ∧ total_wins
      (counters
         (scoreboard_loop current_week selected_player winners_of lookup_of
            all_data))
    = picks_won selected_player winners_of all_data
  ∧ 0 ≤ total_wins
          (counters
             (scoreboard_loop current_week selected_player winners_of
                lookup_of all_data))
      ≤ picks_made selected_player all_data.
Proof.
  rewrite loop_counters.
  destruct (scoreboard_totals_counts selected_player winners_of all_data)
    as [-> ->].
  split; [done|]. split; [done|]. split; [done|].
  unfold picks_won, picks_made.
  pose proof (List.filter_length_le (pick_won winners_of)
                (picks_of_player selected_player all_data)). lia.
Qed.

(** X17. The figures of the selected player agree with the leaderboard:
    when the player has a row, its [correct] is the number of wins from
    which the win rate is computed, and the player has at least one week. *)
Theorem selected_row_agrees (current_week : Z) (selected_player : string)
    (winners_of : string -> gmap string json)
    (lookup_of : string -> gmap string (json * json))
    (all_data : list (string * list (string * list (string * string))))
    (row : season) :
  dict_get
    (season_totals
       (scoreboard_loop current_week selected_player winners_of lookup_of
          all_data)) selected_player
  = Some row ->
  correct row
  = total_wins
      (counters
         (scoreboard_loop current_week selected_player winners_of lookup_of
            all_data))
  ∧ correct row
    ≤ total_picks
        (counters
           (scoreboard_loop current_week selected_player winners_of lookup_of
              all_data))
  ∧ 1 ≤ weeks_played row.
Proof.
  intros Hrow.
  pose proof (loop_rows current_week selected_player winners_of lookup_of
                all_data (empty_board current_week) selected_player) as Hrows.
  fold (scoreboard_loop current_week selected_player winners_of lookup_of
          all_data) in Hrows.
  rewrite Hrow in Hrows. unfold more_weeks in Hrows. simpl in Hrows.
  destruct (weeks_of selected_player all_data =? 0) eqn:Hweeks; [done|].
  apply Z.eqb_neq in Hweeks. injection Hrows as ->. simpl.
  rewrite loop_counters.
  destruct (scoreboard_totals_counts selected_player winners_of all_data)
    as [-> ->].
  split; [done|]. unfold picks_won, picks_made, weeks_of in *.
  pose proof (List.filter_length_le (pick_won winners_of)
                (picks_of_player selected_player all_data)). lia.
Qed.

Lemma selected_row_agrees_witness :
  correct {| correct := 2; weeks_played := 2 |}
  = total_wins
      (counters
         (scoreboard_loop 2 "alice" sample_winners sample_lookup sample_season))
  ∧ correct {| correct := 2; weeks_played := 2 |}
    ≤ total_picks
        (counters
           (scoreboard_loop 2 "alice" sample_winners sample_lookup
              sample_season))
  ∧ 1 ≤ weeks_played {| correct := 2; weeks_played := 2 |}.
Proof.
  apply (selected_row_agrees 2 "alice" sample_winners sample_lookup
           sample_season {| correct := 2; weeks_played := 2 |}).
  vm_compute. reflexivity.
Defined.

Lemma more_picks_app (winners_of : string -> gmap string json)
    (lookup_of : string -> gmap string (json * json)) (team : string)
    (row : option team_stat) (made made' : list (string * (string * string))) :
  more_picks winners_of lookup_of team
    (more_picks winners_of lookup_of team row made) made'
  = more_picks winners_of lookup_of team row (made ++ made').
Proof.
  destruct made as [|first made]; [done|].
  destruct made' as [|first' made'].
  { by rewrite app_nil_r. }
  change ((first :: made) ++ first' :: made')
    with (first :: (made ++ first' :: made')).
  unfold more_picks.
  cbn [default from_option id name logo times_picked wins].
  change (first :: (made ++ first' :: made'))
    with ((first :: made) ++ first' :: made').
  rewrite List.filter_app, !length_app. f_equal. f_equal; lia.
Qed.

Lemma pick_team_row (winners_of : string -> gmap string json)
    (lookup_of : string -> gmap string (json * json)) (week_str : string)
    (stats : list (string * team_stat)) (pick : string * string)
    (team : string) :
  dict_get
    (pick_team (winners_of week_str) (lookup_of week_str) stats pick) team
  = more_picks winners_of lookup_of team (dict_get stats team)
      (List.filter (λ p : string * (string * string), String.eqb p.2.2 team)
         [(week_str, pick)]).
Proof.
  unfold pick_team, has_key. cbn [List.filter fst snd].
  destruct (String.eqb pick.2 team) eqn:Hteam.
  - apply String.eqb_eq in Hteam. subst team.
    unfold more_picks, pick_won. cbn [List.filter length fst snd].
    destruct (dict_get stats pick.2) as [s|] eqn:Hrow; simpl;
      destruct (is_win (winners_of week_str) pick.1 pick.2); simpl;
      rewrite ?dict_get_alter_eq, ?dict_get_set_eq, ?Hrow; simpl;
      do 2 f_equal; lia.
  - apply String.eqb_neq in Hteam. simpl.
    destruct (dict_get stats pick.2) as [s|] eqn:Hrow; simpl;
      destruct (is_win (winners_of week_str) pick.1 pick.2); simpl;
      rewrite ?dict_get_alter_ne, ?dict_get_set_ne by done; done.
Qed.

Lemma pick_teams_row (winners_of : string -> gmap string json)
    (lookup_of : string -> gmap string (json * json)) (week_str : string)
    (picks : list (string * string)) (stats : list (string * team_stat))
    (team : string) :
  dict_get
    (fold_left (pick_team (winners_of week_str) (lookup_of week_str)) picks
       stats) team
  = more_picks winners_of lookup_of team (dict_get stats team)
      (List.filter (λ p : string * (string * string), String.eqb p.2.2 team)
         (List.map (λ pick, (week_str, pick)) picks)).
Proof.
  revert stats. induction picks as [|pick picks IH]; intros stats; [done|].
  cbn [fold_left List.map]. rewrite IH, pick_team_row, more_picks_app.
  by rewrite <- List.filter_app.
Qed.

Lemma score_player_stats (current_week : Z) (selected_player : string)
    (winners : gmap string json) (lookup : gmap string (json * json))
    (week_str : string) (b : board) (player : string)
    (picks : list (string * string)) :
  team_stats
    (score_player current_week selected_player winners lookup week_str b
       (player, picks))
  = if String.eqb player selected_player
    then fold_left (pick_team winners lookup) picks (team_stats b)
    else team_stats b.
Proof.
  unfold score_player. cbn [fst snd team_stats].
  match goal with
  | |- context [fold_left ?f picks (0, ?b0)] =>
      destruct (score_picks_run selected_player winners lookup player picks 0 b0)
        as (_ & _ & _ & _ & Hstats)
  end.
  cbv zeta in Hstats. rewrite Hstats. by destruct (negb _).
Qed.

Lemma week_stats (current_week : Z) (selected_player : string)
    (winners_of : string -> gmap string json)
    (lookup_of : string -> gmap string (json * json)) (week_str : string)
    (players : list (string * list (string * string))) (b : board)
    (team : string) :
  dict_get
    (team_stats
       (fold_left
          (score_player current_week selected_player (winners_of week_str)
             (lookup_of week_str) week_str)
          players b)) team
  = more_picks winners_of lookup_of team (dict_get (team_stats b) team)
      (List.filter (λ p : string * (string * string), String.eqb p.2.2 team)
         (week_picks_of_player selected_player (week_str, players))).
Proof.
  revert b. induction players as [|[player picks] players IH]; intros b;
    [done|].
  cbn [fold_left]. rewrite IH, score_player_stats.
  unfold week_picks_of_player. cbn [flat_map fst snd].
  rewrite List.filter_app, <- more_picks_app. f_equal.
  destruct (String.eqb player selected_player); [|done].
  apply pick_teams_row.
Qed.

Lemma loop_stats (current_week : Z) (selected_player : string)
    (winners_of : string -> gmap string json)
    (lookup_of : string -> gmap string (json * json))
    (all_data : list (string * list (string * list (string * string))))
    (b : board) (team : string) :
  dict_get
    (team_stats
       (fold_left
          (λ b week_entry,
             fold_left
               (score_player current_week selected_player
                  (winners_of week_entry.1) (lookup_of week_entry.1)
                  week_entry.1)
               week_entry.2 b)
          all_data b)) team
  = more_picks winners_of lookup_of team (dict_get (team_stats b) team)
      (picks_on team selected_player all_data).
Proof.
  revert b. induction all_data as [|[week_str players] all_data IH]; intros b;
    [done|].
  cbn [fold_left fst snd]. rewrite IH, week_stats.
  unfold picks_on, picks_of_player. cbn [flat_map].
  by rewrite List.filter_app, more_picks_app.
Qed.

(** X18. The row of a team in [team_stats]: a team has a row exactly when
    the selected player picked it; [times_picked] is the number of these
    picks and [wins] the number of them that won; name and logo are those
    that the lookup of the week of the first such pick has for the team,
    and ['Unknown'] and the empty logo when it has none. Later weeks do not
    change them. *)
Theorem team_stats_rows (current_week : Z) (selected_player : string)
    (winners_of : string -> gmap string json)
    (lookup_of : string -> gmap string (json * json))
    (all_data : list (string * list (string * list (string * string))))
    (team : string) :
  dict_get
    (team_stats
       (scoreboard_loop current_week selected_player winners_of lookup_of
          all_data)) team
  = match picks_on team selected_player all_data with
    | [] => None
    | first :: _ =>
        let info :=
          default (JStr "Unknown", JStr "") (lookup_of first.1 !! team) in
        Some {| name := info.1;
                logo := info.2;
                times_picked :=
                  Z.of_nat (length (picks_on team selected_player all_data));
                wins :=
                  Z.of_nat
                    (length (List.filter (pick_won winners_of)
                               (picks_on team selected_player all_data))) |}
    end.
Proof.
  unfold scoreboard_loop. rewrite loop_stats. unfold more_picks.
  by destruct (picks_on team selected_player all_data).
Qed.

(** ** Weekly results *)

Lemma score_player_results (current_week : Z) (selected_player : string)
    (winners : gmap string json) (lookup : gmap string (json * json))
    (week_str : string) (b : board) (player : string)
    (picks : list (string * string)) (w : string) :
  dict_get
    (weekly_results
       (score_player current_week selected_player winners lookup week_str b
          (player, picks))) w
  = if (String.eqb week_str (pretty current_week)
        || String.eqb week_str (pretty (last_week current_week)))
       && String.eqb week_str w
    then week_scores winners [(player, picks)] <$> dict_get (weekly_results b) w
    else dict_get (weekly_results b) w.
Proof.
  unfold score_player. cbn [fst snd weekly_results].
  match goal with
  | |- context [fold_left ?f picks (0, ?b0)] =>
      destruct (score_picks_run selected_player winners lookup player picks 0 b0)
        as (Hscore & _ & Hresults & _)
  end.
  cbv zeta in Hscore, Hresults. rewrite Hscore, Hresults.
  assert (weekly_results
            (if negb (has_key (season_totals b) player)
             then {| season_totals :=
                       dict_set (season_totals b) player
                         {| correct := 0; weeks_played := 0 |};
                     weekly_results := weekly_results b;
                     team_stats := team_stats b;
                     counters := counters b |}
             else b)
          = weekly_results b) as -> by (by destruct (negb _)).
  destruct (_ || _); simpl; [|done].
  destruct (String.eqb week_str w) eqn:Hw.
  - apply String.eqb_eq in Hw. subst w. by rewrite dict_get_alter_eq.
  - apply String.eqb_neq in Hw. by rewrite dict_get_alter_ne.
Qed.

Lemma week_results (current_week : Z) (selected_player : string)
    (winners : gmap string json) (lookup : gmap string (json * json))
    (week_str : string) (players : list (string * list (string * string)))
    (b : board) (w : string) :
  dict_get
    (weekly_results
       (fold_left
          (score_player current_week selected_player winners lookup week_str)
          players b)) w
  = if (String.eqb week_str (pretty current_week)
        || String.eqb week_str (pretty (last_week current_week)))
       && String.eqb week_str w
    then week_scores winners players <$> dict_get (weekly_results b) w
    else dict_get (weekly_results b) w.
Proof.
  revert b. induction players as [|[player picks] players IH]; intros b.
  - simpl. destruct (_ && _); [|done].
    by destruct (dict_get (weekly_results b) w).
  - cbn [fold_left]. rewrite IH, score_player_results.
    destruct (_ && _); [|done].
    by destruct (dict_get (weekly_results b) w).
Qed.

Lemma loop_results_other (current_week : Z) (selected_player : string)
    (winners_of : string -> gmap string json)
    (lookup_of : string -> gmap string (json * json))
    (all_data : list (string * list (string * list (string * string))))
    (b : board) (w : string) :
  dict_get all_data w = None ->
  dict_get
    (weekly_results
       (fold_left
          (λ b week_entry,
             fold_left
               (score_player current_week selected_player
                  (winners_of week_entry.1) (lookup_of week_entry.1)
                  week_entry.1)
               week_entry.2 b)
          all_data b)) w
  = dict_get (weekly_results b) w.
Proof.
  revert b. induction all_data as [|[week_str players] all_data IH]; intros b;
    [done|].
  cbn [fold_left fst snd dict_get].
  destruct (String.eqb week_str w) eqn:Hw; [done|]. intros Hnone.
  rewrite IH, week_results by done. rewrite Hw.
  by rewrite andb_false_r.
Qed.

Lemma dict_get_fresh {A : Type} (d : list (string * A)) (k : string) :
  k ∉ d.*1 -> dict_get d k = None.
Proof.
  induction d as [|[k' v] d IH]; [done|]. cbn [fmap list_fmap fst dict_get].
  intros Hfresh. apply not_elem_of_cons in Hfresh as [Hne Hfresh].
  destruct (String.eqb k' k) eqn:E; [|by apply IH].
  apply String.eqb_eq in E. by subst.
Qed.

Lemma loop_results (current_week : Z) (selected_player : string)
    (winners_of : string -> gmap string json)
    (lookup_of : string -> gmap string (json * json))
    (all_data : list (string * list (string * list (string * string))))
    (b : board) (w : string) :
  NoDup all_data.*1 ->
  dict_get
    (weekly_results
       (fold_left
          (λ b week_entry,
             fold_left
               (score_player current_week selected_player
                  (winners_of week_entry.1) (lookup_of week_entry.1)
                  week_entry.1)
               week_entry.2 b)
          all_data b)) w
  = match dict_get all_data w with
    | Some players =>
        if String.eqb w (pretty current_week)
           || String.eqb w (pretty (last_week current_week))
        then week_scores (winners_of w) players <$> dict_get (weekly_results b) w
        else dict_get (weekly_results b) w
    | None => dict_get (weekly_results b) w
    end.
Proof.
  revert b. induction all_data as [|[week_str players] all_data IH]; intros b;
    [done|].
  cbn [fmap list_fmap fst]. intros [Hfresh Hnodup]%NoDup_cons.
  cbn [fold_left fst snd dict_get].
  destruct (String.eqb week_str w) eqn:Hw.
  - apply String.eqb_eq in Hw. subst week_str.
    rewrite loop_results_other by (by apply dict_get_fresh).
    rewrite week_results, String.eqb_refl. by rewrite andb_true_r.
  - rewrite IH, week_results by done. rewrite Hw.
    by rewrite andb_false_r.
Qed.

(** X19. The weekly results hold the current and the last week and no
    other: for a pick document whose week keys are distinct, the entry of
    one of the two weeks has the score of every player of that week, in
    the order of the document, and it is empty when the document has no
    such week. *)
Theorem weekly_results_two_weeks (current_week : Z) (selected_player : string)
    (winners_of : string -> gmap string json)
    (lookup_of : string -> gmap string (json * json))
    (all_data : list (string * list (string * list (string * string))))
    (w : string) :
  NoDup all_data.*1 ->
  dict_get
    (weekly_results
       (scoreboard_loop current_week selected_player winners_of lookup_of
          all_data)) w
  = if String.eqb w (pretty current_week)
       || String.eqb w (pretty (last_week current_week))
    then Some (week_scores (winners_of w) (default [] (dict_get all_data w)) [])
    else None.
Proof.
  intros Hnodup. unfold scoreboard_loop. rewrite loop_results by done.
  assert (dict_get (weekly_results (empty_board current_week)) w
          = if String.eqb w (pretty current_week)
               || String.eqb w (pretty (last_week current_week))
            then Some [] else None) as ->.
  { unfold empty_board. cbn [weekly_results].
    destruct (String.eqb w (pretty (last_week current_week))) eqn:Hlast.
    - apply String.eqb_eq in Hlast. subst w.
      rewrite dict_get_set_eq. by rewrite orb_true_r.
    - apply String.eqb_neq in Hlast.
      rewrite dict_get_set_ne by done. simpl. rewrite orb_false_r.
      by rewrite String.eqb_sym. }
  destruct (dict_get all_data w) as [players|]; simpl;
    by destruct (_ || _).
Qed.

Lemma weekly_results_two_weeks_witness :
  dict_get
    (weekly_results
       (scoreboard_loop 2 "alice" sample_winners sample_lookup sample_season))
    "1"
  = Some [("alice", 1); ("bob", 0)]
  ∧ dict_get
      (weekly_results
         (scoreboard_loop 3 "alice" sample_winners sample_lookup sample_season))
      "1"
    = None.
Proof.
  split.
  - etransitivity;
      [apply (weekly_results_two_weeks 2 "alice" sample_winners sample_lookup
                sample_season "1");
       apply (bool_decide_unpack _); vm_compute; exact I
      | vm_compute; reflexivity].
  - etransitivity;
      [apply (weekly_results_two_weeks 3 "alice" sample_winners sample_lookup
                sample_season "1");
       apply (bool_decide_unpack _); vm_compute; exact I
      | vm_compute; reflexivity].
Defined.

(** ** The order of the leaderboard *)

Lemma insert_row_perm (row : string * season) (rows : list (string * season)) :
  insert_row row rows ≡ₚ row :: rows.
Proof.
  induction rows as [|r rows IH]; simpl; [done|].
  destruct (correct row.2 <? correct r.2); [|done].
  rewrite IH. apply Permutation_swap.
Qed.

Lemma insert_row_sorted (row : string * season) (rows : list (string * season)) :
  Sorted (λ r1 r2 : string * season, correct r2.2 ≤ correct r1.2) rows ->
  Sorted (λ r1 r2 : string * season, correct r2.2 ≤ correct r1.2)
    (insert_row row rows).
Proof.
  induction rows as [|r rows IH]; intros Hsorted; simpl.
  - repeat constructor.
  - destruct (correct row.2 <? correct r.2) eqn:Hlt.
    + apply Z.ltb_lt in Hlt. apply Sorted_inv in Hsorted as [Hrows Hhd].
      constructor; [by apply IH|].
      destruct rows as [|r' rows]; simpl.
      * constructor. lia.
      * apply HdRel_inv in Hhd.
        destruct (correct row.2 <? correct r'.2); constructor; lia.
    + apply Z.ltb_ge in Hlt. constructor; [done|]. by constructor.
Qed.

Lemma insert_row_stable (c : Z) (row : string * season)
    (rows : list (string * season)) :
  List.filter (λ r : string * season, correct r.2 =? c) (insert_row row rows)
  = List.filter (λ r : string * season, correct r.2 =? c) (row :: rows).
Proof.
  induction rows as [|r rows IH]; [done|].
  cbn [insert_row].
  destruct (correct row.2 <? correct r.2) eqn:Hlt; [|done].
  apply Z.ltb_lt in Hlt. cbn [List.filter] in *. rewrite IH.
  destruct (correct row.2 =? c) eqn:Hrow; [|done].
  apply Z.eqb_eq in Hrow.
  assert ((correct r.2 =? c) = false) as -> by (apply Z.eqb_neq; lia).
  done.
Qed.

(** X20. The leaderboard is the season totals in another order: the same
    rows, by descending [correct], and rows with the same [correct] in the
    order in which the loop created them. *)
Theorem sorted_totals_descending_stable (rows : list (string * season)) :
  sorted_totals rows ≡ₚ rows
  ∧ StronglySorted (λ r1 r2 : string * season, correct r2.2 ≤ correct r1.2)
      (sorted_totals rows)
  ∧ ∀ c,
      List.filter (λ r : string * season, correct r.2 =? c) (sorted_totals rows)
      = List.filter (λ r : string * season, correct r.2 =? c) rows.
Proof.
  split; [|split].
  - induction rows as [|row rows IH]; [done|].
    cbn [sorted_totals fold_right]. rewrite insert_row_perm.
    by constructor.
  - apply Sorted_StronglySorted.
    { intros r1 r2 r3. lia. }
    induction rows as [|row rows IH]; [constructor|].
    by apply insert_row_sorted.
  - intros c. induction rows as [|row rows IH]; [done|].
    cbn [sorted_totals fold_right]. rewrite insert_row_stable.
    cbn [List.filter]. fold (sorted_totals rows). by rewrite IH.
Qed.

(** ** The favourite team *)

Lemma most_picked_run (rest : list (string * team_stat))
    (pre mid : list (string * team_stat)) (best : string * team_stat) :
  Forall (λ e : string * team_stat, times_picked e.2 < times_picked best.2) pre ->
  Forall (λ e : string * team_stat, times_picked e.2 ≤ times_picked best.2) mid ->
  ∃ pre' post',
    pre ++ best :: mid ++ rest
    = pre'
      ++ fold_left
           (λ best entry : string * team_stat,
              if times_picked best.2 <? times_picked entry.2 then entry
              else best)
           rest best
         :: post'
    ∧ Forall
        (λ e : string * team_stat,
           times_picked e.2
           < times_picked
               (fold_left
                  (λ best entry : string * team_stat,
                     if times_picked best.2 <? times_picked entry.2 then entry
                     else best)
                  rest best).2) pre'
    ∧ Forall
        (λ e : string * team_stat,
           times_picked e.2
           ≤ times_picked
               (fold_left
                  (λ best entry : string * team_stat,
                     if times_picked best.2 <? times_picked entry.2 then entry
                     else best)
                  rest best).2) post'.
Proof.
  revert pre mid best.
  induction rest as [|entry rest IH]; intros pre mid best Hpre Hmid.
  - exists pre, mid. by rewrite app_nil_r.
  - cbn [fold_left].
    destruct (times_picked best.2 <? times_picked entry.2) eqn:Hlt.
    + apply Z.ltb_lt in Hlt.
      destruct (IH (pre ++ best :: mid) [] entry) as (pre' & post' & Heq & H1 & H2).
      * apply Forall_app. split; [|constructor].
        -- eapply Forall_impl; [exact Hpre|]. simpl. intros. lia.
        -- done.
        -- eapply Forall_impl; [exact Hmid|]. simpl. intros. lia.
      * constructor.
      * exists pre', post'. split; [|done].
        rewrite <- Heq. by rewrite <- app_assoc.
    + apply Z.ltb_ge in Hlt.
      destruct (IH pre (mid ++ [entry]) best) as (pre' & post' & Heq & H1 & H2).
      * done.
      * apply Forall_app. split; [done|]. by constructor.
      * exists pre', post'. split; [|done].
        rewrite <- Heq. by rewrite <- app_assoc.
Qed.

(** X21. The favourite team is the first of the most picked ones: [None]
    only without any row; otherwise a key of [team_stats] such that every
    row before it was picked less often and no row after it more often. *)
Theorem fav_team_first_most_picked (stats : list (string * team_stat)) :
  match fav_team stats with
  | None => stats = []
  | Some t =>
      ∃ pre s post,
        stats = pre ++ (t, s) :: post
        ∧ Forall (λ e : string * team_stat, times_picked e.2 < times_picked s) pre
        ∧ Forall (λ e : string * team_stat, times_picked e.2 ≤ times_picked s) post
  end.
Proof.
  destruct stats as [|first rest]; [done|]. cbn [fav_team].
  destruct (most_picked_run rest [] [] first) as (pre & post & Heq & Hpre & Hpost);
    [constructor..|].
  set (best := fold_left _ rest first) in *.
  exists pre, best.2, post.
  by rewrite <- surjective_pairing.
Qed.

Lemma dict_get_is_Some {A : Type} (d : list (string * A)) (k : string) (v : A) :
  (k, v) ∈ d -> is_Some (dict_get d k).
Proof.
  induction d as [|[k' v'] d IH]; [by intros ?%elem_of_nil|].
  intros Hin. simpl. destruct (String.eqb k' k) eqn:E; [by eexists|].
  apply elem_of_cons in Hin as [[= <- <-]|Hin]; [|by apply IH].
  by rewrite String.eqb_refl in E.
Qed.

(** X22. Line 249 never raises: the favourite team is a key of
    [team_stats]. The name is ["N/A"] when nothing was picked. *)
Theorem fav_team_name_is_found (stats : list (string * team_stat)) :
  (∃ v, fav_team_name stats = Ok v)
  ∧ fav_team_name [] = Ok (JStr "N/A").
Proof.
  split; [|done]. unfold fav_team_name.
  destruct stats as [|first rest]; [by eexists|].
  destruct (most_picked_run rest [] [] first) as (pre & post & Heq & _);
    [constructor..|].
  cbn [fav_team].
  set (best := fold_left _ rest first) in *.
  destruct (String.eqb best.1 ""); [by eexists|].
  destruct (dict_get_is_Some (first :: rest) best.1 best.2) as [s Hs].
  - simpl in Heq. rewrite Heq, <- surjective_pairing.
    apply elem_of_app. right. left.
  - rewrite Hs. by eexists.
Qed.

(** ** Names for the winners *)

Lemma for_each_reaches {S A : Type} (P : S -> Prop) (body : S -> A -> result S)
    (l : list A) (x : A) (s r : S) :
  x ∈ l ->
  (∀ s0 y s1, body s0 y = Ok s1 -> P s0 -> P s1) ->
  (∀ s0 s1, body s0 x = Ok s1 -> P s1) ->
  for_each body l s = Ok r -> P r.
Proof.
  intros Hx Hkeep Hput. revert s.
  induction l as [|y l IH]; intros s Hrun; [by apply elem_of_nil in Hx|].
  simpl in Hrun. bind_inv Hrun.
  apply elem_of_cons in Hx as [->|Hx]; [|by eapply IH].
  revert Hrun. apply for_each_invariant; [by eapply Hput|].
  intros s0 z s1 _. intros HP Hstep. by eapply Hkeep.
Qed.

Lemma team_entry_keeps (lookup lookup' : gmap string (json * json))
    (competitor : json) (t : string) :
  team_entry lookup competitor = Ok lookup' ->
  is_Some (lookup !! t) -> is_Some (lookup' !! t).
Proof.
  unfold team_entry. intros Hrun Hold.
  bind_inv Hrun. bind_inv Hrun. bind_inv Hrun. bind_inv Hrun.
  destruct a; inversion Hrun; subst; try done.
  destruct (decide (s = t)) as [->|Hne].
  - rewrite lookup_insert_eq. by eexists.
  - by rewrite lookup_insert_ne.
Qed.

Lemma team_entry_puts (lookup lookup' : gmap string (json * json))
    (competitor : json) (t : string) :
  team_id competitor = Ok (JStr t) ->
  team_entry lookup competitor = Ok lookup' ->
  is_Some (lookup' !! t).
Proof.
  unfold team_entry. intros Hid Hrun. rewrite Hid in Hrun. simpl in Hrun.
  bind_inv Hrun. bind_inv Hrun. bind_inv Hrun.
  inversion Hrun; subst. rewrite lookup_insert_eq. by eexists.
Qed.

Lemma team_entries_keeps (lookup lookup' : gmap string (json * json))
    (event : json) (t : string) :
  team_entries lookup event = Ok lookup' ->
  is_Some (lookup !! t) -> is_Some (lookup' !! t).
Proof.
  unfold team_entries. intros Hrun Hold.
  bind_inv Hrun. bind_inv Hrun. bind_inv Hrun. revert Hrun.
  apply (for_each_invariant (λ l, is_Some (l !! t))); [done|].
  intros s0 c s1 _ HP Hstep. by eapply team_entry_keeps.
Qed.

Section WinnersHaveNames.

Context {lib : PyLib}.

(** X23. Every winner can be shown: when both the winners and the team
    lookup of a schedule are resolved, a team that [determine_winners]
    names as the winner of a game, by a string id, has an entry in the
    lookup. *)
Theorem winners_are_in_team_lookup (games : json) (w : gmap string json)
    (lookup : gmap string (json * json)) (k t : string) :
  determine_winners games = Ok w ->
  team_lookup games = Ok lookup ->
  w !! k = Some (JStr t) ->
  is_Some (lookup !! t).
Proof.
  intros Hwinners Hlookup Hk.
  destruct (determine_winners_events _ _ Hwinners)
    as [->|(evs & events & Hevs & Hiter & Hloop)].
  { by rewrite lookup_empty in Hk. }
  assert (∃ event competition cs competitors competitor,
            event ∈ events
            ∧ competition_of event = Ok competition
            ∧ getitem competition "competitors" = Ok cs
            ∧ py_iter cs = Ok competitors
            ∧ competitor ∈ competitors
            ∧ team_id competitor = Ok (JStr t))
    as (event & competition & cs & competitors & competitor
        & Hevent & Hcomp & Hcs & Hcompetitors & Hcompetitor & Hteam).
  { revert Hloop Hk.
    apply (for_each_invariant
             (λ w1, w1 !! k = Some (JStr t) -> ∃ event, _)).
    - intros Hk. by rewrite lookup_empty in Hk.
    - intros w0 ev w1 Hev IH Hstep Hk.
      destruct (record_event_lookup _ _ _ _ _ Hstep Hk)
        as [Hold|(competition & cs & competitors & c
                  & _ & ? & _ & ? & ? & ? & _ & ?)].
      + by apply IH.
      + exists ev, competition, cs, competitors, c. done. }
  unfold team_lookup in Hlookup. rewrite Hevs in Hlookup. simpl in Hlookup.
  rewrite Hiter in Hlookup. simpl in Hlookup.
  revert Hlookup.
  apply (for_each_reaches (λ l, is_Some (l !! t)) _ events event); [done| |].
  - intros s0 ev s1 Hstep. by eapply team_entries_keeps.
  - intros s0 s1. unfold team_entries.
    rewrite Hcomp. simpl. rewrite Hcs. simpl. rewrite Hcompetitors. simpl.
    apply (for_each_reaches (λ l, is_Some (l !! t)) _ competitors competitor);
      [done| |].
    + intros l0 c l1 Hstep. by eapply team_entry_keeps.
    + intros l0 l1. by apply team_entry_puts.
Qed.

End WinnersHaveNames.

Lemma winners_are_in_team_lookup_witness :
  is_Some
    (({[ "12" := (JStr "Chiefs",
                  JStr "https://a.espncdn.com/i/teamlogos/nfl/500/nfl.png");
         "7" := (JStr "Broncos",
                 JStr "https://a.espncdn.com/i/teamlogos/nfl/500/nfl.png");
         "3" := (JStr "Bears",
                 JStr "https://a.espncdn.com/i/teamlogos/nfl/500/nfl.png");
         "9" := (JStr "Packers",
                 JStr "https://a.espncdn.com/i/teamlogos/nfl/500/nfl.png") ]}
        : gmap string (json * json)) !! "12").
Proof.
  apply (winners_are_in_team_lookup (lib := model_lib) named_schedule
           {[ "401" := JStr "12" ]} _ "401" "12");
    [vm_compute; reflexivity | vm_compute; reflexivity | reflexivity].
Defined.

(** ** The list of players *)

Lemma insert_player_elem (p q : string) (players : list string) :
  q ∈ insert_player p players <-> q = p ∨ q ∈ players.
Proof.
  induction players as [|r players IH]; simpl.
  - rewrite elem_of_cons. split; [intros [->|?%elem_of_nil]; by left|].
    intros [->|?%elem_of_nil]; [by left|done].
  - destruct (String.compare p r) eqn:Hcmp.
    + apply String.compare_eq_iff in Hcmp. subst r.
      split; [by right|]. intros [->|?]; [left|done].
    + apply elem_of_cons.
    + rewrite !elem_of_cons, IH. tauto.
Qed.

Lemma insert_player_sorted (p : string) (players : list string) :
  Sorted (λ a b, String.compare a b = Lt) players ->
  Sorted (λ a b, String.compare a b = Lt) (insert_player p players).
Proof.
  induction players as [|r players IH]; intros Hsorted; simpl.
  - repeat constructor.
  - destruct (String.compare p r) eqn:Hcmp; [done| |].
    + constructor; [done|]. by constructor.
    + apply Sorted_inv in Hsorted as [Hplayers Hhd].
      constructor; [by apply IH|].
      assert (String.compare r p = Lt) as Hrp.
      { rewrite String.compare_antisym, Hcmp. done. }
      destruct players as [|r' players]; simpl.
      * by constructor.
      * apply HdRel_inv in Hhd.
        destruct (String.compare p r'); by constructor.
Qed.

(** X24. The player list of the leaderboard page holds exactly the names
    that have an entry in some week of the pick document, in strictly
    ascending order, so each of them once. *)
Theorem all_players_sorted_distinct
    (all_data : list (string * list (string * list (string * string)))) :
  Sorted (λ a b, String.compare a b = Lt) (all_players all_data)
  ∧ ∀ p,
      p ∈ all_players all_data
      <-> ∃ week_entry player_entry,
            week_entry ∈ all_data
            ∧ player_entry ∈ week_entry.2
            ∧ player_entry.1 = p.
Proof.
  unfold all_players.
  assert (∀ (players : list (string * list (string * string))) (acc : list string),
            let acc' :=
              fold_left
                (λ players (player_entry : string * list (string * string)),
                   insert_player player_entry.1 players)
                players acc in
            (Sorted (λ a b, String.compare a b = Lt) acc ->
             Sorted (λ a b, String.compare a b = Lt) acc')
            ∧ ∀ p, p ∈ acc'
                   <-> p ∈ acc
                       ∨ ∃ player_entry,
                           player_entry ∈ players ∧ player_entry.1 = p)
    as Hweek.
  { induction players as [|entry players IH]; intros acc; simpl.
    - split; [done|]. intros p. split; [by left|].
      intros [?|(? & ?%elem_of_nil & _)]; done.
    - destruct (IH (insert_player entry.1 acc)) as [Hsorted Helem].
      split.
      + intros Hacc. by apply Hsorted, insert_player_sorted.
      + intros p. rewrite Helem, insert_player_elem. split.
        * intros [[->|?]|(e & ? & ?)]; [right|by left|right].
          -- exists entry. split; [left|done].
          -- exists e. split; [by right|done].
        * intros [?|(e & [->|?]%elem_of_cons & ?)];
            [left; by right|left; by left|right; by exists e]. }
  assert (∀ (weeks : list (string * list (string * list (string * string))))
            (acc : list string),
            let acc' :=
              fold_left
                (λ players
                   (week_entry : string * list (string * list (string * string))),
                   fold_left
                     (λ players (player_entry : string * list (string * string)),
                        insert_player player_entry.1 players)
                     week_entry.2 players)
                weeks acc in
            (Sorted (λ a b, String.compare a b = Lt) acc ->
             Sorted (λ a b, String.compare a b = Lt) acc')
            ∧ ∀ p, p ∈ acc'
                   <-> p ∈ acc
                       ∨ ∃ week_entry player_entry,
                           week_entry ∈ weeks
                           ∧ player_entry ∈ week_entry.2
                           ∧ player_entry.1 = p)
    as Hall.
  { induction weeks as [|week weeks IH]; intros acc; simpl.
    - split; [done|]. intros p. split; [by left|].
      intros [?|(? & ? & ?%elem_of_nil & _)]; done.
    - destruct (Hweek week.2 acc) as [Hsorted1 Helem1].
      destruct (IH (fold_left
                      (λ players (player_entry : string * list (string * string)),
                         insert_player player_entry.1 players)
                      week.2 acc)) as [Hsorted Helem].
      split.
      + intros Hacc. by apply Hsorted, Hsorted1.
      + intros p. rewrite Helem, Helem1. split.
        * intros [[?|(e & ? & ?)]|(wk & e & ? & ? & ?)];
            [by left|right|right].
          -- exists week, e. split; [left|done].
          -- exists wk, e. split; [by right|done].
        * intros [?|(wk & e & [->|?]%elem_of_cons & ? & ?)];
            [left; by left|left; right; by exists e|right; by exists wk, e]. }
  destruct (Hall all_data []) as [Hsorted Helem]. split.
  - apply Hsorted. constructor.
  - intros p. rewrite Helem. split; [|by right].
    intros [?%elem_of_nil|?]; done.
Qed.

(** ** Viewing a week *)

Section Viewing.

Context {lib : PyLib}.


(** X25. Viewing a week writes nothing, although lines 139-143 add the
    entries of the week and of the user to the document in memory: a [GET]
    leaves files, saves, session and flashes as they were; and on a pick
    document it renders the stored picks of the user for the week, or the
    empty dictionary when there are none. *)
Theorem week_view_get_only_reads (o : outside) (week : Z)
    (form : list (string * string)) (w : world) (user : string) (doc : json) :
  session_user w = Some user ->
  load_json (files w) PICKS_FILE = Ok doc ->
  pick_document doc ->
  week_view o GET week form w
  = (Ok (RenderWeek week (get_espn_schedule o week)
           match user_picks_of doc (pretty week) user with
           | Ok picks => picks
           | Raise _ => JObj []
           end
           (now_utc o)),
     w).
Proof.
  intros Huser Hload Hdoc.
  destruct (ensure_entries_picks doc (pretty week) user Hdoc)
    as (all_data & Hensure & Hpicks).
  unfold week_view. rewrite Huser, Hload. simpl. rewrite Hensure.
  unfold user_picks_of in Hpicks.
  destruct (getitem all_data (pretty week)) as [wk|] eqn:Hweek; [|done].
  simpl in *.
  destruct wk as [| | | | |users]; try done. simpl in *.
  destruct (dict_get users user) as [picks|]; [|done]. simpl.
  by inversion Hpicks.
Qed.

End Viewing.

Lemma week_view_get_only_reads_witness :
  week_view (lib := reading_lib) sample_outside GET 1 [("401", "12")]
    alice_with_picks
  = (Ok (RenderWeek 1 sample_schedule (JObj [("401", JStr "7")])
           1725814800000000),
     alice_with_picks)
  ∧ week_view (lib := reading_lib) sample_outside GET 3 [] alice_with_picks
    = (Ok (RenderWeek 3 sample_schedule (JObj []) 1725814800000000),
       alice_with_picks).
Proof.
  split.
  - apply (week_view_get_only_reads (lib := reading_lib) sample_outside 1
             [("401", "12")] alice_with_picks "alice" two_players);
      [reflexivity | reflexivity | repeat constructor].
  - apply (week_view_get_only_reads (lib := reading_lib) sample_outside 3
             [] alice_with_picks "alice" two_players);
      [reflexivity | reflexivity | repeat constructor].
Defined.
